(** * Guest-count scraper: the extraction engine of [app/scraper.py]

    A shallow embedding of the scraping module.  Python strings are lists
    of code points; the compiled patterns are terms of a small
    regular-expression syntax run by a backtracking matcher with the
    priorities of Python's [re]; the library calls the module relies on
    ([re.sub], [str.find], [str.strip], [int], [float], [html.unescape]
    with its table of named references) are modelled as the interpreter
    runs them, exceptions included; the effectful entry points thread an
    explicit world (the feed still to come, the time waited, the trace of
    actions) and take the behaviour of the network and of the file system
    from an environment.  Logging and task cancellation are left out. *)

From Stdlib Require Import String Ascii DecimalString SpecFloat.
From Stdlib Require Import List NArith ZArith Bool Arith Lia.
Import ListNotations.

Set Implicit Arguments.

(** ** Python strings *)

(** A character is a Unicode code point; a [str] is a sequence of them.
    Indexing, slicing and the patterns all work on code points. *)
Definition char := N.
Definition str := list char.

(** Source literals are written as Rocq strings, read as UTF-8. *)
Fixpoint utf8_go (bs : list N) (need : nat) (acc : N) : str :=
  match bs with
  | [] => []
  | b :: bs' =>
      match need with
      | O =>
          if (b <? 128)%N then b :: utf8_go bs' 0 0%N
          else if (b <? 224)%N then utf8_go bs' 1 (b - 192)%N
          else if (b <? 240)%N then utf8_go bs' 2 (b - 224)%N
          else utf8_go bs' 3 (b - 240)%N
      | S n =>
          let acc' := (acc * 64 + (b - 128))%N in
          match n with
          | O => acc' :: utf8_go bs' 0 0%N
          | S _ => utf8_go bs' n acc'
          end
      end
  end.

Definition py (s : string) : str :=
  utf8_go (map N_of_ascii (list_ascii_of_string s)) 0 0%N.

Definition char_of (s : string) : char :=
  match py s with c :: _ => c | [] => 0%N end.

Definition char_eqb (a b : char) : bool := N.eqb a b.

Fixpoint str_eqb (a b : str) : bool :=
  match a, b with
  | [], [] => true
  | x :: a', y :: b' => char_eqb x y && str_eqb a' b'
  | _, _ => false
  end.

Definition mem (c : char) (s : str) : bool := existsb (char_eqb c) s.

(** [s[i:j]] for non-negative bounds. *)
Definition slice (s : str) (i j : nat) : str := firstn (j - i) (skipn i s).

(** ** Results and exceptions *)

Inductive exn : Type :=
| GuestCountError (msg : string)
| ValueError
| TypeError
| HTTPError
| TimeoutError
| JSONDecodeError
| ConnectionClosed
| OtherException.

Inductive result (A : Type) : Type :=
| Ok (a : A)
| Raise (e : exn).
Arguments Ok {A} a.
Arguments Raise {A} e.

Definition bind {A B : Type} (x : result A) (f : A -> result B) : result B :=
  match x with
  | Ok a => f a
  | Raise e => Raise e
  end.

Notation "'do' x <- c1 ; c2" := (bind c1 (fun x => c2))
  (at level 10, x binder, c1 at level 100, c2 at level 200).

(** ** Character categories *)

(** [str.isspace] and the pattern class [\s] on [str] patterns. *)
Definition is_space (c : char) : bool :=
  ((9 <=? c) && (c <=? 13) || (28 <=? c) && (c <=? 32)
   || (c =? 133) || (c =? 160) || (c =? 5760)
   || (8192 <=? c) && (c <=? 8202)
   || (c =? 8232) || (c =? 8233) || (c =? 8239) || (c =? 8287)
   || (c =? 12288))%N.

(** First code point of every run of ten decimal digits (general category
    Nd); the fifty mathematical digits from U+1D7CE are five such runs. *)
Definition decimal_zeros : list N :=
  [ 48; 1632; 1776; 1984; 2406; 2534; 2662; 2790; 2918; 3046; 3174; 3302;
    3430; 3558; 3664; 3792; 3872; 4160; 4240; 6112; 6160; 6470; 6608; 6784;
    6800; 6992; 7088; 7232; 7248; 42528; 43216; 43264; 43472; 43504; 43600;
    44016; 65296; 66720; 68912; 69734; 69872; 69942; 70096; 70384; 70736;
    70864; 71248; 71360; 71472; 71904; 72016; 72784; 73040; 73120; 92768;
    92864; 93008; 120782; 120792; 120802; 120812; 120822; 123200; 123632;
    125264; 130032 ]%N.

(** The decimal value of a digit character, [None] for any other. *)
Fixpoint decimal_in (zs : list N) (c : char) : option N :=
  match zs with
  | [] => None
  | z :: zs' =>
      if ((z <=? c) && (c <? z + 10))%N then Some (c - z)%N
      else decimal_in zs' c
  end.

Definition decimal_value (c : char) : option N := decimal_in decimal_zeros c.

(** The pattern class [\d] on [str] patterns: any decimal digit. *)
Definition is_digit (c : char) : bool :=
  match decimal_value c with Some _ => true | None => false end.

(** The explicit class [[0-9]]. *)
Definition is_ascii_digit (c : char) : bool := ((48 <=? c) && (c <=? 57))%N.

(** Simple lower-case mapping, on the characters that map to a letter used
    by the patterns below (ASCII and Latin-1 capitals, the dotted capital I,
    the Kelvin sign); every other character of interest is its own image. *)
Definition tolower (c : char) : char :=
  if ((65 <=? c) && (c <=? 90))%N then (c + 32)%N
  else if ((192 <=? c) && (c <=? 222) && negb (c =? 215))%N then (c + 32)%N
  else if (c =? 304)%N then 105%N
  else if (c =? 8490)%N then 107%N
  else c.

(** Extra case-insensitive equivalents of a lower-case letter: dotless i for
    i, long s for s. *)
Definition ignorecase_fixes (lo : char) : list char :=
  if (lo =? 105)%N then [305%N]
  else if (lo =? 115)%N then [383%N]
  else [].

(** A literal [c] compiled under [re.IGNORECASE] accepts [x]. *)
Definition ci_eqb (c x : char) : bool :=
  let lo := tolower c in
  let x' := tolower x in
  char_eqb x' lo || mem x' (ignorecase_fixes lo).

(** ** Regular expressions *)

(** The fragment of [re] syntax the module uses.  Repetition is applied to
    single-character classes only, as in every pattern below. *)
Inductive re : Type :=
| Eps
| Cls (p : char -> bool)
| Rep (p : char -> bool) (lo : nat) (hi : option nat)
| Cat (r1 r2 : re)
| Alt (r1 r2 : re)
| Opt (r : re)
| Grp (r : re).

Declare Scope re_scope.
Delimit Scope re_scope with re.
Bind Scope re_scope with re.
Infix ";;" := Cat (at level 61, right associativity) : re_scope.

Definition star (p : char -> bool) : re := Rep p 0 None.
Definition plus (p : char -> bool) : re := Rep p 1 None.

(** A literal string, case-sensitive or compiled under IGNORECASE. *)
Fixpoint lits (eq : char -> char -> bool) (s : str) : re :=
  match s with
  | [] => Eps
  | [c] => Cls (eq c)
  | c :: s' => Cat (Cls (eq c)) (lits eq s')
  end.

Definition lit (s : string) : re := lits char_eqb (py s).
Definition liti (s : string) : re := lits ci_eqb (py s).

(** A set [[...]] and its complement [[^...]], given by their members. *)
Definition oneof (s : str) : char -> bool := fun c => mem c s.
Definition noneof (s : str) : char -> bool := fun c => negb (mem c s).
(** A set compiled under IGNORECASE. *)
Definition oneofi (s : str) : char -> bool :=
  fun c => existsb (fun a => ci_eqb a c) s.

(** The double and the single quote. *)
Definition quotes : str := [34; 39]%N.

Section Matcher.
Variable T : Type.

(** Greedy repetition of a class: take as many characters as allowed, then
    give one back at a time until the continuation accepts. *)
Fixpoint rep (p : char -> bool) (lo : nat) (hi : option nat) (s : str)
         (k : str -> option T) {struct s} : option T :=
  let stop := match lo with O => k s | S _ => None end in
  match s with
  | [] => stop
  | c :: s' =>
      match hi with
      | Some O => stop
      | _ =>
          if p c then
            match rep p (pred lo) (option_map pred hi) s' k with
            | Some x => Some x
            | None => stop
            end
          else stop
      end
  end.

(** Backtracking matcher in continuation-passing style.  [g] is the text
    captured by group 1 so far; alternatives are tried left to right and
    the first success wins, as in [re]. *)
Fixpoint run (r : re) (s : str) (g : option str)
         (k : str -> option str -> option T) {struct r} : option T :=
  match r with
  | Eps => k s g
  | Cls p =>
      match s with
      | c :: s' => if p c then k s' g else None
      | [] => None
      end
  | Rep p lo hi => rep p lo hi s (fun s' => k s' g)
  | Cat r1 r2 => run r1 s g (fun s' g' => run r2 s' g' k)
  | Alt r1 r2 =>
      match run r1 s g k with
      | Some x => Some x
      | None => run r2 s g k
      end
  | Opt r1 =>
      match run r1 s g k with
      | Some x => Some x
      | None => k s g
      end
  | Grp r1 =>
      run r1 s g
          (fun s' _ => k s' (Some (firstn (length s - length s') s)))
  end.
End Matcher.

(** What a successful match exposes: [m.start()], [m.end()], [m.group(1)]
    ([None] when the group took no part in the match). *)
Record Match : Type := mkMatch {
  m_start : nat;
  m_end : nat;
  m_group1 : option str
}.

(** [pattern.match] on the suffix [s] that begins at index [pos]. *)
Definition match_here (r : re) (s : str) (pos : nat) : option Match :=
  run r s None
      (fun s' g => Some (mkMatch pos (pos + (length s - length s')) g)).

(** [pattern.search]: the match at the leftmost position that has one. *)
Fixpoint search_from (r : re) (s : str) (pos : nat) : option Match :=
  match match_here r s pos with
  | Some m => Some m
  | None =>
      match s with
      | [] => None
      | _ :: s' => search_from r s' (S pos)
      end
  end.

Definition search (r : re) (s : str) : option Match := search_from r s 0.

(** [pattern.sub(repl, s)] with [repl] a string: matches are replaced left
    to right without overlap.  [skip] counts the characters of the current
    match still to be dropped. *)
Fixpoint sub_aux (r : re) (repl : str) (s : str) (skip : nat) : str :=
  match s with
  | [] =>
      match skip, match_here r [] 0 with
      | O, Some _ => repl
      | _, _ => []
      end
  | c :: s' =>
      match skip with
      | S n => sub_aux r repl s' n
      | O =>
          match match_here r s 0 with
          | None => c :: sub_aux r repl s' 0
          | Some m =>
              match m_end m with
              | O => repl ++ c :: sub_aux r repl s' 0
              | S n => repl ++ sub_aux r repl s' n
              end
          end
      end
  end.

Definition sub (r : re) (repl : str) (s : str) : str := sub_aux r repl s 0.

(** [pattern.sub(repl, s)] with [repl] a function of group 1, which may
    raise: the first exception ends the substitution. *)
Fixpoint sub_fn_aux (r : re) (repl : option str -> result str) (s : str)
         (skip : nat) : result str :=
  match s with
  | [] =>
      match skip, match_here r [] 0 with
      | O, Some m => repl (m_group1 m)
      | _, _ => Ok []
      end
  | c :: s' =>
      match skip with
      | S n => sub_fn_aux r repl s' n
      | O =>
          match match_here r s 0 with
          | None =>
              do rest <- sub_fn_aux r repl s' 0 ;
              Ok (c :: rest)
          | Some m =>
              do out <- repl (m_group1 m) ;
              match m_end m with
              | O =>
                  do rest <- sub_fn_aux r repl s' 0 ;
                  Ok (out ++ c :: rest)
              | S n =>
                  do rest <- sub_fn_aux r repl s' n ;
                  Ok (out ++ rest)
              end
          end
      end
  end.

Definition sub_fn (r : re) (repl : option str -> result str) (s : str)
  : result str :=
  sub_fn_aux r repl s 0.

(** ** The module's patterns *)

(** COUNT_PATTERN: [Anzahl\s+G[äa]ste[^0-9]*(\d+)], IGNORECASE *)
Definition COUNT_PATTERN : re :=
  (liti "Anzahl" ;; plus is_space ;; liti "G" ;; Cls (oneofi (py "äa")) ;;
   liti "ste" ;; star (fun c => negb (is_ascii_digit c)) ;;
   Grp (plus is_digit))%re.

(** COUNT_ID_PATTERN, IGNORECASE, with Q for the class of the two quotes:
    [<td[^>]*id=QSSD-(?:\d+)_visitornumberQ[^>]*>\s*(\d+)\s*<] *)
Definition COUNT_ID_PATTERN : re :=
  (liti "<td" ;; star (noneof (py ">")) ;; liti "id=" ;; Cls (oneof quotes) ;;
   liti "SSD-" ;; plus is_digit ;; liti "_visitornumber" ;;
   Cls (oneof quotes) ;; star (noneof (py ">")) ;; liti ">" ;; star is_space ;;
   Grp (plus is_digit) ;; star is_space ;; liti "<")%re.

(** UID_IN_MARKUP_PATTERN: [(SSD-\d+)_visitornumber] *)
Definition UID_IN_MARKUP_PATTERN : re :=
  (Grp (lit "SSD-" ;; plus is_digit) ;; lit "_visitornumber")%re.

(** CAPACITY_PATTERN, IGNORECASE: an optional [max\.?\s*], then
    [Kapazit[aä]t|von], then [\s*(\d+)] *)
Definition CAPACITY_PATTERN : re :=
  (Opt (liti "max" ;; Opt (liti ".") ;; star is_space) ;;
   Alt (liti "Kapazit" ;; Cls (oneofi (py "aä")) ;; liti "t") (liti "von") ;;
   star is_space ;; Grp (plus is_digit))%re.


(** ** String methods and conversions *)

Fixpoint starts_with (p s : str) : bool :=
  match p, s with
  | [], _ => true
  | a :: p', b :: s' => char_eqb a b && starts_with p' s'
  | _ :: _, [] => false
  end.

(** [s.find(p)]: the lowest index where [p] occurs; [None] stands for the
    source's [-1]. *)
Fixpoint find_from (p s : str) (pos : nat) : option nat :=
  if starts_with p s then Some pos
  else match s with
       | [] => None
       | _ :: s' => find_from p s' (S pos)
       end.

Definition find (p s : str) : option nat := find_from p s 0.

Fixpoint drop_while (p : char -> bool) (s : str) : str :=
  match s with
  | [] => []
  | c :: s' => if p c then drop_while p s' else s
  end.

Definition lstrip (s : str) : str := drop_while is_space s.
Definition rstrip (s : str) : str := rev (drop_while is_space (rev s)).
(** [s.strip()] *)
Definition strip (s : str) : str := rstrip (lstrip s).
(** [s.rstrip(';')] *)
Definition rstrip_semi (s : str) : str :=
  rev (drop_while (char_eqb 59%N) (rev s)).

(** [str(n)] for an integer. *)
Definition str_of_int (n : Z) : str :=
  match n with
  | Zneg p => 45%N :: py (NilZero.string_of_uint (Pos.to_uint p))
  | _ => py (NilZero.string_of_uint (N.to_uint (Z.to_N n)))
  end.

(** Horner evaluation of a run of digits in a base. *)
Fixpoint digits_value (base : N) (value : char -> option N) (s : str)
         (acc : N) : option N :=
  match s with
  | [] => Some acc
  | c :: s' =>
      match value c with
      | Some d => digits_value base value s' (acc * base + d)%N
      | None => None
      end
  end.

(** The digit groups of an integer literal: single underscores are allowed
    between digits only. *)
Fixpoint drop_underscores (digit : char -> bool) (s : str) (after_digit : bool)
  : option str :=
  match s with
  | [] => if after_digit then Some [] else None
  | c :: s' =>
      if digit c then option_map (cons c) (drop_underscores digit s' true)
      else if char_eqb c 95%N && after_digit
      then drop_underscores digit s' false
      else None
  end.

(** What the interpreter does to a [str] before it parses a number: ASCII is
    kept, other white space becomes a space, other decimal digits become
    ASCII digits, and anything else is not a number. *)
Fixpoint to_ascii_decimal (s : str) : option str :=
  match s with
  | [] => Some []
  | c :: s' =>
      let c' :=
        if (c <? 128)%N then Some c
        else if is_space c then Some 32%N
        else option_map (fun d => (48 + d)%N) (decimal_value c) in
      match c', to_ascii_decimal s' with
      | Some x, Some r => Some (x :: r)
      | _, _ => None
      end
  end.

Definition is_ascii_space (c : char) : bool :=
  ((9 <=? c) && (c <=? 13) || (c =? 32))%N.

Definition ascii_strip (s : str) : str :=
  rev (drop_while is_ascii_space (rev (drop_while is_ascii_space s))).

Definition ascii_digit_value (c : char) : option N :=
  if is_ascii_digit c then Some (c - 48)%N else None.

(** The interpreter's cap on the number of digits of a decimal conversion
    ([sys.get_int_max_str_digits()], 4300 unless configured otherwise). *)
Definition int_max_str_digits : N := 4300%N.

(** [int(s)] on a [str]: [None] is [ValueError], raised for text that is
    no integer and for more digits than the cap. *)
Definition int_of_str (s : str) : option Z :=
  match to_ascii_decimal s with
  | None => None
  | Some a =>
      let body := ascii_strip a in
      let '(neg, ds) :=
        match body with
        | c :: r =>
            if char_eqb c 45%N then (true, r)
            else if char_eqb c 43%N then (false, r)
            else (false, body)
        | [] => (false, body)
        end in
      match drop_underscores is_ascii_digit ds false with
      | None => None
      | Some ds' =>
          if (int_max_str_digits <? N.of_nat (length ds'))%N then None
          else
            match digits_value 10 ascii_digit_value ds' 0 with
            | Some n => Some (if neg then (- Z.of_N n)%Z else Z.of_N n)
            | None => None
            end
      end
  end.

Definition hex_digit_value (c : char) : option N :=
  if is_ascii_digit c then Some (c - 48)%N
  else if ((97 <=? c) && (c <=? 102))%N then Some (c - 87)%N
  else if ((65 <=? c) && (c <=? 70))%N then Some (c - 55)%N
  else None.

Definition is_hex_digit (c : char) : bool :=
  match hex_digit_value c with Some _ => true | None => false end.

(** ** [html.unescape] *)

(** The named character references ([html.entities.html5]). *)
Local Open Scope string_scope.
Definition html5 : list (string * list N) :=
  ([
    ("AElig", [198]); ("AElig;", [198]); ("AMP", [38]); ("AMP;", [38]);
    ("Aacute", [193]); ("Aacute;", [193]); ("Abreve;", [258]);
    ("Acirc", [194]); ("Acirc;", [194]); ("Acy;", [1040]); ("Afr;", [120068]);
    ("Agrave", [192]); ("Agrave;", [192]); ("Alpha;", [913]);
    ("Amacr;", [256]); ("And;", [10835]); ("Aogon;", [260]);
    ("Aopf;", [120120]); ("ApplyFunction;", [8289]); ("Aring", [197]);
    ("Aring;", [197]); ("Ascr;", [119964]); ("Assign;", [8788]);
    ("Atilde", [195]); ("Atilde;", [195]); ("Auml", [196]); ("Auml;", [196]);
    ("Backslash;", [8726]); ("Barv;", [10983]); ("Barwed;", [8966]);
    ("Bcy;", [1041]); ("Because;", [8757]); ("Bernoullis;", [8492]);
    ("Beta;", [914]); ("Bfr;", [120069]); ("Bopf;", [120121]);
    ("Breve;", [728]); ("Bscr;", [8492]); ("Bumpeq;", [8782]);
    ("CHcy;", [1063]); ("COPY", [169]); ("COPY;", [169]); ("Cacute;", [262]);
    ("Cap;", [8914]); ("CapitalDifferentialD;", [8517]); ("Cayleys;", [8493]);
    ("Ccaron;", [268]); ("Ccedil", [199]); ("Ccedil;", [199]);
    ("Ccirc;", [264]); ("Cconint;", [8752]); ("Cdot;", [266]);
    ("Cedilla;", [184]); ("CenterDot;", [183]); ("Cfr;", [8493]);
    ("Chi;", [935]); ("CircleDot;", [8857]); ("CircleMinus;", [8854]);
    ("CirclePlus;", [8853]); ("CircleTimes;", [8855]);
    ("ClockwiseContourIntegral;", [8754]); ("CloseCurlyDoubleQuote;", [8221]);
    ("CloseCurlyQuote;", [8217]); ("Colon;", [8759]); ("Colone;", [10868]);
    ("Congruent;", [8801]); ("Conint;", [8751]); ("ContourIntegral;", [8750]);
    ("Copf;", [8450]); ("Coproduct;", [8720]);
    ("CounterClockwiseContourIntegral;", [8755]); ("Cross;", [10799]);
    ("Cscr;", [119966]); ("Cup;", [8915]); ("CupCap;", [8781]);
    ("DD;", [8517]); ("DDotrahd;", [10513]); ("DJcy;", [1026]);
    ("DScy;", [1029]); ("DZcy;", [1039]); ("Dagger;", [8225]);
    ("Darr;", [8609]); ("Dashv;", [10980]); ("Dcaron;", [270]);
    ("Dcy;", [1044]); ("Del;", [8711]); ("Delta;", [916]); ("Dfr;", [120071]);
    ("DiacriticalAcute;", [180]); ("DiacriticalDot;", [729]);
    ("DiacriticalDoubleAcute;", [733]); ("DiacriticalGrave;", [96]);
    ("DiacriticalTilde;", [732]); ("Diamond;", [8900]);
    ("DifferentialD;", [8518]); ("Dopf;", [120123]); ("Dot;", [168]);
    ("DotDot;", [8412]); ("DotEqual;", [8784]);
    ("DoubleContourIntegral;", [8751]); ("DoubleDot;", [168]);
    ("DoubleDownArrow;", [8659]); ("DoubleLeftArrow;", [8656]);
    ("DoubleLeftRightArrow;", [8660]); ("DoubleLeftTee;", [10980]);
    ("DoubleLongLeftArrow;", [10232]); ("DoubleLongLeftRightArrow;", [10234]);
    ("DoubleLongRightArrow;", [10233]); ("DoubleRightArrow;", [8658]);
    ("DoubleRightTee;", [8872]); ("DoubleUpArrow;", [8657]);
    ("DoubleUpDownArrow;", [8661]); ("DoubleVerticalBar;", [8741]);
    ("DownArrow;", [8595]); ("DownArrowBar;", [10515]);
    ("DownArrowUpArrow;", [8693]); ("DownBreve;", [785]);
    ("DownLeftRightVector;", [10576]); ("DownLeftTeeVector;", [10590]);
    ("DownLeftVector;", [8637]); ("DownLeftVectorBar;", [10582]);
    ("DownRightTeeVector;", [10591]); ("DownRightVector;", [8641]);
    ("DownRightVectorBar;", [10583]); ("DownTee;", [8868]);
    ("DownTeeArrow;", [8615]); ("Downarrow;", [8659]); ("Dscr;", [119967]);
    ("Dstrok;", [272]); ("ENG;", [330]); ("ETH", [208]); ("ETH;", [208]);
    ("Eacute", [201]); ("Eacute;", [201]); ("Ecaron;", [282]);
    ("Ecirc", [202]); ("Ecirc;", [202]); ("Ecy;", [1069]); ("Edot;", [278]);
    ("Efr;", [120072]); ("Egrave", [200]); ("Egrave;", [200]);
    ("Element;", [8712]); ("Emacr;", [274]); ("EmptySmallSquare;", [9723]);
    ("EmptyVerySmallSquare;", [9643]); ("Eogon;", [280]); ("Eopf;", [120124]);
    ("Epsilon;", [917]); ("Equal;", [10869]); ("EqualTilde;", [8770]);
    ("Equilibrium;", [8652]); ("Escr;", [8496]); ("Esim;", [10867]);
    ("Eta;", [919]); ("Euml", [203]); ("Euml;", [203]); ("Exists;", [8707]);
    ("ExponentialE;", [8519]); ("Fcy;", [1060]); ("Ffr;", [120073]);
    ("FilledSmallSquare;", [9724]); ("FilledVerySmallSquare;", [9642]);
    ("Fopf;", [120125]); ("ForAll;", [8704]); ("Fouriertrf;", [8497]);
    ("Fscr;", [8497]); ("GJcy;", [1027]); ("GT", [62]); ("GT;", [62]);
    ("Gamma;", [915]); ("Gammad;", [988]); ("Gbreve;", [286]);
    ("Gcedil;", [290]); ("Gcirc;", [284]); ("Gcy;", [1043]); ("Gdot;", [288]);
    ("Gfr;", [120074]); ("Gg;", [8921]); ("Gopf;", [120126]);
    ("GreaterEqual;", [8805]); ("GreaterEqualLess;", [8923]);
    ("GreaterFullEqual;", [8807]); ("GreaterGreater;", [10914]);
    ("GreaterLess;", [8823]); ("GreaterSlantEqual;", [10878]);
    ("GreaterTilde;", [8819]); ("Gscr;", [119970]); ("Gt;", [8811]);
    ("HARDcy;", [1066]); ("Hacek;", [711]); ("Hat;", [94]); ("Hcirc;", [292]);
    ("Hfr;", [8460]); ("HilbertSpace;", [8459]); ("Hopf;", [8461]);
    ("HorizontalLine;", [9472]); ("Hscr;", [8459]); ("Hstrok;", [294]);
    ("HumpDownHump;", [8782]); ("HumpEqual;", [8783]); ("IEcy;", [1045]);
    ("IJlig;", [306]); ("IOcy;", [1025]); ("Iacute", [205]);
    ("Iacute;", [205]); ("Icirc", [206]); ("Icirc;", [206]); ("Icy;", [1048]);
    ("Idot;", [304]); ("Ifr;", [8465]); ("Igrave", [204]); ("Igrave;", [204]);
    ("Im;", [8465]); ("Imacr;", [298]); ("ImaginaryI;", [8520]);
    ("Implies;", [8658]); ("Int;", [8748]); ("Integral;", [8747]);
    ("Intersection;", [8898]); ("InvisibleComma;", [8291]);
    ("InvisibleTimes;", [8290]); ("Iogon;", [302]); ("Iopf;", [120128]);
    ("Iota;", [921]); ("Iscr;", [8464]); ("Itilde;", [296]);
    ("Iukcy;", [1030]); ("Iuml", [207]); ("Iuml;", [207]); ("Jcirc;", [308]);
    ("Jcy;", [1049]); ("Jfr;", [120077]); ("Jopf;", [120129]);
    ("Jscr;", [119973]); ("Jsercy;", [1032]); ("Jukcy;", [1028]);
    ("KHcy;", [1061]); ("KJcy;", [1036]); ("Kappa;", [922]);
    ("Kcedil;", [310]); ("Kcy;", [1050]); ("Kfr;", [120078]);
    ("Kopf;", [120130]); ("Kscr;", [119974]); ("LJcy;", [1033]); ("LT", [60]);
    ("LT;", [60]); ("Lacute;", [313]); ("Lambda;", [923]); ("Lang;", [10218]);
    ("Laplacetrf;", [8466]); ("Larr;", [8606]); ("Lcaron;", [317]);
    ("Lcedil;", [315]); ("Lcy;", [1051]); ("LeftAngleBracket;", [10216]);
    ("LeftArrow;", [8592]); ("LeftArrowBar;", [8676]);
    ("LeftArrowRightArrow;", [8646]); ("LeftCeiling;", [8968]);
    ("LeftDoubleBracket;", [10214]); ("LeftDownTeeVector;", [10593]);
    ("LeftDownVector;", [8643]); ("LeftDownVectorBar;", [10585]);
    ("LeftFloor;", [8970]); ("LeftRightArrow;", [8596]);
    ("LeftRightVector;", [10574]); ("LeftTee;", [8867]);
    ("LeftTeeArrow;", [8612]); ("LeftTeeVector;", [10586]);
    ("LeftTriangle;", [8882]); ("LeftTriangleBar;", [10703]);
    ("LeftTriangleEqual;", [8884]); ("LeftUpDownVector;", [10577]);
    ("LeftUpTeeVector;", [10592]); ("LeftUpVector;", [8639]);
    ("LeftUpVectorBar;", [10584]); ("LeftVector;", [8636]);
    ("LeftVectorBar;", [10578]); ("Leftarrow;", [8656]);
    ("Leftrightarrow;", [8660]); ("LessEqualGreater;", [8922]);
    ("LessFullEqual;", [8806]); ("LessGreater;", [8822]);
    ("LessLess;", [10913]); ("LessSlantEqual;", [10877]);
    ("LessTilde;", [8818]); ("Lfr;", [120079]); ("Ll;", [8920]);
    ("Lleftarrow;", [8666]); ("Lmidot;", [319]); ("LongLeftArrow;", [10229]);
    ("LongLeftRightArrow;", [10231]); ("LongRightArrow;", [10230]);
    ("Longleftarrow;", [10232]); ("Longleftrightarrow;", [10234]);
    ("Longrightarrow;", [10233]); ("Lopf;", [120131]);
    ("LowerLeftArrow;", [8601]); ("LowerRightArrow;", [8600]);
    ("Lscr;", [8466]); ("Lsh;", [8624]); ("Lstrok;", [321]); ("Lt;", [8810]);
    ("Map;", [10501]); ("Mcy;", [1052]); ("MediumSpace;", [8287]);
    ("Mellintrf;", [8499]); ("Mfr;", [120080]); ("MinusPlus;", [8723]);
    ("Mopf;", [120132]); ("Mscr;", [8499]); ("Mu;", [924]); ("NJcy;", [1034]);
    ("Nacute;", [323]); ("Ncaron;", [327]); ("Ncedil;", [325]);
    ("Ncy;", [1053]); ("NegativeMediumSpace;", [8203]);
    ("NegativeThickSpace;", [8203]); ("NegativeThinSpace;", [8203]);
    ("NegativeVeryThinSpace;", [8203]); ("NestedGreaterGreater;", [8811]);
    ("NestedLessLess;", [8810]); ("NewLine;", [10]); ("Nfr;", [120081]);
    ("NoBreak;", [8288]); ("NonBreakingSpace;", [160]); ("Nopf;", [8469]);
    ("Not;", [10988]); ("NotCongruent;", [8802]); ("NotCupCap;", [8813]);
    ("NotDoubleVerticalBar;", [8742]); ("NotElement;", [8713]);
    ("NotEqual;", [8800]); ("NotEqualTilde;", [8770; 824]);
    ("NotExists;", [8708]); ("NotGreater;", [8815]);
    ("NotGreaterEqual;", [8817]); ("NotGreaterFullEqual;", [8807; 824]);
    ("NotGreaterGreater;", [8811; 824]); ("NotGreaterLess;", [8825]);
    ("NotGreaterSlantEqual;", [10878; 824]); ("NotGreaterTilde;", [8821]);
    ("NotHumpDownHump;", [8782; 824]); ("NotHumpEqual;", [8783; 824]);
    ("NotLeftTriangle;", [8938]); ("NotLeftTriangleBar;", [10703; 824]);
    ("NotLeftTriangleEqual;", [8940]); ("NotLess;", [8814]);
    ("NotLessEqual;", [8816]); ("NotLessGreater;", [8824]);
    ("NotLessLess;", [8810; 824]); ("NotLessSlantEqual;", [10877; 824]);
    ("NotLessTilde;", [8820]); ("NotNestedGreaterGreater;", [10914; 824]);
    ("NotNestedLessLess;", [10913; 824]); ("NotPrecedes;", [8832]);
    ("NotPrecedesEqual;", [10927; 824]); ("NotPrecedesSlantEqual;", [8928]);
    ("NotReverseElement;", [8716]); ("NotRightTriangle;", [8939]);
    ("NotRightTriangleBar;", [10704; 824]);
    ("NotRightTriangleEqual;", [8941]); ("NotSquareSubset;", [8847; 824]);
    ("NotSquareSubsetEqual;", [8930]); ("NotSquareSuperset;", [8848; 824]);
    ("NotSquareSupersetEqual;", [8931]); ("NotSubset;", [8834; 8402]);
    ("NotSubsetEqual;", [8840]); ("NotSucceeds;", [8833]);
    ("NotSucceedsEqual;", [10928; 824]); ("NotSucceedsSlantEqual;", [8929]);
    ("NotSucceedsTilde;", [8831; 824]); ("NotSuperset;", [8835; 8402]);
    ("NotSupersetEqual;", [8841]); ("NotTilde;", [8769]);
    ("NotTildeEqual;", [8772]); ("NotTildeFullEqual;", [8775]);
    ("NotTildeTilde;", [8777]); ("NotVerticalBar;", [8740]);
    ("Nscr;", [119977]); ("Ntilde", [209]); ("Ntilde;", [209]);
    ("Nu;", [925]); ("OElig;", [338]); ("Oacute", [211]); ("Oacute;", [211]);
    ("Ocirc", [212]); ("Ocirc;", [212]); ("Ocy;", [1054]); ("Odblac;", [336]);
    ("Ofr;", [120082]); ("Ograve", [210]); ("Ograve;", [210]);
    ("Omacr;", [332]); ("Omega;", [937]); ("Omicron;", [927]);
    ("Oopf;", [120134]); ("OpenCurlyDoubleQuote;", [8220]);
    ("OpenCurlyQuote;", [8216]); ("Or;", [10836]); ("Oscr;", [119978]);
    ("Oslash", [216]); ("Oslash;", [216]); ("Otilde", [213]);
    ("Otilde;", [213]); ("Otimes;", [10807]); ("Ouml", [214]);
    ("Ouml;", [214]); ("OverBar;", [8254]); ("OverBrace;", [9182]);
    ("OverBracket;", [9140]); ("OverParenthesis;", [9180]);
    ("PartialD;", [8706]); ("Pcy;", [1055]); ("Pfr;", [120083]);
    ("Phi;", [934]); ("Pi;", [928]); ("PlusMinus;", [177]);
    ("Poincareplane;", [8460]); ("Popf;", [8473]); ("Pr;", [10939]);
    ("Precedes;", [8826]); ("PrecedesEqual;", [10927]);
    ("PrecedesSlantEqual;", [8828]); ("PrecedesTilde;", [8830]);
    ("Prime;", [8243]); ("Product;", [8719]); ("Proportion;", [8759]);
    ("Proportional;", [8733]); ("Pscr;", [119979]); ("Psi;", [936]);
    ("QUOT", [34]); ("QUOT;", [34]); ("Qfr;", [120084]); ("Qopf;", [8474]);
    ("Qscr;", [119980]); ("RBarr;", [10512]); ("REG", [174]); ("REG;", [174]);
    ("Racute;", [340]); ("Rang;", [10219]); ("Rarr;", [8608]);
    ("Rarrtl;", [10518]); ("Rcaron;", [344]); ("Rcedil;", [342]);
    ("Rcy;", [1056]); ("Re;", [8476]); ("ReverseElement;", [8715]);
    ("ReverseEquilibrium;", [8651]); ("ReverseUpEquilibrium;", [10607]);
    ("Rfr;", [8476]); ("Rho;", [929]); ("RightAngleBracket;", [10217]);
    ("RightArrow;", [8594]); ("RightArrowBar;", [8677]);
    ("RightArrowLeftArrow;", [8644]); ("RightCeiling;", [8969]);
    ("RightDoubleBracket;", [10215]); ("RightDownTeeVector;", [10589]);
    ("RightDownVector;", [8642]); ("RightDownVectorBar;", [10581]);
    ("RightFloor;", [8971]); ("RightTee;", [8866]);
    ("RightTeeArrow;", [8614]); ("RightTeeVector;", [10587]);
    ("RightTriangle;", [8883]); ("RightTriangleBar;", [10704]);
    ("RightTriangleEqual;", [8885]); ("RightUpDownVector;", [10575]);
    ("RightUpTeeVector;", [10588]); ("RightUpVector;", [8638]);
    ("RightUpVectorBar;", [10580]); ("RightVector;", [8640]);
    ("RightVectorBar;", [10579]); ("Rightarrow;", [8658]); ("Ropf;", [8477]);
    ("RoundImplies;", [10608]); ("Rrightarrow;", [8667]); ("Rscr;", [8475]);
    ("Rsh;", [8625]); ("RuleDelayed;", [10740]); ("SHCHcy;", [1065]);
    ("SHcy;", [1064]); ("SOFTcy;", [1068]); ("Sacute;", [346]);
    ("Sc;", [10940]); ("Scaron;", [352]); ("Scedil;", [350]);
    ("Scirc;", [348]); ("Scy;", [1057]); ("Sfr;", [120086]);
    ("ShortDownArrow;", [8595]); ("ShortLeftArrow;", [8592]);
    ("ShortRightArrow;", [8594]); ("ShortUpArrow;", [8593]);
    ("Sigma;", [931]); ("SmallCircle;", [8728]); ("Sopf;", [120138]);
    ("Sqrt;", [8730]); ("Square;", [9633]); ("SquareIntersection;", [8851]);
    ("SquareSubset;", [8847]); ("SquareSubsetEqual;", [8849]);
    ("SquareSuperset;", [8848]); ("SquareSupersetEqual;", [8850]);
    ("SquareUnion;", [8852]); ("Sscr;", [119982]); ("Star;", [8902]);
    ("Sub;", [8912]); ("Subset;", [8912]); ("SubsetEqual;", [8838]);
    ("Succeeds;", [8827]); ("SucceedsEqual;", [10928]);
    ("SucceedsSlantEqual;", [8829]); ("SucceedsTilde;", [8831]);
    ("SuchThat;", [8715]); ("Sum;", [8721]); ("Sup;", [8913]);
    ("Superset;", [8835]); ("SupersetEqual;", [8839]); ("Supset;", [8913]);
    ("THORN", [222]); ("THORN;", [222]); ("TRADE;", [8482]);
    ("TSHcy;", [1035]); ("TScy;", [1062]); ("Tab;", [9]); ("Tau;", [932]);
    ("Tcaron;", [356]); ("Tcedil;", [354]); ("Tcy;", [1058]);
    ("Tfr;", [120087]); ("Therefore;", [8756]); ("Theta;", [920]);
    ("ThickSpace;", [8287; 8202]); ("ThinSpace;", [8201]); ("Tilde;", [8764]);
    ("TildeEqual;", [8771]); ("TildeFullEqual;", [8773]);
    ("TildeTilde;", [8776]); ("Topf;", [120139]); ("TripleDot;", [8411]);
    ("Tscr;", [119983]); ("Tstrok;", [358]); ("Uacute", [218]);
    ("Uacute;", [218]); ("Uarr;", [8607]); ("Uarrocir;", [10569]);
    ("Ubrcy;", [1038]); ("Ubreve;", [364]); ("Ucirc", [219]);
    ("Ucirc;", [219]); ("Ucy;", [1059]); ("Udblac;", [368]);
    ("Ufr;", [120088]); ("Ugrave", [217]); ("Ugrave;", [217]);
    ("Umacr;", [362]); ("UnderBar;", [95]); ("UnderBrace;", [9183]);
    ("UnderBracket;", [9141]); ("UnderParenthesis;", [9181]);
    ("Union;", [8899]); ("UnionPlus;", [8846]); ("Uogon;", [370]);
    ("Uopf;", [120140]); ("UpArrow;", [8593]); ("UpArrowBar;", [10514]);
    ("UpArrowDownArrow;", [8645]); ("UpDownArrow;", [8597]);
    ("UpEquilibrium;", [10606]); ("UpTee;", [8869]); ("UpTeeArrow;", [8613]);
    ("Uparrow;", [8657]); ("Updownarrow;", [8661]);
    ("UpperLeftArrow;", [8598]); ("UpperRightArrow;", [8599]);
    ("Upsi;", [978]); ("Upsilon;", [933]); ("Uring;", [366]);
    ("Uscr;", [119984]); ("Utilde;", [360]); ("Uuml", [220]);
    ("Uuml;", [220]); ("VDash;", [8875]); ("Vbar;", [10987]);
    ("Vcy;", [1042]); ("Vdash;", [8873]); ("Vdashl;", [10982]);
    ("Vee;", [8897]); ("Verbar;", [8214]); ("Vert;", [8214]);
    ("VerticalBar;", [8739]); ("VerticalLine;", [124]);
    ("VerticalSeparator;", [10072]); ("VerticalTilde;", [8768]);
    ("VeryThinSpace;", [8202]); ("Vfr;", [120089]); ("Vopf;", [120141]);
    ("Vscr;", [119985]); ("Vvdash;", [8874]); ("Wcirc;", [372]);
    ("Wedge;", [8896]); ("Wfr;", [120090]); ("Wopf;", [120142]);
    ("Wscr;", [119986]); ("Xfr;", [120091]); ("Xi;", [926]);
    ("Xopf;", [120143]); ("Xscr;", [119987]); ("YAcy;", [1071]);
    ("YIcy;", [1031]); ("YUcy;", [1070]); ("Yacute", [221]);
    ("Yacute;", [221]); ("Ycirc;", [374]); ("Ycy;", [1067]);
    ("Yfr;", [120092]); ("Yopf;", [120144]); ("Yscr;", [119988]);
    ("Yuml;", [376]); ("ZHcy;", [1046]); ("Zacute;", [377]);
    ("Zcaron;", [381]); ("Zcy;", [1047]); ("Zdot;", [379]);
    ("ZeroWidthSpace;", [8203]); ("Zeta;", [918]); ("Zfr;", [8488]);
    ("Zopf;", [8484]); ("Zscr;", [119989]); ("aacute", [225]);
    ("aacute;", [225]); ("abreve;", [259]); ("ac;", [8766]);
    ("acE;", [8766; 819]); ("acd;", [8767]); ("acirc", [226]);
    ("acirc;", [226]); ("acute", [180]); ("acute;", [180]); ("acy;", [1072]);
    ("aelig", [230]); ("aelig;", [230]); ("af;", [8289]); ("afr;", [120094]);
    ("agrave", [224]); ("agrave;", [224]); ("alefsym;", [8501]);
    ("aleph;", [8501]); ("alpha;", [945]); ("amacr;", [257]);
    ("amalg;", [10815]); ("amp", [38]); ("amp;", [38]); ("and;", [8743]);
    ("andand;", [10837]); ("andd;", [10844]); ("andslope;", [10840]);
    ("andv;", [10842]); ("ang;", [8736]); ("ange;", [10660]);
    ("angle;", [8736]); ("angmsd;", [8737]); ("angmsdaa;", [10664]);
    ("angmsdab;", [10665]); ("angmsdac;", [10666]); ("angmsdad;", [10667]);
    ("angmsdae;", [10668]); ("angmsdaf;", [10669]); ("angmsdag;", [10670]);
    ("angmsdah;", [10671]); ("angrt;", [8735]); ("angrtvb;", [8894]);
    ("angrtvbd;", [10653]); ("angsph;", [8738]); ("angst;", [197]);
    ("angzarr;", [9084]); ("aogon;", [261]); ("aopf;", [120146]);
    ("ap;", [8776]); ("apE;", [10864]); ("apacir;", [10863]);
    ("ape;", [8778]); ("apid;", [8779]); ("apos;", [39]); ("approx;", [8776]);
    ("approxeq;", [8778]); ("aring", [229]); ("aring;", [229]);
    ("ascr;", [119990]); ("ast;", [42]); ("asymp;", [8776]);
    ("asympeq;", [8781]); ("atilde", [227]); ("atilde;", [227]);
    ("auml", [228]); ("auml;", [228]); ("awconint;", [8755]);
    ("awint;", [10769]); ("bNot;", [10989]); ("backcong;", [8780]);
    ("backepsilon;", [1014]); ("backprime;", [8245]); ("backsim;", [8765]);
    ("backsimeq;", [8909]); ("barvee;", [8893]); ("barwed;", [8965]);
    ("barwedge;", [8965]); ("bbrk;", [9141]); ("bbrktbrk;", [9142]);
    ("bcong;", [8780]); ("bcy;", [1073]); ("bdquo;", [8222]);
    ("becaus;", [8757]); ("because;", [8757]); ("bemptyv;", [10672]);
    ("bepsi;", [1014]); ("bernou;", [8492]); ("beta;", [946]);
    ("beth;", [8502]); ("between;", [8812]); ("bfr;", [120095]);
    ("bigcap;", [8898]); ("bigcirc;", [9711]); ("bigcup;", [8899]);
    ("bigodot;", [10752]); ("bigoplus;", [10753]); ("bigotimes;", [10754]);
    ("bigsqcup;", [10758]); ("bigstar;", [9733]);
    ("bigtriangledown;", [9661]); ("bigtriangleup;", [9651]);
    ("biguplus;", [10756]); ("bigvee;", [8897]); ("bigwedge;", [8896]);
    ("bkarow;", [10509]); ("blacklozenge;", [10731]);
    ("blacksquare;", [9642]); ("blacktriangle;", [9652]);
    ("blacktriangledown;", [9662]); ("blacktriangleleft;", [9666]);
    ("blacktriangleright;", [9656]); ("blank;", [9251]); ("blk12;", [9618]);
    ("blk14;", [9617]); ("blk34;", [9619]); ("block;", [9608]);
    ("bne;", [61; 8421]); ("bnequiv;", [8801; 8421]); ("bnot;", [8976]);
    ("bopf;", [120147]); ("bot;", [8869]); ("bottom;", [8869]);
    ("bowtie;", [8904]); ("boxDL;", [9559]); ("boxDR;", [9556]);
    ("boxDl;", [9558]); ("boxDr;", [9555]); ("boxH;", [9552]);
    ("boxHD;", [9574]); ("boxHU;", [9577]); ("boxHd;", [9572]);
    ("boxHu;", [9575]); ("boxUL;", [9565]); ("boxUR;", [9562]);
    ("boxUl;", [9564]); ("boxUr;", [9561]); ("boxV;", [9553]);
    ("boxVH;", [9580]); ("boxVL;", [9571]); ("boxVR;", [9568]);
    ("boxVh;", [9579]); ("boxVl;", [9570]); ("boxVr;", [9567]);
    ("boxbox;", [10697]); ("boxdL;", [9557]); ("boxdR;", [9554]);
    ("boxdl;", [9488]); ("boxdr;", [9484]); ("boxh;", [9472]);
    ("boxhD;", [9573]); ("boxhU;", [9576]); ("boxhd;", [9516]);
    ("boxhu;", [9524]); ("boxminus;", [8863]); ("boxplus;", [8862]);
    ("boxtimes;", [8864]); ("boxuL;", [9563]); ("boxuR;", [9560]);
    ("boxul;", [9496]); ("boxur;", [9492]); ("boxv;", [9474]);
    ("boxvH;", [9578]); ("boxvL;", [9569]); ("boxvR;", [9566]);
    ("boxvh;", [9532]); ("boxvl;", [9508]); ("boxvr;", [9500]);
    ("bprime;", [8245]); ("breve;", [728]); ("brvbar", [166]);
    ("brvbar;", [166]); ("bscr;", [119991]); ("bsemi;", [8271]);
    ("bsim;", [8765]); ("bsime;", [8909]); ("bsol;", [92]);
    ("bsolb;", [10693]); ("bsolhsub;", [10184]); ("bull;", [8226]);
    ("bullet;", [8226]); ("bump;", [8782]); ("bumpE;", [10926]);
    ("bumpe;", [8783]); ("bumpeq;", [8783]); ("cacute;", [263]);
    ("cap;", [8745]); ("capand;", [10820]); ("capbrcup;", [10825]);
    ("capcap;", [10827]); ("capcup;", [10823]); ("capdot;", [10816]);
    ("caps;", [8745; 65024]); ("caret;", [8257]); ("caron;", [711]);
    ("ccaps;", [10829]); ("ccaron;", [269]); ("ccedil", [231]);
    ("ccedil;", [231]); ("ccirc;", [265]); ("ccups;", [10828]);
    ("ccupssm;", [10832]); ("cdot;", [267]); ("cedil", [184]);
    ("cedil;", [184]); ("cemptyv;", [10674]); ("cent", [162]);
    ("cent;", [162]); ("centerdot;", [183]); ("cfr;", [120096]);
    ("chcy;", [1095]); ("check;", [10003]); ("checkmark;", [10003]);
    ("chi;", [967]); ("cir;", [9675]); ("cirE;", [10691]); ("circ;", [710]);
    ("circeq;", [8791]); ("circlearrowleft;", [8634]);
    ("circlearrowright;", [8635]); ("circledR;", [174]);
    ("circledS;", [9416]); ("circledast;", [8859]); ("circledcirc;", [8858]);
    ("circleddash;", [8861]); ("cire;", [8791]); ("cirfnint;", [10768]);
    ("cirmid;", [10991]); ("cirscir;", [10690]); ("clubs;", [9827]);
    ("clubsuit;", [9827]); ("colon;", [58]); ("colone;", [8788]);
    ("coloneq;", [8788]); ("comma;", [44]); ("commat;", [64]);
    ("comp;", [8705]); ("compfn;", [8728]); ("complement;", [8705]);
    ("complexes;", [8450]); ("cong;", [8773]); ("congdot;", [10861]);
    ("conint;", [8750]); ("copf;", [120148]); ("coprod;", [8720]);
    ("copy", [169]); ("copy;", [169]); ("copysr;", [8471]);
    ("crarr;", [8629]); ("cross;", [10007]); ("cscr;", [119992]);
    ("csub;", [10959]); ("csube;", [10961]); ("csup;", [10960]);
    ("csupe;", [10962]); ("ctdot;", [8943]); ("cudarrl;", [10552]);
    ("cudarrr;", [10549]); ("cuepr;", [8926]); ("cuesc;", [8927]);
    ("cularr;", [8630]); ("cularrp;", [10557]); ("cup;", [8746]);
    ("cupbrcap;", [10824]); ("cupcap;", [10822]); ("cupcup;", [10826]);
    ("cupdot;", [8845]); ("cupor;", [10821]); ("cups;", [8746; 65024]);
    ("curarr;", [8631]); ("curarrm;", [10556]); ("curlyeqprec;", [8926]);
    ("curlyeqsucc;", [8927]); ("curlyvee;", [8910]); ("curlywedge;", [8911]);
    ("curren", [164]); ("curren;", [164]); ("curvearrowleft;", [8630]);
    ("curvearrowright;", [8631]); ("cuvee;", [8910]); ("cuwed;", [8911]);
    ("cwconint;", [8754]); ("cwint;", [8753]); ("cylcty;", [9005]);
    ("dArr;", [8659]); ("dHar;", [10597]); ("dagger;", [8224]);
    ("daleth;", [8504]); ("darr;", [8595]); ("dash;", [8208]);
    ("dashv;", [8867]); ("dbkarow;", [10511]); ("dblac;", [733]);
    ("dcaron;", [271]); ("dcy;", [1076]); ("dd;", [8518]);
    ("ddagger;", [8225]); ("ddarr;", [8650]); ("ddotseq;", [10871]);
    ("deg", [176]); ("deg;", [176]); ("delta;", [948]); ("demptyv;", [10673]);
    ("dfisht;", [10623]); ("dfr;", [120097]); ("dharl;", [8643]);
    ("dharr;", [8642]); ("diam;", [8900]); ("diamond;", [8900]);
    ("diamondsuit;", [9830]); ("diams;", [9830]); ("die;", [168]);
    ("digamma;", [989]); ("disin;", [8946]); ("div;", [247]);
    ("divide", [247]); ("divide;", [247]); ("divideontimes;", [8903]);
    ("divonx;", [8903]); ("djcy;", [1106]); ("dlcorn;", [8990]);
    ("dlcrop;", [8973]); ("dollar;", [36]); ("dopf;", [120149]);
    ("dot;", [729]); ("doteq;", [8784]); ("doteqdot;", [8785]);
    ("dotminus;", [8760]); ("dotplus;", [8724]); ("dotsquare;", [8865]);
    ("doublebarwedge;", [8966]); ("downarrow;", [8595]);
    ("downdownarrows;", [8650]); ("downharpoonleft;", [8643]);
    ("downharpoonright;", [8642]); ("drbkarow;", [10512]);
    ("drcorn;", [8991]); ("drcrop;", [8972]); ("dscr;", [119993]);
    ("dscy;", [1109]); ("dsol;", [10742]); ("dstrok;", [273]);
    ("dtdot;", [8945]); ("dtri;", [9663]); ("dtrif;", [9662]);
    ("duarr;", [8693]); ("duhar;", [10607]); ("dwangle;", [10662]);
    ("dzcy;", [1119]); ("dzigrarr;", [10239]); ("eDDot;", [10871]);
    ("eDot;", [8785]); ("eacute", [233]); ("eacute;", [233]);
    ("easter;", [10862]); ("ecaron;", [283]); ("ecir;", [8790]);
    ("ecirc", [234]); ("ecirc;", [234]); ("ecolon;", [8789]);
    ("ecy;", [1101]); ("edot;", [279]); ("ee;", [8519]); ("efDot;", [8786]);
    ("efr;", [120098]); ("eg;", [10906]); ("egrave", [232]);
    ("egrave;", [232]); ("egs;", [10902]); ("egsdot;", [10904]);
    ("el;", [10905]); ("elinters;", [9191]); ("ell;", [8467]);
    ("els;", [10901]); ("elsdot;", [10903]); ("emacr;", [275]);
    ("empty;", [8709]); ("emptyset;", [8709]); ("emptyv;", [8709]);
    ("emsp13;", [8196]); ("emsp14;", [8197]); ("emsp;", [8195]);
    ("eng;", [331]); ("ensp;", [8194]); ("eogon;", [281]);
    ("eopf;", [120150]); ("epar;", [8917]); ("eparsl;", [10723]);
    ("eplus;", [10865]); ("epsi;", [949]); ("epsilon;", [949]);
    ("epsiv;", [1013]); ("eqcirc;", [8790]); ("eqcolon;", [8789]);
    ("eqsim;", [8770]); ("eqslantgtr;", [10902]); ("eqslantless;", [10901]);
    ("equals;", [61]); ("equest;", [8799]); ("equiv;", [8801]);
    ("equivDD;", [10872]); ("eqvparsl;", [10725]); ("erDot;", [8787]);
    ("erarr;", [10609]); ("escr;", [8495]); ("esdot;", [8784]);
    ("esim;", [8770]); ("eta;", [951]); ("eth", [240]); ("eth;", [240]);
    ("euml", [235]); ("euml;", [235]); ("euro;", [8364]); ("excl;", [33]);
    ("exist;", [8707]); ("expectation;", [8496]); ("exponentiale;", [8519]);
    ("fallingdotseq;", [8786]); ("fcy;", [1092]); ("female;", [9792]);
    ("ffilig;", [64259]); ("fflig;", [64256]); ("ffllig;", [64260]);
    ("ffr;", [120099]); ("filig;", [64257]); ("fjlig;", [102; 106]);
    ("flat;", [9837]); ("fllig;", [64258]); ("fltns;", [9649]);
    ("fnof;", [402]); ("fopf;", [120151]); ("forall;", [8704]);
    ("fork;", [8916]); ("forkv;", [10969]); ("fpartint;", [10765]);
    ("frac12", [189]); ("frac12;", [189]); ("frac13;", [8531]);
    ("frac14", [188]); ("frac14;", [188]); ("frac15;", [8533]);
    ("frac16;", [8537]); ("frac18;", [8539]); ("frac23;", [8532]);
    ("frac25;", [8534]); ("frac34", [190]); ("frac34;", [190]);
    ("frac35;", [8535]); ("frac38;", [8540]); ("frac45;", [8536]);
    ("frac56;", [8538]); ("frac58;", [8541]); ("frac78;", [8542]);
    ("frasl;", [8260]); ("frown;", [8994]); ("fscr;", [119995]);
    ("gE;", [8807]); ("gEl;", [10892]); ("gacute;", [501]); ("gamma;", [947]);
    ("gammad;", [989]); ("gap;", [10886]); ("gbreve;", [287]);
    ("gcirc;", [285]); ("gcy;", [1075]); ("gdot;", [289]); ("ge;", [8805]);
    ("gel;", [8923]); ("geq;", [8805]); ("geqq;", [8807]);
    ("geqslant;", [10878]); ("ges;", [10878]); ("gescc;", [10921]);
    ("gesdot;", [10880]); ("gesdoto;", [10882]); ("gesdotol;", [10884]);
    ("gesl;", [8923; 65024]); ("gesles;", [10900]); ("gfr;", [120100]);
    ("gg;", [8811]); ("ggg;", [8921]); ("gimel;", [8503]); ("gjcy;", [1107]);
    ("gl;", [8823]); ("glE;", [10898]); ("gla;", [10917]); ("glj;", [10916]);
    ("gnE;", [8809]); ("gnap;", [10890]); ("gnapprox;", [10890]);
    ("gne;", [10888]); ("gneq;", [10888]); ("gneqq;", [8809]);
    ("gnsim;", [8935]); ("gopf;", [120152]); ("grave;", [96]);
    ("gscr;", [8458]); ("gsim;", [8819]); ("gsime;", [10894]);
    ("gsiml;", [10896]); ("gt", [62]); ("gt;", [62]); ("gtcc;", [10919]);
    ("gtcir;", [10874]); ("gtdot;", [8919]); ("gtlPar;", [10645]);
    ("gtquest;", [10876]); ("gtrapprox;", [10886]); ("gtrarr;", [10616]);
    ("gtrdot;", [8919]); ("gtreqless;", [8923]); ("gtreqqless;", [10892]);
    ("gtrless;", [8823]); ("gtrsim;", [8819]); ("gvertneqq;", [8809; 65024]);
    ("gvnE;", [8809; 65024]); ("hArr;", [8660]); ("hairsp;", [8202]);
    ("half;", [189]); ("hamilt;", [8459]); ("hardcy;", [1098]);
    ("harr;", [8596]); ("harrcir;", [10568]); ("harrw;", [8621]);
    ("hbar;", [8463]); ("hcirc;", [293]); ("hearts;", [9829]);
    ("heartsuit;", [9829]); ("hellip;", [8230]); ("hercon;", [8889]);
    ("hfr;", [120101]); ("hksearow;", [10533]); ("hkswarow;", [10534]);
    ("hoarr;", [8703]); ("homtht;", [8763]); ("hookleftarrow;", [8617]);
    ("hookrightarrow;", [8618]); ("hopf;", [120153]); ("horbar;", [8213]);
    ("hscr;", [119997]); ("hslash;", [8463]); ("hstrok;", [295]);
    ("hybull;", [8259]); ("hyphen;", [8208]); ("iacute", [237]);
    ("iacute;", [237]); ("ic;", [8291]); ("icirc", [238]); ("icirc;", [238]);
    ("icy;", [1080]); ("iecy;", [1077]); ("iexcl", [161]); ("iexcl;", [161]);
    ("iff;", [8660]); ("ifr;", [120102]); ("igrave", [236]);
    ("igrave;", [236]); ("ii;", [8520]); ("iiiint;", [10764]);
    ("iiint;", [8749]); ("iinfin;", [10716]); ("iiota;", [8489]);
    ("ijlig;", [307]); ("imacr;", [299]); ("image;", [8465]);
    ("imagline;", [8464]); ("imagpart;", [8465]); ("imath;", [305]);
    ("imof;", [8887]); ("imped;", [437]); ("in;", [8712]);
    ("incare;", [8453]); ("infin;", [8734]); ("infintie;", [10717]);
    ("inodot;", [305]); ("int;", [8747]); ("intcal;", [8890]);
    ("integers;", [8484]); ("intercal;", [8890]); ("intlarhk;", [10775]);
    ("intprod;", [10812]); ("iocy;", [1105]); ("iogon;", [303]);
    ("iopf;", [120154]); ("iota;", [953]); ("iprod;", [10812]);
    ("iquest", [191]); ("iquest;", [191]); ("iscr;", [119998]);
    ("isin;", [8712]); ("isinE;", [8953]); ("isindot;", [8949]);
    ("isins;", [8948]); ("isinsv;", [8947]); ("isinv;", [8712]);
    ("it;", [8290]); ("itilde;", [297]); ("iukcy;", [1110]); ("iuml", [239]);
    ("iuml;", [239]); ("jcirc;", [309]); ("jcy;", [1081]); ("jfr;", [120103]);
    ("jmath;", [567]); ("jopf;", [120155]); ("jscr;", [119999]);
    ("jsercy;", [1112]); ("jukcy;", [1108]); ("kappa;", [954]);
    ("kappav;", [1008]); ("kcedil;", [311]); ("kcy;", [1082]);
    ("kfr;", [120104]); ("kgreen;", [312]); ("khcy;", [1093]);
    ("kjcy;", [1116]); ("kopf;", [120156]); ("kscr;", [120000]);
    ("lAarr;", [8666]); ("lArr;", [8656]); ("lAtail;", [10523]);
    ("lBarr;", [10510]); ("lE;", [8806]); ("lEg;", [10891]);
    ("lHar;", [10594]); ("lacute;", [314]); ("laemptyv;", [10676]);
    ("lagran;", [8466]); ("lambda;", [955]); ("lang;", [10216]);
    ("langd;", [10641]); ("langle;", [10216]); ("lap;", [10885]);
    ("laquo", [171]); ("laquo;", [171]); ("larr;", [8592]);
    ("larrb;", [8676]); ("larrbfs;", [10527]); ("larrfs;", [10525]);
    ("larrhk;", [8617]); ("larrlp;", [8619]); ("larrpl;", [10553]);
    ("larrsim;", [10611]); ("larrtl;", [8610]); ("lat;", [10923]);
    ("latail;", [10521]); ("late;", [10925]); ("lates;", [10925; 65024]);
    ("lbarr;", [10508]); ("lbbrk;", [10098]); ("lbrace;", [123]);
    ("lbrack;", [91]); ("lbrke;", [10635]); ("lbrksld;", [10639]);
    ("lbrkslu;", [10637]); ("lcaron;", [318]); ("lcedil;", [316]);
    ("lceil;", [8968]); ("lcub;", [123]); ("lcy;", [1083]);
    ("ldca;", [10550]); ("ldquo;", [8220]); ("ldquor;", [8222]);
    ("ldrdhar;", [10599]); ("ldrushar;", [10571]); ("ldsh;", [8626]);
    ("le;", [8804]); ("leftarrow;", [8592]); ("leftarrowtail;", [8610]);
    ("leftharpoondown;", [8637]); ("leftharpoonup;", [8636]);
    ("leftleftarrows;", [8647]); ("leftrightarrow;", [8596]);
    ("leftrightarrows;", [8646]); ("leftrightharpoons;", [8651]);
    ("leftrightsquigarrow;", [8621]); ("leftthreetimes;", [8907]);
    ("leg;", [8922]); ("leq;", [8804]); ("leqq;", [8806]);
    ("leqslant;", [10877]); ("les;", [10877]); ("lescc;", [10920]);
    ("lesdot;", [10879]); ("lesdoto;", [10881]); ("lesdotor;", [10883]);
    ("lesg;", [8922; 65024]); ("lesges;", [10899]); ("lessapprox;", [10885]);
    ("lessdot;", [8918]); ("lesseqgtr;", [8922]); ("lesseqqgtr;", [10891]);
    ("lessgtr;", [8822]); ("lesssim;", [8818]); ("lfisht;", [10620]);
    ("lfloor;", [8970]); ("lfr;", [120105]); ("lg;", [8822]);
    ("lgE;", [10897]); ("lhard;", [8637]); ("lharu;", [8636]);
    ("lharul;", [10602]); ("lhblk;", [9604]); ("ljcy;", [1113]);
    ("ll;", [8810]); ("llarr;", [8647]); ("llcorner;", [8990]);
    ("llhard;", [10603]); ("lltri;", [9722]); ("lmidot;", [320]);
    ("lmoust;", [9136]); ("lmoustache;", [9136]); ("lnE;", [8808]);
    ("lnap;", [10889]); ("lnapprox;", [10889]); ("lne;", [10887]);
    ("lneq;", [10887]); ("lneqq;", [8808]); ("lnsim;", [8934]);
    ("loang;", [10220]); ("loarr;", [8701]); ("lobrk;", [10214]);
    ("longleftarrow;", [10229]); ("longleftrightarrow;", [10231]);
    ("longmapsto;", [10236]); ("longrightarrow;", [10230]);
    ("looparrowleft;", [8619]); ("looparrowright;", [8620]);
    ("lopar;", [10629]); ("lopf;", [120157]); ("loplus;", [10797]);
    ("lotimes;", [10804]); ("lowast;", [8727]); ("lowbar;", [95]);
    ("loz;", [9674]); ("lozenge;", [9674]); ("lozf;", [10731]);
    ("lpar;", [40]); ("lparlt;", [10643]); ("lrarr;", [8646]);
    ("lrcorner;", [8991]); ("lrhar;", [8651]); ("lrhard;", [10605]);
    ("lrm;", [8206]); ("lrtri;", [8895]); ("lsaquo;", [8249]);
    ("lscr;", [120001]); ("lsh;", [8624]); ("lsim;", [8818]);
    ("lsime;", [10893]); ("lsimg;", [10895]); ("lsqb;", [91]);
    ("lsquo;", [8216]); ("lsquor;", [8218]); ("lstrok;", [322]); ("lt", [60]);
    ("lt;", [60]); ("ltcc;", [10918]); ("ltcir;", [10873]);
    ("ltdot;", [8918]); ("lthree;", [8907]); ("ltimes;", [8905]);
    ("ltlarr;", [10614]); ("ltquest;", [10875]); ("ltrPar;", [10646]);
    ("ltri;", [9667]); ("ltrie;", [8884]); ("ltrif;", [9666]);
    ("lurdshar;", [10570]); ("luruhar;", [10598]);
    ("lvertneqq;", [8808; 65024]); ("lvnE;", [8808; 65024]);
    ("mDDot;", [8762]); ("macr", [175]); ("macr;", [175]); ("male;", [9794]);
    ("malt;", [10016]); ("maltese;", [10016]); ("map;", [8614]);
    ("mapsto;", [8614]); ("mapstodown;", [8615]); ("mapstoleft;", [8612]);
    ("mapstoup;", [8613]); ("marker;", [9646]); ("mcomma;", [10793]);
    ("mcy;", [1084]); ("mdash;", [8212]); ("measuredangle;", [8737]);
    ("mfr;", [120106]); ("mho;", [8487]); ("micro", [181]); ("micro;", [181]);
    ("mid;", [8739]); ("midast;", [42]); ("midcir;", [10992]);
    ("middot", [183]); ("middot;", [183]); ("minus;", [8722]);
    ("minusb;", [8863]); ("minusd;", [8760]); ("minusdu;", [10794]);
    ("mlcp;", [10971]); ("mldr;", [8230]); ("mnplus;", [8723]);
    ("models;", [8871]); ("mopf;", [120158]); ("mp;", [8723]);
    ("mscr;", [120002]); ("mstpos;", [8766]); ("mu;", [956]);
    ("multimap;", [8888]); ("mumap;", [8888]); ("nGg;", [8921; 824]);
    ("nGt;", [8811; 8402]); ("nGtv;", [8811; 824]); ("nLeftarrow;", [8653]);
    ("nLeftrightarrow;", [8654]); ("nLl;", [8920; 824]);
    ("nLt;", [8810; 8402]); ("nLtv;", [8810; 824]); ("nRightarrow;", [8655]);
    ("nVDash;", [8879]); ("nVdash;", [8878]); ("nabla;", [8711]);
    ("nacute;", [324]); ("nang;", [8736; 8402]); ("nap;", [8777]);
    ("napE;", [10864; 824]); ("napid;", [8779; 824]); ("napos;", [329]);
    ("napprox;", [8777]); ("natur;", [9838]); ("natural;", [9838]);
    ("naturals;", [8469]); ("nbsp", [160]); ("nbsp;", [160]);
    ("nbump;", [8782; 824]); ("nbumpe;", [8783; 824]); ("ncap;", [10819]);
    ("ncaron;", [328]); ("ncedil;", [326]); ("ncong;", [8775]);
    ("ncongdot;", [10861; 824]); ("ncup;", [10818]); ("ncy;", [1085]);
    ("ndash;", [8211]); ("ne;", [8800]); ("neArr;", [8663]);
    ("nearhk;", [10532]); ("nearr;", [8599]); ("nearrow;", [8599]);
    ("nedot;", [8784; 824]); ("nequiv;", [8802]); ("nesear;", [10536]);
    ("nesim;", [8770; 824]); ("nexist;", [8708]); ("nexists;", [8708]);
    ("nfr;", [120107]); ("ngE;", [8807; 824]); ("nge;", [8817]);
    ("ngeq;", [8817]); ("ngeqq;", [8807; 824]); ("ngeqslant;", [10878; 824]);
    ("nges;", [10878; 824]); ("ngsim;", [8821]); ("ngt;", [8815]);
    ("ngtr;", [8815]); ("nhArr;", [8654]); ("nharr;", [8622]);
    ("nhpar;", [10994]); ("ni;", [8715]); ("nis;", [8956]); ("nisd;", [8954]);
    ("niv;", [8715]); ("njcy;", [1114]); ("nlArr;", [8653]);
    ("nlE;", [8806; 824]); ("nlarr;", [8602]); ("nldr;", [8229]);
    ("nle;", [8816]); ("nleftarrow;", [8602]); ("nleftrightarrow;", [8622]);
    ("nleq;", [8816]); ("nleqq;", [8806; 824]); ("nleqslant;", [10877; 824]);
    ("nles;", [10877; 824]); ("nless;", [8814]); ("nlsim;", [8820]);
    ("nlt;", [8814]); ("nltri;", [8938]); ("nltrie;", [8940]);
    ("nmid;", [8740]); ("nopf;", [120159]); ("not", [172]); ("not;", [172]);
    ("notin;", [8713]); ("notinE;", [8953; 824]); ("notindot;", [8949; 824]);
    ("notinva;", [8713]); ("notinvb;", [8951]); ("notinvc;", [8950]);
    ("notni;", [8716]); ("notniva;", [8716]); ("notnivb;", [8958]);
    ("notnivc;", [8957]); ("npar;", [8742]); ("nparallel;", [8742]);
    ("nparsl;", [11005; 8421]); ("npart;", [8706; 824]);
    ("npolint;", [10772]); ("npr;", [8832]); ("nprcue;", [8928]);
    ("npre;", [10927; 824]); ("nprec;", [8832]); ("npreceq;", [10927; 824]);
    ("nrArr;", [8655]); ("nrarr;", [8603]); ("nrarrc;", [10547; 824]);
    ("nrarrw;", [8605; 824]); ("nrightarrow;", [8603]); ("nrtri;", [8939]);
    ("nrtrie;", [8941]); ("nsc;", [8833]); ("nsccue;", [8929]);
    ("nsce;", [10928; 824]); ("nscr;", [120003]); ("nshortmid;", [8740]);
    ("nshortparallel;", [8742]); ("nsim;", [8769]); ("nsime;", [8772]);
    ("nsimeq;", [8772]); ("nsmid;", [8740]); ("nspar;", [8742]);
    ("nsqsube;", [8930]); ("nsqsupe;", [8931]); ("nsub;", [8836]);
    ("nsubE;", [10949; 824]); ("nsube;", [8840]); ("nsubset;", [8834; 8402]);
    ("nsubseteq;", [8840]); ("nsubseteqq;", [10949; 824]); ("nsucc;", [8833]);
    ("nsucceq;", [10928; 824]); ("nsup;", [8837]); ("nsupE;", [10950; 824]);
    ("nsupe;", [8841]); ("nsupset;", [8835; 8402]); ("nsupseteq;", [8841]);
    ("nsupseteqq;", [10950; 824]); ("ntgl;", [8825]); ("ntilde", [241]);
    ("ntilde;", [241]); ("ntlg;", [8824]); ("ntriangleleft;", [8938]);
    ("ntrianglelefteq;", [8940]); ("ntriangleright;", [8939]);
    ("ntrianglerighteq;", [8941]); ("nu;", [957]); ("num;", [35]);
    ("numero;", [8470]); ("numsp;", [8199]); ("nvDash;", [8877]);
    ("nvHarr;", [10500]); ("nvap;", [8781; 8402]); ("nvdash;", [8876]);
    ("nvge;", [8805; 8402]); ("nvgt;", [62; 8402]); ("nvinfin;", [10718]);
    ("nvlArr;", [10498]); ("nvle;", [8804; 8402]); ("nvlt;", [60; 8402]);
    ("nvltrie;", [8884; 8402]); ("nvrArr;", [10499]);
    ("nvrtrie;", [8885; 8402]); ("nvsim;", [8764; 8402]); ("nwArr;", [8662]);
    ("nwarhk;", [10531]); ("nwarr;", [8598]); ("nwarrow;", [8598]);
    ("nwnear;", [10535]); ("oS;", [9416]); ("oacute", [243]);
    ("oacute;", [243]); ("oast;", [8859]); ("ocir;", [8858]);
    ("ocirc", [244]); ("ocirc;", [244]); ("ocy;", [1086]); ("odash;", [8861]);
    ("odblac;", [337]); ("odiv;", [10808]); ("odot;", [8857]);
    ("odsold;", [10684]); ("oelig;", [339]); ("ofcir;", [10687]);
    ("ofr;", [120108]); ("ogon;", [731]); ("ograve", [242]);
    ("ograve;", [242]); ("ogt;", [10689]); ("ohbar;", [10677]);
    ("ohm;", [937]); ("oint;", [8750]); ("olarr;", [8634]);
    ("olcir;", [10686]); ("olcross;", [10683]); ("oline;", [8254]);
    ("olt;", [10688]); ("omacr;", [333]); ("omega;", [969]);
    ("omicron;", [959]); ("omid;", [10678]); ("ominus;", [8854]);
    ("oopf;", [120160]); ("opar;", [10679]); ("operp;", [10681]);
    ("oplus;", [8853]); ("or;", [8744]); ("orarr;", [8635]);
    ("ord;", [10845]); ("order;", [8500]); ("orderof;", [8500]);
    ("ordf", [170]); ("ordf;", [170]); ("ordm", [186]); ("ordm;", [186]);
    ("origof;", [8886]); ("oror;", [10838]); ("orslope;", [10839]);
    ("orv;", [10843]); ("oscr;", [8500]); ("oslash", [248]);
    ("oslash;", [248]); ("osol;", [8856]); ("otilde", [245]);
    ("otilde;", [245]); ("otimes;", [8855]); ("otimesas;", [10806]);
    ("ouml", [246]); ("ouml;", [246]); ("ovbar;", [9021]); ("par;", [8741]);
    ("para", [182]); ("para;", [182]); ("parallel;", [8741]);
    ("parsim;", [10995]); ("parsl;", [11005]); ("part;", [8706]);
    ("pcy;", [1087]); ("percnt;", [37]); ("period;", [46]);
    ("permil;", [8240]); ("perp;", [8869]); ("pertenk;", [8241]);
    ("pfr;", [120109]); ("phi;", [966]); ("phiv;", [981]);
    ("phmmat;", [8499]); ("phone;", [9742]); ("pi;", [960]);
    ("pitchfork;", [8916]); ("piv;", [982]); ("planck;", [8463]);
    ("planckh;", [8462]); ("plankv;", [8463]); ("plus;", [43]);
    ("plusacir;", [10787]); ("plusb;", [8862]); ("pluscir;", [10786]);
    ("plusdo;", [8724]); ("plusdu;", [10789]); ("pluse;", [10866]);
    ("plusmn", [177]); ("plusmn;", [177]); ("plussim;", [10790]);
    ("plustwo;", [10791]); ("pm;", [177]); ("pointint;", [10773]);
    ("popf;", [120161]); ("pound", [163]); ("pound;", [163]); ("pr;", [8826]);
    ("prE;", [10931]); ("prap;", [10935]); ("prcue;", [8828]);
    ("pre;", [10927]); ("prec;", [8826]); ("precapprox;", [10935]);
    ("preccurlyeq;", [8828]); ("preceq;", [10927]); ("precnapprox;", [10937]);
    ("precneqq;", [10933]); ("precnsim;", [8936]); ("precsim;", [8830]);
    ("prime;", [8242]); ("primes;", [8473]); ("prnE;", [10933]);
    ("prnap;", [10937]); ("prnsim;", [8936]); ("prod;", [8719]);
    ("profalar;", [9006]); ("profline;", [8978]); ("profsurf;", [8979]);
    ("prop;", [8733]); ("propto;", [8733]); ("prsim;", [8830]);
    ("prurel;", [8880]); ("pscr;", [120005]); ("psi;", [968]);
    ("puncsp;", [8200]); ("qfr;", [120110]); ("qint;", [10764]);
    ("qopf;", [120162]); ("qprime;", [8279]); ("qscr;", [120006]);
    ("quaternions;", [8461]); ("quatint;", [10774]); ("quest;", [63]);
    ("questeq;", [8799]); ("quot", [34]); ("quot;", [34]); ("rAarr;", [8667]);
    ("rArr;", [8658]); ("rAtail;", [10524]); ("rBarr;", [10511]);
    ("rHar;", [10596]); ("race;", [8765; 817]); ("racute;", [341]);
    ("radic;", [8730]); ("raemptyv;", [10675]); ("rang;", [10217]);
    ("rangd;", [10642]); ("range;", [10661]); ("rangle;", [10217]);
    ("raquo", [187]); ("raquo;", [187]); ("rarr;", [8594]);
    ("rarrap;", [10613]); ("rarrb;", [8677]); ("rarrbfs;", [10528]);
    ("rarrc;", [10547]); ("rarrfs;", [10526]); ("rarrhk;", [8618]);
    ("rarrlp;", [8620]); ("rarrpl;", [10565]); ("rarrsim;", [10612]);
    ("rarrtl;", [8611]); ("rarrw;", [8605]); ("ratail;", [10522]);
    ("ratio;", [8758]); ("rationals;", [8474]); ("rbarr;", [10509]);
    ("rbbrk;", [10099]); ("rbrace;", [125]); ("rbrack;", [93]);
    ("rbrke;", [10636]); ("rbrksld;", [10638]); ("rbrkslu;", [10640]);
    ("rcaron;", [345]); ("rcedil;", [343]); ("rceil;", [8969]);
    ("rcub;", [125]); ("rcy;", [1088]); ("rdca;", [10551]);
    ("rdldhar;", [10601]); ("rdquo;", [8221]); ("rdquor;", [8221]);
    ("rdsh;", [8627]); ("real;", [8476]); ("realine;", [8475]);
    ("realpart;", [8476]); ("reals;", [8477]); ("rect;", [9645]);
    ("reg", [174]); ("reg;", [174]); ("rfisht;", [10621]);
    ("rfloor;", [8971]); ("rfr;", [120111]); ("rhard;", [8641]);
    ("rharu;", [8640]); ("rharul;", [10604]); ("rho;", [961]);
    ("rhov;", [1009]); ("rightarrow;", [8594]); ("rightarrowtail;", [8611]);
    ("rightharpoondown;", [8641]); ("rightharpoonup;", [8640]);
    ("rightleftarrows;", [8644]); ("rightleftharpoons;", [8652]);
    ("rightrightarrows;", [8649]); ("rightsquigarrow;", [8605]);
    ("rightthreetimes;", [8908]); ("ring;", [730]); ("risingdotseq;", [8787]);
    ("rlarr;", [8644]); ("rlhar;", [8652]); ("rlm;", [8207]);
    ("rmoust;", [9137]); ("rmoustache;", [9137]); ("rnmid;", [10990]);
    ("roang;", [10221]); ("roarr;", [8702]); ("robrk;", [10215]);
    ("ropar;", [10630]); ("ropf;", [120163]); ("roplus;", [10798]);
    ("rotimes;", [10805]); ("rpar;", [41]); ("rpargt;", [10644]);
    ("rppolint;", [10770]); ("rrarr;", [8649]); ("rsaquo;", [8250]);
    ("rscr;", [120007]); ("rsh;", [8625]); ("rsqb;", [93]);
    ("rsquo;", [8217]); ("rsquor;", [8217]); ("rthree;", [8908]);
    ("rtimes;", [8906]); ("rtri;", [9657]); ("rtrie;", [8885]);
    ("rtrif;", [9656]); ("rtriltri;", [10702]); ("ruluhar;", [10600]);
    ("rx;", [8478]); ("sacute;", [347]); ("sbquo;", [8218]); ("sc;", [8827]);
    ("scE;", [10932]); ("scap;", [10936]); ("scaron;", [353]);
    ("sccue;", [8829]); ("sce;", [10928]); ("scedil;", [351]);
    ("scirc;", [349]); ("scnE;", [10934]); ("scnap;", [10938]);
    ("scnsim;", [8937]); ("scpolint;", [10771]); ("scsim;", [8831]);
    ("scy;", [1089]); ("sdot;", [8901]); ("sdotb;", [8865]);
    ("sdote;", [10854]); ("seArr;", [8664]); ("searhk;", [10533]);
    ("searr;", [8600]); ("searrow;", [8600]); ("sect", [167]);
    ("sect;", [167]); ("semi;", [59]); ("seswar;", [10537]);
    ("setminus;", [8726]); ("setmn;", [8726]); ("sext;", [10038]);
    ("sfr;", [120112]); ("sfrown;", [8994]); ("sharp;", [9839]);
    ("shchcy;", [1097]); ("shcy;", [1096]); ("shortmid;", [8739]);
    ("shortparallel;", [8741]); ("shy", [173]); ("shy;", [173]);
    ("sigma;", [963]); ("sigmaf;", [962]); ("sigmav;", [962]);
    ("sim;", [8764]); ("simdot;", [10858]); ("sime;", [8771]);
    ("simeq;", [8771]); ("simg;", [10910]); ("simgE;", [10912]);
    ("siml;", [10909]); ("simlE;", [10911]); ("simne;", [8774]);
    ("simplus;", [10788]); ("simrarr;", [10610]); ("slarr;", [8592]);
    ("smallsetminus;", [8726]); ("smashp;", [10803]); ("smeparsl;", [10724]);
    ("smid;", [8739]); ("smile;", [8995]); ("smt;", [10922]);
    ("smte;", [10924]); ("smtes;", [10924; 65024]); ("softcy;", [1100]);
    ("sol;", [47]); ("solb;", [10692]); ("solbar;", [9023]);
    ("sopf;", [120164]); ("spades;", [9824]); ("spadesuit;", [9824]);
    ("spar;", [8741]); ("sqcap;", [8851]); ("sqcaps;", [8851; 65024]);
    ("sqcup;", [8852]); ("sqcups;", [8852; 65024]); ("sqsub;", [8847]);
    ("sqsube;", [8849]); ("sqsubset;", [8847]); ("sqsubseteq;", [8849]);
    ("sqsup;", [8848]); ("sqsupe;", [8850]); ("sqsupset;", [8848]);
    ("sqsupseteq;", [8850]); ("squ;", [9633]); ("square;", [9633]);
    ("squarf;", [9642]); ("squf;", [9642]); ("srarr;", [8594]);
    ("sscr;", [120008]); ("ssetmn;", [8726]); ("ssmile;", [8995]);
    ("sstarf;", [8902]); ("star;", [9734]); ("starf;", [9733]);
    ("straightepsilon;", [1013]); ("straightphi;", [981]); ("strns;", [175]);
    ("sub;", [8834]); ("subE;", [10949]); ("subdot;", [10941]);
    ("sube;", [8838]); ("subedot;", [10947]); ("submult;", [10945]);
    ("subnE;", [10955]); ("subne;", [8842]); ("subplus;", [10943]);
    ("subrarr;", [10617]); ("subset;", [8834]); ("subseteq;", [8838]);
    ("subseteqq;", [10949]); ("subsetneq;", [8842]); ("subsetneqq;", [10955]);
    ("subsim;", [10951]); ("subsub;", [10965]); ("subsup;", [10963]);
    ("succ;", [8827]); ("succapprox;", [10936]); ("succcurlyeq;", [8829]);
    ("succeq;", [10928]); ("succnapprox;", [10938]); ("succneqq;", [10934]);
    ("succnsim;", [8937]); ("succsim;", [8831]); ("sum;", [8721]);
    ("sung;", [9834]); ("sup1", [185]); ("sup1;", [185]); ("sup2", [178]);
    ("sup2;", [178]); ("sup3", [179]); ("sup3;", [179]); ("sup;", [8835]);
    ("supE;", [10950]); ("supdot;", [10942]); ("supdsub;", [10968]);
    ("supe;", [8839]); ("supedot;", [10948]); ("suphsol;", [10185]);
    ("suphsub;", [10967]); ("suplarr;", [10619]); ("supmult;", [10946]);
    ("supnE;", [10956]); ("supne;", [8843]); ("supplus;", [10944]);
    ("supset;", [8835]); ("supseteq;", [8839]); ("supseteqq;", [10950]);
    ("supsetneq;", [8843]); ("supsetneqq;", [10956]); ("supsim;", [10952]);
    ("supsub;", [10964]); ("supsup;", [10966]); ("swArr;", [8665]);
    ("swarhk;", [10534]); ("swarr;", [8601]); ("swarrow;", [8601]);
    ("swnwar;", [10538]); ("szlig", [223]); ("szlig;", [223]);
    ("target;", [8982]); ("tau;", [964]); ("tbrk;", [9140]);
    ("tcaron;", [357]); ("tcedil;", [355]); ("tcy;", [1090]);
    ("tdot;", [8411]); ("telrec;", [8981]); ("tfr;", [120113]);
    ("there4;", [8756]); ("therefore;", [8756]); ("theta;", [952]);
    ("thetasym;", [977]); ("thetav;", [977]); ("thickapprox;", [8776]);
    ("thicksim;", [8764]); ("thinsp;", [8201]); ("thkap;", [8776]);
    ("thksim;", [8764]); ("thorn", [254]); ("thorn;", [254]);
    ("tilde;", [732]); ("times", [215]); ("times;", [215]);
    ("timesb;", [8864]); ("timesbar;", [10801]); ("timesd;", [10800]);
    ("tint;", [8749]); ("toea;", [10536]); ("top;", [8868]);
    ("topbot;", [9014]); ("topcir;", [10993]); ("topf;", [120165]);
    ("topfork;", [10970]); ("tosa;", [10537]); ("tprime;", [8244]);
    ("trade;", [8482]); ("triangle;", [9653]); ("triangledown;", [9663]);
    ("triangleleft;", [9667]); ("trianglelefteq;", [8884]);
    ("triangleq;", [8796]); ("triangleright;", [9657]);
    ("trianglerighteq;", [8885]); ("tridot;", [9708]); ("trie;", [8796]);
    ("triminus;", [10810]); ("triplus;", [10809]); ("trisb;", [10701]);
    ("tritime;", [10811]); ("trpezium;", [9186]); ("tscr;", [120009]);
    ("tscy;", [1094]); ("tshcy;", [1115]); ("tstrok;", [359]);
    ("twixt;", [8812]); ("twoheadleftarrow;", [8606]);
    ("twoheadrightarrow;", [8608]); ("uArr;", [8657]); ("uHar;", [10595]);
    ("uacute", [250]); ("uacute;", [250]); ("uarr;", [8593]);
    ("ubrcy;", [1118]); ("ubreve;", [365]); ("ucirc", [251]);
    ("ucirc;", [251]); ("ucy;", [1091]); ("udarr;", [8645]);
    ("udblac;", [369]); ("udhar;", [10606]); ("ufisht;", [10622]);
    ("ufr;", [120114]); ("ugrave", [249]); ("ugrave;", [249]);
    ("uharl;", [8639]); ("uharr;", [8638]); ("uhblk;", [9600]);
    ("ulcorn;", [8988]); ("ulcorner;", [8988]); ("ulcrop;", [8975]);
    ("ultri;", [9720]); ("umacr;", [363]); ("uml", [168]); ("uml;", [168]);
    ("uogon;", [371]); ("uopf;", [120166]); ("uparrow;", [8593]);
    ("updownarrow;", [8597]); ("upharpoonleft;", [8639]);
    ("upharpoonright;", [8638]); ("uplus;", [8846]); ("upsi;", [965]);
    ("upsih;", [978]); ("upsilon;", [965]); ("upuparrows;", [8648]);
    ("urcorn;", [8989]); ("urcorner;", [8989]); ("urcrop;", [8974]);
    ("uring;", [367]); ("urtri;", [9721]); ("uscr;", [120010]);
    ("utdot;", [8944]); ("utilde;", [361]); ("utri;", [9653]);
    ("utrif;", [9652]); ("uuarr;", [8648]); ("uuml", [252]); ("uuml;", [252]);
    ("uwangle;", [10663]); ("vArr;", [8661]); ("vBar;", [10984]);
    ("vBarv;", [10985]); ("vDash;", [8872]); ("vangrt;", [10652]);
    ("varepsilon;", [1013]); ("varkappa;", [1008]); ("varnothing;", [8709]);
    ("varphi;", [981]); ("varpi;", [982]); ("varpropto;", [8733]);
    ("varr;", [8597]); ("varrho;", [1009]); ("varsigma;", [962]);
    ("varsubsetneq;", [8842; 65024]); ("varsubsetneqq;", [10955; 65024]);
    ("varsupsetneq;", [8843; 65024]); ("varsupsetneqq;", [10956; 65024]);
    ("vartheta;", [977]); ("vartriangleleft;", [8882]);
    ("vartriangleright;", [8883]); ("vcy;", [1074]); ("vdash;", [8866]);
    ("vee;", [8744]); ("veebar;", [8891]); ("veeeq;", [8794]);
    ("vellip;", [8942]); ("verbar;", [124]); ("vert;", [124]);
    ("vfr;", [120115]); ("vltri;", [8882]); ("vnsub;", [8834; 8402]);
    ("vnsup;", [8835; 8402]); ("vopf;", [120167]); ("vprop;", [8733]);
    ("vrtri;", [8883]); ("vscr;", [120011]); ("vsubnE;", [10955; 65024]);
    ("vsubne;", [8842; 65024]); ("vsupnE;", [10956; 65024]);
    ("vsupne;", [8843; 65024]); ("vzigzag;", [10650]); ("wcirc;", [373]);
    ("wedbar;", [10847]); ("wedge;", [8743]); ("wedgeq;", [8793]);
    ("weierp;", [8472]); ("wfr;", [120116]); ("wopf;", [120168]);
    ("wp;", [8472]); ("wr;", [8768]); ("wreath;", [8768]);
    ("wscr;", [120012]); ("xcap;", [8898]); ("xcirc;", [9711]);
    ("xcup;", [8899]); ("xdtri;", [9661]); ("xfr;", [120117]);
    ("xhArr;", [10234]); ("xharr;", [10231]); ("xi;", [958]);
    ("xlArr;", [10232]); ("xlarr;", [10229]); ("xmap;", [10236]);
    ("xnis;", [8955]); ("xodot;", [10752]); ("xopf;", [120169]);
    ("xoplus;", [10753]); ("xotime;", [10754]); ("xrArr;", [10233]);
    ("xrarr;", [10230]); ("xscr;", [120013]); ("xsqcup;", [10758]);
    ("xuplus;", [10756]); ("xutri;", [9651]); ("xvee;", [8897]);
    ("xwedge;", [8896]); ("yacute", [253]); ("yacute;", [253]);
    ("yacy;", [1103]); ("ycirc;", [375]); ("ycy;", [1099]); ("yen", [165]);
    ("yen;", [165]); ("yfr;", [120118]); ("yicy;", [1111]);
    ("yopf;", [120170]); ("yscr;", [120014]); ("yucy;", [1102]);
    ("yuml", [255]); ("yuml;", [255]); ("zacute;", [378]); ("zcaron;", [382]);
    ("zcy;", [1079]); ("zdot;", [380]); ("zeetrf;", [8488]); ("zeta;", [950]);
    ("zfr;", [120119]); ("zhcy;", [1078]); ("zigrarr;", [8669]);
    ("zopf;", [120171]); ("zscr;", [120015]); ("zwj;", [8205]);
    ("zwnj;", [8204])
  ])%N.

Local Close Scope string_scope.

Definition html5_get (name : str) : option str :=
  option_map snd
    (List.find (fun e => str_eqb (py (fst e)) name) html5).

Definition invalid_charrefs (num : N) : option char :=
  (if num =? 0 then Some 65533
   else if num =? 13 then Some 13
   else if (128 <=? num) && (num <=? 159) then
     nth_error
       [ 8364; 129; 8218; 402; 8222; 8230; 8224; 8225; 710; 8240; 352; 8249;
         338; 141; 381; 143; 144; 8216; 8217; 8220; 8221; 8226; 8211; 8212;
         732; 8482; 353; 8250; 339; 157; 382; 376 ]
       (N.to_nat (num - 128))
   else None)%N.

Definition invalid_codepoints (num : N) : bool :=
  ((1 <=? num) && (num <=? 8) || (14 <=? num) && (num <=? 31)
   || (127 <=? num) && (num <=? 159)
   || (64976 <=? num) && (num <=? 65007)
   || (num =? 11)
   || (num <=? 1114111) && (65534 <=? num mod 65536))%N.

(** The name of a reference that is not in the table as it stands: the
    longest proper prefix of two characters or more that is. *)
Fixpoint longest_prefix (s : str) (x : nat) : option str :=
  match x with
  | O | 1 => None
  | S x' =>
      match html5_get (firstn x s) with
      | Some v => Some (v ++ skipn x s)
      | None => longest_prefix s x'
      end
  end.

(** [_replace_charref], on the text of group 1.  The decimal form goes
    through [int], the hexadecimal one through [int(_, 16)], which has no
    cap on its digits. *)
Definition replace_charref (g : option str) : result str :=
  match g with
  | None => Raise TypeError
  | Some s =>
      match s with
      | 35%N :: r =>
          let num :=
            match r with
            | x :: h =>
                if mem x (py "xX")
                then digits_value 16 hex_digit_value (rstrip_semi h) 0
                else option_map Z.to_N (int_of_str (rstrip_semi r))
            | [] => None
            end in
          match num with
          | None => Raise ValueError
          | Some num =>
              match invalid_charrefs num with
              | Some c => Ok [c]
              | None =>
                  if ((55296 <=? num) && (num <=? 57343)
                      || (1114111 <? num))%N
                  then Ok [65533%N]
                  else if invalid_codepoints num then Ok []
                  else Ok [num]
              end
          end
      | _ =>
          match html5_get s with
          | Some v => Ok v
          | None =>
              match longest_prefix s (length s - 1) with
              | Some v => Ok v
              | None => Ok (38%N :: s)
              end
          end
      end
  end.

(** [_charref]: [&(#[0-9]+;?|#[xX][0-9a-fA-F]+;?|[^\t\n\f <&#;]{1,32};?)] *)
Definition charref : re :=
  (lit "&" ;;
   Grp (Alt (lit "#" ;; plus is_ascii_digit ;; Opt (lit ";"))
       (Alt (lit "#" ;; Cls (oneof (py "xX")) ;; plus is_hex_digit ;;
             Opt (lit ";"))
            (Rep (noneof [9; 10; 12; 32; 60; 38; 35; 59]%N) 1 (Some 32) ;;
             Opt (lit ";")))))%re.

Definition unescape (s : str) : result str :=
  if negb (mem 38%N s) then Ok s else sub_fn charref replace_charref s.

(** The clock is read by the caller and passed in. *)
Definition datetime := Z.

Record GuestCount : Type := mkGuestCount {
  timestamp : datetime;
  count : Z;
  capacity : option Z
}.

(** [int(m.group(1))]: a group that took no part gives [None], which [int]
    rejects with [TypeError]; text that is no integer gives [ValueError]. *)
Definition int_group (m : Match) : result Z :=
  match m_group1 m with
  | None => Raise TypeError
  | Some s =>
      match int_of_str s with
      | Some n => Ok n
      | None => Raise ValueError
      end
  end.

(** ** The text normalizer and the extractors *)

(** [<[^>]+>] *)
Definition TAG : re := (lit "<" ;; plus (noneof (py ">")) ;; lit ">")%re.
(** [\s+] *)
Definition SPACES : re := plus is_space.

Definition _extract_visible_text (html : str) : result str :=
  let text := sub TAG (py " ") html in
  let text := sub SPACES (py " ") text in
  do text <- unescape text ;
  Ok (strip text).

Definition _parse_guest_count (now : datetime) (html : str)
  : result GuestCount :=
  do text <- _extract_visible_text html ;
  do '(count, text_slice) <-
    match search COUNT_ID_PATTERN html with
    | Some html_match =>
        do count <- int_group html_match ;
        match find (str_of_int count) text with
        | Some start_idx => Ok (count, slice text start_idx (start_idx + 100))
        | None => Ok (count, text)
        end
    | None =>
        match search COUNT_PATTERN text with
        | None => Raise (GuestCountError "Could not find guest count in page")
        | Some text_match =>
            do count <- int_group text_match ;
            Ok (count, slice text (m_end text_match) (m_end text_match + 100))
        end
    end ;
  match search CAPACITY_PATTERN text_slice with
  | Some capacity_match =>
      do capacity <- int_group capacity_match ;
      Ok (mkGuestCount now count (Some capacity))
  | None => Ok (mkGuestCount now count None)
  end.

Definition _extract_uid_from_html (html : str) : option str :=
  match search UID_IN_MARKUP_PATTERN html with
  | Some m => m_group1 m
  | None => None
  end.

(** ** Numbers of the live feed *)

(** A decoded JSON document ([json.loads]).  Floats are binary64 values; an
    object keeps its members in document order. *)
Local Unset Elimination Schemes.
Inductive json : Type :=
| JNull
| JBool (b : bool)
| JInt (n : Z)
| JFloat (f : spec_float)
| JStr (s : str)
| JArr (items : list json)
| JObj (members : list (str * json)).
Local Set Elimination Schemes.

(** [d.get(key)]: a repeated name keeps its last value, a missing one gives
    [None], here [JNull]. *)
Definition has_key (key : str) (members : list (str * json)) : bool :=
  existsb (fun e => str_eqb (fst e) key) members.

Fixpoint dict_get (key : str) (members : list (str * json)) : json :=
  match members with
  | [] => JNull
  | (k, v) :: rest =>
      if has_key key rest then dict_get key rest
      else if str_eqb k key then v
      else JNull
  end.

(** Underscores of a numeric literal: each one stands between two digits. *)
Fixpoint strip_underscores (s : str) (prev : char) : option str :=
  match s with
  | [] => if char_eqb prev 95%N then None else Some []
  | c :: s' =>
      if char_eqb c 95%N then
        if is_ascii_digit prev then strip_underscores s' c else None
      else if char_eqb prev 95%N && negb (is_ascii_digit c) then None
      else option_map (cons c) (strip_underscores s' c)
  end.

Fixpoint take_while (p : char -> bool) (s : str) : str :=
  match s with
  | [] => []
  | c :: s' => if p c then c :: take_while p s' else []
  end.

Definition ascii_lower (c : char) : char :=
  if ((65 <=? c) && (c <=? 90))%N then (c + 32)%N else c.

Definition nat_of_digits (s : str) : Z :=
  match digits_value 10 ascii_digit_value s 0 with
  | Some n => Z.of_N n
  | None => 0%Z
  end.

(** The binary64 value nearest to [m * 10 ^ e], ties to even. *)
Definition decimal_to_float (neg : bool) (m e : Z) : spec_float :=
  match m with
  | Zpos mp =>
      if (0 <=? e)%Z then
        binary_normalize 53 1024 (if neg then - (m * 10 ^ e) else m * 10 ^ e)%Z
                         0 false
      else
        SFdiv 53 1024 (S754_finite neg mp 0)
              (S754_finite false (Z.to_pos (10 ^ (- e))) 0)
  | _ => S754_zero neg
  end.

(** A decimal floating-point literal after its sign: digits, an optional
    fraction, an optional exponent, and nothing else. *)
Definition parse_decimal (neg : bool) (s : str) : option spec_float :=
  let int_part := take_while is_ascii_digit s in
  let s1 := skipn (length int_part) s in
  let '(frac_part, s2) :=
    match s1 with
    | 46%N :: r =>
        let f := take_while is_ascii_digit r in (f, skipn (length f) r)
    | _ => ([], s1)
    end in
  match int_part ++ frac_part with
  | [] => None
  | mant =>
      let finish (e10 : Z) :=
        Some (decimal_to_float neg (nat_of_digits mant)
                               (e10 - Z.of_nat (length frac_part))) in
      match s2 with
      | [] => finish 0%Z
      | c :: r =>
          if mem c (py "eE") then
            let '(eneg, ds) :=
              match r with
              | 45%N :: d => (true, d)
              | 43%N :: d => (false, d)
              | _ => (false, r)
              end in
            match ds with
            | [] => None
            | _ =>
                if forallb is_ascii_digit ds
                then finish (if eneg then - nat_of_digits ds
                             else nat_of_digits ds)%Z
                else None
            end
          else None
      end
  end.

(** [float(s)] on a [str]: [None] is [ValueError]. *)
Definition float_of_str (s : str) : option spec_float :=
  match to_ascii_decimal s with
  | None => None
  | Some a =>
      match strip_underscores (ascii_strip a) 0%N with
      | None => None
      | Some body =>
          let '(neg, r) :=
            match body with
            | 45%N :: r => (true, r)
            | 43%N :: r => (false, r)
            | _ => (false, body)
            end in
          let word := map ascii_lower r in
          if str_eqb word (py "inf") || str_eqb word (py "infinity")
          then Some (S754_infinity neg)
          else if str_eqb word (py "nan") then Some S754_nan
          else parse_decimal neg r
      end
  end.

(** [float(x)] on a decoded value: [None] when it raises ([TypeError] for
    [None], lists and dicts, [ValueError] for text that is no number,
    [OverflowError] for an integer beyond the largest float). *)
Definition float_of (x : json) : option spec_float :=
  match x with
  | JNull | JArr _ | JObj _ => None
  | JBool b => Some (binary_normalize 53 1024 (if b then 1 else 0) 0 false)
  | JInt n =>
      match binary_normalize 53 1024 n 0 false with
      | S754_infinity _ => None
      | f => Some f
      end
  | JFloat f => Some f
  | JStr s => float_of_str s
  end.

(** [int(f)] on a float: truncation toward zero; [None] when it raises
    ([OverflowError] for an infinity, [ValueError] for a NaN). *)
Definition int_of_float (f : spec_float) : option Z :=
  match f with
  | S754_zero _ => Some 0%Z
  | S754_infinity _ | S754_nan => None
  | S754_finite s m e =>
      let v := (if 0 <=? e then Zpos m * 2 ^ e else Zpos m / 2 ^ (- e))%Z in
      Some (if s then - v else v)%Z
  end.

(** [int(float(x))], [None] when either conversion raises. *)
Definition int_float (x : json) : option Z :=
  match float_of x with
  | Some f => int_of_float f
  | None => None
  end.

(** ** Effects *)

(** What the process does to the outside world, in order. *)
Inductive event : Type :=
| HttpGet (url : string)
| HttpClose
| DumpHtml (html : str)
| WsConnect (url : string) (headers_keyword : option string)
| WsSend (payload : str)
| WsRecv (timeout_ms : N)
| WsClose.

(** A frame of the feed, as [json.loads] reads it. *)
Inductive frame : Type :=
| Json (payload : json)
| NotJson.

(** What the feed does next: deliver a frame after a delay, or drop the
    connection.  A feed with nothing left stays silent. *)
Inductive arrival : Type :=
| Arrives (after_ms : N) (f : frame)
| Closes.

Inductive http_outcome : Type :=
| HttpResponse (status : N) (text : str)
| HttpFails        (* a transport error, an [httpx.HTTPError] *)
| HttpOtherError.  (* any exception that is no [httpx.HTTPError] *)

(** The configuration and the behaviour of the outside world during one
    call. *)
Record env : Type := mkEnv {
  target_url : string;            (* [get_target_url()] *)
  user_agent : string;            (* [get_user_agent()] *)
  ws_url : string;                (* [get_ws_url()] *)
  httpx_installed : bool;
  websockets_installed : bool;
  client_supplied : bool;         (* the [client] argument is not [None] *)
  http : http_outcome;            (* what [client.get(url)] does *)
  dump_ok : bool;                 (* the debug file can be written *)
  connect_parameters : list string;  (* signature of [websockets.connect] *)
  ws_connect_ok : bool;
  ws_send_ok : bool
}.

Record world : Type := mkWorld {
  pending : list arrival;   (* what the feed still has to deliver *)
  waited_ms : N;            (* time spent waiting for frames *)
  trace : list event        (* most recent first *)
}.

(** Computations that read and change the world and may raise. *)
Definition M (A : Type) : Type := world -> result A * world.

Definition ret {A : Type} (a : A) : M A := fun w => (Ok a, w).
Definition raise {A : Type} (e : exn) : M A := fun w => (Raise e, w).

Definition mbind {A B : Type} (c : M A) (f : A -> M B) : M B :=
  fun w =>
    match c w with
    | (Ok a, w') => f a w'
    | (Raise e, w') => (Raise e, w')
    end.

Notation "'let*' x := c1 'in' c2" := (mbind c1 (fun x => c2))
  (at level 10, x binder, c1 at level 100, c2 at level 200).

Definition emit (e : event) : M unit :=
  fun w => (Ok tt, mkWorld (pending w) (waited_ms w) (e :: trace w)).

(** [try: body / except Exception: handler]. *)
Definition try_except {A : Type} (body : M A) (handler : exn -> M A) : M A :=
  fun w =>
    match body w with
    | (Ok a, w') => (Ok a, w')
    | (Raise e, w') => handler e w'
    end.

(** [try: body / finally: cleanup], and leaving a [with] block. *)
Definition try_finally {A : Type} (body : M A) (cleanup : M unit) : M A :=
  fun w =>
    match body w with
    | (r, w') =>
        match cleanup w' with
        | (Ok _, w'') => (r, w'')
        | (Raise e, w'') => (Raise e, w'')
        end
    end.

(** ** The live feed client *)

(** The loop of [_recv_once] over the records of one frame. *)
Fixpoint scan_records (uid : str) (payload : list json)
  : option (Z * option Z) :=
  match payload with
  | [] => None
  | item :: rest =>
      match item with
      | JObj members =>
          match dict_get (py "uid") members with
          | JStr u =>
              if str_eqb u uid then
                let current := dict_get (py "currentfill") members in
                let maxspace := dict_get (py "maxspace") members in
                match int_float current with
                | None => None
                | Some count_val =>
                    let capacity_val :=
                      match maxspace with
                      | JNull => None
                      | _ => int_float maxspace
                      end in
                    Some (count_val, capacity_val)
                end
              else scan_records uid rest
          | _ => scan_records uid rest
          end
      | _ => scan_records uid rest
      end
  end.

(** [asyncio.wait_for(ws.recv(), timeout=10.0)] *)
Definition recv (timeout_ms : N) : M frame :=
  fun w =>
    let tr := WsRecv timeout_ms :: trace w in
    match pending w with
    | Arrives d f :: rest =>
        if (d <? timeout_ms)%N
        then (Ok f, mkWorld rest (waited_ms w + d) tr)
        else (Raise TimeoutError,
              mkWorld (pending w) (waited_ms w + timeout_ms) tr)
    | Closes :: rest =>
        (Raise ConnectionClosed, mkWorld rest (waited_ms w) tr)
    | [] =>
        (Raise TimeoutError, mkWorld [] (waited_ms w + timeout_ms) tr)
    end.

Definition _recv_once (uid : str) : M (option (Z * option Z)) :=
  let* raw := recv 10000 in
  match raw with
  | NotJson => raise JSONDecodeError
  | Json payload =>
      match payload with
      | JArr items => ret (scan_records uid items)
      | _ => ret None
      end
  end.

(** [for _ in range(n)]: receive until a frame gives a result. *)
Fixpoint recv_more (uid : str) (n : nat) : M (option (Z * option Z)) :=
  match n with
  | O => ret None
  | S n' =>
      let* result := _recv_once uid in
      match result with
      | Some r => ret (Some r)
      | None => recv_more uid n'
      end
  end.

Definition headers_keyword (parameters : list string) : option string :=
  if existsb (String.eqb "additional_headers") parameters
  then Some "additional_headers"%string
  else if existsb (String.eqb "extra_headers") parameters
       then Some "extra_headers"%string
       else None.

Definition connect (e : env) : M unit :=
  let* _ := emit (WsConnect (ws_url e)
                            (headers_keyword (connect_parameters e))) in
  if ws_connect_ok e then ret tt else raise ConnectionClosed.

Definition send (e : env) (payload : str) : M unit :=
  let* _ := emit (WsSend payload) in
  if ws_send_ok e then ret tt else raise ConnectionClosed.

Definition _fetch_count_via_websocket (e : env) (uid : str)
  : M (Z * option Z) :=
  if negb (websockets_installed e) then
    raise (GuestCountError
      "WebSocket fallback requires the 'websockets' package. Install project dependencies.")
  else
    let* found :=
      try_except
        (let* _ := connect e in
         try_finally
           (let* _ := send e (py "all") in
            let* result := _recv_once uid in
            match result with
            | Some r => ret (Some r)
            | None => recv_more uid 2
            end)
           (emit WsClose))
        (fun _ =>
           raise (GuestCountError "Failed to fetch guest count via WebSocket"))
    in
    match found with
    | Some r => ret r
    | None =>
        raise (GuestCountError "Could not find guest count in WebSocket stream")
    end.

(** ** The orchestrator *)

Definition _maybe_dump_html_for_debug (e : env) (html : str) : M unit :=
  try_except
    (let* _ := emit (DumpHtml html) in
     if dump_ok e then ret tt else raise OtherException)
    (fun _ => ret tt).

(** [response.raise_for_status()] accepts the 2xx statuses. *)
Definition is_success (status : N) : bool :=
  ((200 <=? status) && (status <=? 299))%N.

Definition lift {A : Type} (r : result A) : M A := fun w => (r, w).

Definition fetch_guest_count_async (e : env) (now : datetime) : M GuestCount :=
  if negb (httpx_installed e) then
    raise (GuestCountError
      "The 'httpx' package is required to fetch guest counts. Install the project dependencies to enable network scraping.")
  else
    try_finally
      (try_except
         (let* _ := emit (HttpGet (target_url e)) in
          let* html :=
            match http e with
            | HttpFails => raise HTTPError
            | HttpOtherError => raise OtherException
            | HttpResponse status text =>
                if is_success status then ret text else raise HTTPError
            end in
          try_except
            (lift (_parse_guest_count now html))
            (fun parse_exc =>
               match parse_exc with
               | GuestCountError _ =>
                   match _extract_uid_from_html html with
                   | Some (c :: u) =>
                       let* '(count, capacity) :=
                         _fetch_count_via_websocket e (c :: u) in
                       ret (mkGuestCount now count capacity)
                   | _ =>
                       let* _ := _maybe_dump_html_for_debug e html in
                       raise parse_exc
                   end
               | _ => raise parse_exc
               end))
         (fun exc =>
            match exc with
            | HTTPError => raise (GuestCountError "Failed to fetch guest count")
            | _ => raise exc
            end))
      (if client_supplied e then ret tt else emit HttpClose).

(** * Vocabulary of the statements *)

Unset Implicit Arguments.
Arguments py : simpl never.

(** [Matches r u g g']: [r] can consume exactly [u], turning the capture
    [g] into [g']. *)
Inductive Matches : re -> str -> option str -> option str -> Prop :=
| M_eps g : Matches Eps [] g g
| M_cls p c g : p c = true -> Matches (Cls p) [c] g g
| M_rep p lo hi u g :
    forallb p u = true -> lo <= length u ->
    (forall h, hi = Some h -> length u <= h) ->
    Matches (Rep p lo hi) u g g
| M_cat r1 r2 u v g g' g'' :
    Matches r1 u g g' -> Matches r2 v g' g'' ->
    Matches (Cat r1 r2) (u ++ v) g g''
| M_alt_l r1 r2 u g g' : Matches r1 u g g' -> Matches (Alt r1 r2) u g g'
| M_alt_r r1 r2 u g g' : Matches r2 u g g' -> Matches (Alt r1 r2) u g g'
| M_opt_some r u g g' : Matches r u g g' -> Matches (Opt r) u g g'
| M_opt_none r g : Matches (Opt r) [] g g
| M_grp r u g g' : Matches r u g g' -> Matches (Grp r) u g (Some u).

#[local] Hint Constructors Matches : core.

(** An occurrence of [r] in [s] after [pre]. *)
Definition occurs_at (r : re) (s pre : str) : Prop :=
  exists u v g g', s = pre ++ u ++ v /\ Matches r u g g'.

Fixpoint no_grp (r : re) : bool :=
  match r with
  | Eps | Cls _ | Rep _ _ _ => true
  | Cat r1 r2 | Alt r1 r2 => no_grp r1 && no_grp r2
  | Opt r1 => no_grp r1
  | Grp _ => false
  end.

(** A run of one or more decimal digits. *)
Definition digit_run (ds : str) : Prop :=
  ds <> [] /\ forallb is_digit ds = true.

(** Patterns whose every match leaves a digit run in group 1. *)
Inductive CapturesDigits : re -> Prop :=
| CD_grp lo hi : 1 <= lo -> CapturesDigits (Grp (Rep is_digit lo hi))
| CD_last r1 r2 : CapturesDigits r2 -> CapturesDigits (Cat r1 r2)
| CD_then r1 r2 :
    CapturesDigits r1 -> no_grp r2 = true -> CapturesDigits (Cat r1 r2).

Definition digit_value (c : char) : N :=
  match decimal_value c with Some d => d | None => 0%N end.

(** The number a digit run denotes. *)
Definition number_of (ds : str) : N :=
  fold_left (fun acc c => (acc * 10 + digit_value c)%N) ds 0%N.

(** The ASCII digit that stands for a decimal digit. *)
Definition ascii_digit_of (c : char) : char := (48 + digit_value c)%N.

(** The number captured by a match whose group 1 is a digit run. *)
Definition captured_number (m : Match) : Z :=
  match m_group1 m with
  | Some ds => Z.of_N (number_of ds)
  | None => 0%Z
  end.

(** The digit run captured by a match is longer than the cap of [int]. *)
Definition over_cap (m : Match) : bool :=
  match m_group1 m with
  | Some ds => (int_max_str_digits <? N.of_nat (length ds))%N
  | None => false
  end.

(** [int(m.group(1))] for a match that captured a digit run. *)
Definition number_within_cap (m : Match) : result Z :=
  if over_cap m then Raise ValueError else Ok (captured_number m).

(** The capacity found in a window of text, if any. *)
Definition capacity_in (window : str) : result (option Z) :=
  match search CAPACITY_PATTERN window with
  | Some m =>
      do capacity <- number_within_cap m ;
      Ok (Some capacity)
  | None => Ok None
  end.

(** Where the capacity is looked for once a count is known. *)
Definition window_after_cell (text : str) (n : Z) : str :=
  match find (str_of_int n) text with
  | Some start_idx => slice text start_idx (start_idx + 100)
  | None => text
  end.

Definition window_after_phrase (text : str) (m : Match) : str :=
  slice text (m_end m) (m_end m + 100).

Definition not_found : exn :=
  GuestCountError "Could not find guest count in page".

(** A page that is one decimal character reference, longer than the cap
    of [int]. *)
Definition page_long_reference : str :=
  py "&#" ++ repeat (char_of "1") 4301.

(** Two pages on which the capacity is not read next to the cell. *)
Definition page_far_capacity : str :=
  py "<td id='SSD-4_visitornumber'>٣</td>" ++ repeat (char_of "x") 150 ++
  py " von 9".

Definition page_two_counts : str :=
  py "5 von 9 " ++ repeat (char_of "x") 120 ++
  py "<td id='SSD-4_visitornumber'>5</td> von 250".

(** The claim's window: the hundred characters of the text after the
    position where the count ends. *)
Definition window_following (text : str) (count_end : nat) : str :=
  slice text count_end (count_end + 100).

(** A token [SSD-<digits>] directly followed by [_visitornumber]. *)
Definition uid_token (uid : str) : Prop :=
  exists ds, digit_run ds /\ uid = py "SSD-" ++ ds.

(** The record is an object whose [uid] is the requested identifier. *)
Definition has_uid (uid : str) (item : json) : bool :=
  match item with
  | JObj members =>
      match dict_get (py "uid") members with
      | JStr u => str_eqb u uid
      | _ => false
      end
  | _ => false
  end.

(** What a record with the right [uid] yields. *)
Definition record_result (item : json) : option (Z * option Z) :=
  match item with
  | JObj members =>
      match int_float (dict_get (py "currentfill") members) with
      | None => None
      | Some count_val =>
          let maxspace := dict_get (py "maxspace") members in
          Some (count_val,
                match maxspace with
                | JNull => None
                | _ => int_float maxspace
                end)
      end
  | _ => None
  end.

(** The reading of C4 as stated: a record whose count does not convert is
    passed over and the scan goes on. *)
Fixpoint scan_records_continuing (uid : str) (payload : list json)
  : option (Z * option Z) :=
  match payload with
  | [] => None
  | item :: rest =>
      if has_uid uid item then
        match record_result item with
        | Some r => Some r
        | None => scan_records_continuing uid rest
        end
      else scan_records_continuing uid rest
  end.

Definition feed_record (uid currentfill maxspace : string) : json :=
  JObj [(py "uid", JStr (py uid)); (py "currentfill", JStr (py currentfill));
        (py "maxspace", JStr (py maxspace))].

(** What one frame gives: the scan of an array, nothing for any other
    document. *)
Definition frame_result (uid : str) (payload : json) : option (Z * option Z) :=
  match payload with
  | JArr items => scan_records uid items
  | _ => None
  end.

Definition feed_failed : exn :=
  GuestCountError "Failed to fetch guest count via WebSocket".
Definition feed_exhausted : exn :=
  GuestCountError "Could not find guest count in WebSocket stream".

(** The result of a session that may receive [budget] frames: the result of
    the first frame that has one. *)
Fixpoint first_match (uid : str) (budget : nat) (feed : list arrival)
  : result (Z * option Z) :=
  match budget with
  | O => Raise feed_exhausted
  | S n =>
      match feed with
      | Arrives d (Json payload) :: rest =>
          if (d <? 10000)%N then
            match frame_result uid payload with
            | Some r => Ok r
            | None => first_match uid n rest
            end
          else Raise feed_failed
      | _ => Raise feed_failed
      end
  end.

(** The frames a session of [budget] receives consumes: how many receives
    it makes, how long it waits, what it leaves pending. *)
Fixpoint receives (uid : str) (budget : nat) (feed : list arrival)
  : nat * N * list arrival :=
  match budget with
  | O => (0, 0%N, feed)
  | S n =>
      match feed with
      | [] => (1, 10000%N, [])
      | Closes :: rest => (1, 0%N, rest)
      | Arrives d f :: rest =>
          if (d <? 10000)%N then
            match f with
            | NotJson => (1, d, rest)
            | Json payload =>
                match frame_result uid payload with
                | Some _ => (1, d, rest)
                | None =>
                    let '(k, t, later) := receives uid n rest in
                    (S k, (d + t)%N, later)
                end
            end
          else (1, 10000%N, feed)
      end
  end.

Definition session_result (r : result (option (Z * option Z)))
  : result (Z * option Z) :=
  match r with
  | Ok (Some x) => Ok x
  | Ok None => Raise feed_exhausted
  | Raise _ => Raise feed_failed
  end.

(** A frame that arrives in time, parses, and has no result for [uid]. *)
Definition quiet (uid : str) (a : arrival) : Prop :=
  exists d payload,
    a = Arrives d (Json payload) /\ (d < 10000)%N /\
    frame_result uid payload = None.

(** What ends a session early: silence until the time-out, a dropped
    connection, a frame that comes too late, a frame that is no JSON. *)
Definition breaking (next : option arrival) : Prop :=
  match next with
  | None => True
  | Some Closes => True
  | Some (Arrives d f) => (10000 <= d)%N \/ f = NotJson
  end.

Definition env_ok : env :=
  mkEnv "https://example.org/city.html" "agent" "wss://example.org/api"
        true true false (HttpResponse 200 (py "Keine Angaben verfügbar"))
        true ["additional_headers"%string] true true.

Definition frame_other : json :=
  JArr [feed_record "SSD-9" "3" "50"].
Definition frame_target : json :=
  JArr [feed_record "SSD-9" "3" "50"; feed_record "SSD-4" "68" "120"].

Definition world_second_frame : world :=
  mkWorld [Arrives 20 (Json frame_other); Arrives 35 (Json frame_target);
           Arrives 50 (Json frame_other)] 0 [].

Definition world_skipped_frame : world :=
  mkWorld [Arrives 20 (Json (JObj [(py "status", JStr (py "ok"))]));
           Arrives 35 (Json frame_target)] 0 [].

Definition fetch_failed : exn := GuestCountError "Failed to fetch guest count".

(** The events of closing a client the call created itself. *)
Definition closing (e : env) : list event :=
  if client_supplied e then [] else [HttpClose].

(** The HTTP fetch fails: a transport error, or a status outside 2xx. *)
Definition http_fetch_fails (e : env) : Prop :=
  http e = HttpFails \/
  exists status text,
    http e = HttpResponse status text /\ is_success status = false.

Definition env_unavailable : env :=
  mkEnv "https://example.org/city.html" "agent" "wss://example.org/api"
        true true false (HttpResponse 503 (py "SSD-4_visitornumber"))
        true ["additional_headers"%string] true true.

(** The same environment with another fate for the debug file. *)
Definition with_dump_ok (e : env) (ok : bool) : env :=
  mkEnv (target_url e) (user_agent e) (ws_url e) (httpx_installed e)
        (websockets_installed e) (client_supplied e) (http e) ok
        (connect_parameters e) (ws_connect_ok e) (ws_send_ok e).

(** A tag starts here: a [<], a character other than [>], and a [>]
    further on. *)
Definition tag_at (s : str) : Prop :=
  exists c w, s = 60%N :: c :: w /\ c <> 62%N /\ In 62%N w.

(** No tag starts anywhere in the text. *)
Fixpoint tagless (s : str) : Prop :=
  match s with
  | [] => True
  | _ :: s' => ~ tag_at s /\ tagless s'
  end.

(** Patterns that never match the empty text, nor at a [>]. *)
Definition never_empty (r : re) : Prop :=
  forall s m, match_here r s 0 = Some m -> m_end m <> 0.
Definition never_at_gt (r : re) : Prop :=
  forall s, match_here r (62%N :: s) 0 = None.

(** Every white-space character is a single space between two other
    characters or at an end. *)
Fixpoint collapsed (s : str) : Prop :=
  match s with
  | [] => True
  | c :: s' =>
      (is_space c = true ->
       c = 32%N /\ match s' with [] => True | d :: _ => is_space d = false end)
      /\ collapsed s'
  end.

(** * Properties *)

(** ** What the matcher accepts *)

Section MatcherFacts.
Variable T : Type.

Lemma rep_sound p s : forall lo hi (k : str -> option T) x,
  rep p lo hi s k = Some x ->
  exists u v, s = u ++ v /\ forallb p u = true /\ lo <= length u /\
              (forall h, hi = Some h -> length u <= h) /\ k v = Some x.
Proof.
  induction s as [|c s IH]; intros lo hi k x H; simpl in H.
  - destruct lo; [|discriminate].
    exists [], []; repeat split; auto; simpl; intros; lia.
  - assert (Hstop : (match lo with O => k (c :: s) | S _ => None end) = Some x ->
                    exists u v, c :: s = u ++ v /\ forallb p u = true /\
                      lo <= length u /\
                      (forall h, hi = Some h -> length u <= h) /\ k v = Some x).
    { intros E. destruct lo; [|discriminate].
      exists [], (c :: s); repeat split; auto; simpl; intros; lia. }
    assert (Hgo : hi <> Some 0 -> p c = true ->
              (exists y, rep p (pred lo) (option_map pred hi) s k = Some y) ->
              rep p (pred lo) (option_map pred hi) s k = Some x ->
              exists u v, c :: s = u ++ v /\ forallb p u = true /\
                      lo <= length u /\
                      (forall h, hi = Some h -> length u <= h) /\ k v = Some x).
    { intros Hhi Hp _ E. apply IH in E.
      destruct E as (u & v & -> & Hu & Hlo & Hh & Hk).
      exists (c :: u), v; simpl; rewrite Hp, Hu; repeat split; auto; try lia.
      intros h ->. specialize (Hh (pred h) eq_refl).
      destruct h; [congruence | simpl in Hh; lia]. }
    destruct hi as [[|h]|].
    + apply Hstop, H.
    + destruct (p c) eqn:Hp; [|apply Hstop, H].
      destruct (rep p (pred lo) (option_map pred (Some (S h))) s k) eqn:E;
        [|apply Hstop, H].
      inversion H; subst. apply Hgo; eauto. discriminate.
    + destruct (p c) eqn:Hp; [|apply Hstop, H].
      destruct (rep p (pred lo) (option_map pred None) s k) eqn:E;
        [|apply Hstop, H].
      inversion H; subst. apply Hgo; eauto. congruence.
Qed.

Lemma rep_complete p u : forall lo hi v (k : str -> option T),
  forallb p u = true -> lo <= length u ->
  (forall h, hi = Some h -> length u <= h) ->
  k v <> None -> rep p lo hi (u ++ v) k <> None.
Proof.
  induction u as [|c u IH]; intros lo hi v k Hu Hlo Hhi Hk; simpl in *.
  - assert (lo = 0) by lia; subst lo.
    destruct v as [|c v]; simpl; auto.
    destruct hi as [[|h]|]; auto.
    + destruct (p c); auto.
      destruct (rep p 0 (option_map pred (Some (S h))) v k); auto; discriminate.
    + destruct (p c); auto.
      destruct (rep p 0 (option_map pred None) v k); auto; discriminate.
  - apply andb_prop in Hu. destruct Hu as [Hc Hu]. rewrite Hc.
    assert (Hrec : rep p (pred lo) (option_map pred hi) (u ++ v) k <> None).
    { apply IH; auto; try lia.
      intros h E. destruct hi as [h0|]; [|discriminate].
      specialize (Hhi h0 eq_refl). simpl in E. inversion E; lia. }
    destruct hi as [[|h]|].
    + specialize (Hhi 0 eq_refl); lia.
    + destruct (rep p (pred lo) (option_map pred (Some (S h))) (u ++ v) k);
        congruence.
    + destruct (rep p (pred lo) (option_map pred None) (u ++ v) k);
        congruence.
Qed.

Lemma firstn_length_app (u v : str) :
  firstn (length (u ++ v) - length v) (u ++ v) = u.
Proof.
  rewrite length_app, Nat.add_sub.
  rewrite firstn_app, Nat.sub_diag, firstn_all. simpl. apply app_nil_r.
Qed.

Lemma run_sound r : forall s g (k : str -> option str -> option T) x,
  run r s g k = Some x ->
  exists u v g', s = u ++ v /\ Matches r u g g' /\ k v g' = Some x.
Proof.
  induction r as [|p|p lo hi|r1 IH1 r2 IH2|r1 IH1 r2 IH2|r1 IH1|r1 IH1];
    intros s g k x H; simpl in H.
  - exists [], s, g; auto.
  - destruct s as [|c s]; [discriminate|].
    destruct (p c) eqn:Hp; [|discriminate].
    exists [c], s, g; auto.
  - apply rep_sound in H. destruct H as (u & v & -> & Hu & Hlo & Hh & Hk).
    exists u, v, g; auto.
  - apply IH1 in H. destruct H as (u1 & v1 & g1 & -> & M1 & H).
    apply IH2 in H. destruct H as (u2 & v2 & g2 & -> & M2 & H).
    exists (u1 ++ u2), v2, g2. rewrite app_assoc; eauto.
  - destruct (run r1 s g k) eqn:E.
    + inversion H; subst. apply IH1 in E.
      destruct E as (u & v & g' & -> & M1 & Hk). exists u, v, g'; auto.
    + apply IH2 in H. destruct H as (u & v & g' & -> & M1 & Hk).
      exists u, v, g'; auto.
  - destruct (run r1 s g k) eqn:E.
    + inversion H; subst. apply IH1 in E.
      destruct E as (u & v & g' & -> & M1 & Hk). exists u, v, g'; auto.
    + exists [], s, g; auto.
  - apply IH1 in H. destruct H as (u & v & g' & -> & M1 & Hk).
    rewrite firstn_length_app in Hk. exists u, v, (Some u); eauto.
Qed.

Lemma run_complete r u g g' :
  Matches r u g g' ->
  forall g0 v (k : str -> option str -> option T),
    (forall g'', k v g'' <> None) -> run r (u ++ v) g0 k <> None.
Proof.
  induction 1 as [g|p c g Hp|p lo hi u g Hu Hlo Hh
                  |r1 r2 u1 u2 g g1 g2 _ IH1 _ IH2
                  |r1 r2 u g g1 _ IH|r1 r2 u g g1 _ IH
                  |r1 u g g1 _ IH|r1 g|r1 u g g1 _ IH];
    intros g0 v k Hk; simpl.
  - apply Hk.
  - rewrite Hp. apply Hk.
  - apply rep_complete; auto.
  - rewrite <- app_assoc. apply IH1. intros g''. apply IH2, Hk.
  - destruct (run r1 (u ++ v) g0 k) eqn:E; [discriminate|].
    exfalso. revert E. apply IH, Hk.
  - destruct (run r1 (u ++ v) g0 k) eqn:E; [discriminate|]. apply IH, Hk.
  - destruct (run r1 (u ++ v) g0 k) eqn:E; [discriminate|].
    exfalso. revert E. apply IH, Hk.
  - destruct (run r1 v g0 k) eqn:E; [discriminate|]. apply Hk.
  - apply IH. intros g''. apply Hk.
Qed.
End MatcherFacts.

Lemma match_here_sound r s pos m :
  match_here r s pos = Some m ->
  exists u v g', s = u ++ v /\ Matches r u None g' /\
                 m = mkMatch pos (pos + length u) g'.
Proof.
  unfold match_here. intros H. apply run_sound in H.
  destruct H as (u & v & g' & -> & HM & Hk).
  exists u, v, g'. repeat split; auto.
  inversion Hk. rewrite length_app, Nat.add_sub. reflexivity.
Qed.

Lemma match_here_complete r u v g g' pos :
  Matches r u g g' -> match_here r (u ++ v) pos <> None.
Proof.
  intros HM. unfold match_here.
  eapply run_complete; [exact HM|]. intros; discriminate.
Qed.

Lemma match_here_none r s pos :
  match_here r s pos = None ->
  forall u v g g', s = u ++ v -> ~ Matches r u g g'.
Proof.
  intros H u v g g' -> HM. revert H. eapply match_here_complete; eauto.
Qed.

Lemma search_from_none r s : forall pos,
  search_from r s pos = None -> forall pre, ~ occurs_at r s pre.
Proof.
  induction s as [|c s IH]; intros pos H pre (u & v & g & g' & E & HM);
    simpl in H; destruct (match_here r _ pos) eqn:Hm; try discriminate.
  - destruct pre; [|discriminate]. simpl in E.
    eapply match_here_none; eauto.
  - destruct pre as [|c' pre]; simpl in E.
    + eapply match_here_none; eauto.
    + inversion E; subst. eapply IH; eauto. exists u, v, g, g'; eauto.
Qed.

Lemma search_from_sound r s : forall pos m,
  search_from r s pos = Some m ->
  exists pre u v g',
    s = pre ++ u ++ v /\ Matches r u None g' /\
    m = mkMatch (pos + length pre) (pos + length pre + length u) g' /\
    (forall pre', occurs_at r s pre' -> length pre <= length pre').
Proof.
  induction s as [|c s IH]; intros pos m H; simpl in H;
    destruct (match_here r _ pos) eqn:Hm; try discriminate.
  - inversion H; subst. apply match_here_sound in Hm.
    destruct Hm as (u & v & g' & E & HM & ->).
    exists [], u, v, g'. simpl. rewrite Nat.add_0_r.
    repeat split; auto. intros; lia.
  - inversion H; subst. apply match_here_sound in Hm.
    destruct Hm as (u & v & g' & E & HM & ->).
    exists [], u, v, g'. simpl. rewrite Nat.add_0_r.
    repeat split; auto. intros; lia.
  - apply IH in H. destruct H as (pre & u & v & g' & -> & HM & -> & Hleft).
    exists (c :: pre), u, v, g'. simpl.
    replace (pos + S (length pre)) with (S pos + length pre) by lia.
    repeat split; auto.
    intros pre' (u' & v' & g1 & g2 & E & HM').
    destruct pre' as [|c' pre']; simpl in E.
    + exfalso. eapply match_here_none; eauto.
    + inversion E; subst. simpl.
      apply le_n_S, Hleft. exists u', v', g1, g2; auto.
Qed.

Lemma search_complete r s pre :
  occurs_at r s pre -> search r s <> None.
Proof.
  intros H E. eapply search_from_none; eauto.
Qed.

(** ** Captures *)

Lemma Matches_no_grp r u g g' :
  Matches r u g g' -> no_grp r = true -> g' = g.
Proof.
  induction 1; simpl; intros E; auto;
    try (apply andb_prop in E; destruct E as [E1 E2]); auto.
  - rewrite IHMatches2, IHMatches1; auto.
  - discriminate.
Qed.

Lemma Matches_inv_rep p lo hi u g g' :
  Matches (Rep p lo hi) u g g' ->
  g' = g /\ forallb p u = true /\ lo <= length u /\
  (forall h, hi = Some h -> length u <= h).
Proof. inversion 1; subst; auto. Qed.

Lemma Matches_inv_cat r1 r2 w g g'' :
  Matches (Cat r1 r2) w g g'' ->
  exists u v g', w = u ++ v /\ Matches r1 u g g' /\ Matches r2 v g' g''.
Proof. inversion 1; subst; eauto 7. Qed.

Lemma Matches_inv_grp r u g g' :
  Matches (Grp r) u g g' -> g' = Some u /\ exists g0, Matches r u g g0.
Proof. inversion 1; subst; eauto. Qed.

Lemma Matches_inv_cls p u g g' :
  Matches (Cls p) u g g' -> g' = g /\ exists c, u = [c] /\ p c = true.
Proof. inversion 1; subst; eauto. Qed.

Lemma captures_digits r u g g' :
  CapturesDigits r -> Matches r u g g' -> exists ds, g' = Some ds /\ digit_run ds.
Proof.
  intros C. revert u g g'.
  induction C as [lo hi Hlo|r1 r2 _ IH|r1 r2 _ IH Hn]; intros u g g' HM.
  - apply Matches_inv_grp in HM. destruct HM as (-> & g0 & HM).
    apply Matches_inv_rep in HM. destruct HM as (_ & Hu & Hl & _).
    exists u. split; auto. split; auto.
    intros ->. simpl in Hl. lia.
  - apply Matches_inv_cat in HM. destruct HM as (u1 & u2 & g1 & -> & _ & H2).
    eapply IH; eauto.
  - apply Matches_inv_cat in HM. destruct HM as (u1 & u2 & g1 & -> & H1 & H2).
    apply (Matches_no_grp _ _ _ _ H2) in Hn. subst. eapply IH; eauto.
Qed.

Lemma search_captures_digits r s m :
  CapturesDigits r -> search r s = Some m ->
  exists ds, m_group1 m = Some ds /\ digit_run ds.
Proof.
  intros C H. apply search_from_sound in H.
  destruct H as (pre & u & v & g' & _ & HM & -> & _). simpl.
  eapply captures_digits; eauto.
Qed.

Lemma COUNT_PATTERN_captures : CapturesDigits COUNT_PATTERN.
Proof. unfold COUNT_PATTERN, plus. repeat constructor. Qed.

Lemma COUNT_ID_PATTERN_captures : CapturesDigits COUNT_ID_PATTERN.
Proof.
  unfold COUNT_ID_PATTERN.
  do 11 apply CD_last. apply CD_then; [|reflexivity].
  unfold plus. constructor. lia.
Qed.

Lemma CAPACITY_PATTERN_captures : CapturesDigits CAPACITY_PATTERN.
Proof. unfold CAPACITY_PATTERN, plus. repeat constructor. Qed.

(** ** [int] on a digit run *)

Lemma decimal_in_spec zs c d :
  decimal_in zs c = Some d ->
  exists z, In z zs /\ (z <= c < z + 10)%N /\ d = (c - z)%N.
Proof.
  induction zs as [|z zs IH]; simpl; [discriminate|].
  destruct ((z <=? c)%N && (c <? z + 10)%N) eqn:E.
  - intros H; inversion H; subst. apply andb_prop in E. destruct E as [E1 E2].
    apply N.leb_le in E1. apply N.ltb_lt in E2.
    exists z. repeat split; auto.
  - intros H. destruct (IH H) as (z' & Hin & Hr).
    exists z'. split; [right; exact Hin | exact Hr].
Qed.

Lemma decimal_zeros_ascii :
  forallb (fun z => (z =? 48) || (128 <=? z))%N decimal_zeros = true.
Proof. reflexivity. Qed.

Lemma decimal_value_lt10 c d : decimal_value c = Some d -> (d < 10)%N.
Proof.
  intros H. apply decimal_in_spec in H. destruct H as (z & _ & Hr & ->). lia.
Qed.

Lemma decimal_value_ascii c d :
  decimal_value c = Some d -> (c < 128)%N ->
  is_ascii_digit c = true /\ c = (48 + d)%N.
Proof.
  intros H Hc. apply decimal_in_spec in H. destruct H as (z & Hin & Hr & ->).
  pose proof decimal_zeros_ascii as F. rewrite forallb_forall in F.
  specialize (F z Hin). apply orb_prop in F. destruct F as [F|F].
  - apply N.eqb_eq in F. subst z. unfold is_ascii_digit. split; [|lia].
    apply andb_true_intro. split; [apply N.leb_le|apply N.leb_le]; lia.
  - apply N.leb_le in F. lia.
Qed.

Lemma space_not_digit_below :
  forallb (fun n => negb (is_space (N.of_nat n) && is_digit (N.of_nat n)))
          (seq 0 (N.to_nat 12289)) = true.
Proof. vm_compute. reflexivity. Qed.

Lemma is_space_bound c : is_space c = true -> (c < 12289)%N.
Proof.
  unfold is_space. intros H.
  repeat match type of H with
         | (_ || _) = true => apply orb_prop in H; destruct H as [H|H]
         | (_ && _) = true => apply andb_prop in H; destruct H as [? H]
         end;
    repeat match goal with
           | H : (_ <=? _)%N = true |- _ => apply N.leb_le in H
           | H : (_ =? _)%N = true |- _ => apply N.eqb_eq in H
           end; lia.
Qed.

Lemma digit_not_space c : is_digit c = true -> is_space c = false.
Proof.
  intros Hd. destruct (is_space c) eqn:Hs; auto.
  pose proof (is_space_bound c Hs) as Hb.
  pose proof space_not_digit_below as F. rewrite forallb_forall in F.
  specialize (F (N.to_nat c)). rewrite N2Nat.id, Hs, Hd in F.
  assert (In (N.to_nat c) (seq 0 (N.to_nat 12289))) by (apply in_seq; lia).
  specialize (F H). discriminate.
Qed.

Lemma to_ascii_decimal_digits ds :
  forallb is_digit ds = true ->
  to_ascii_decimal ds = Some (map ascii_digit_of ds).
Proof.
  induction ds as [|c ds IH]; simpl; auto.
  intros H. apply andb_prop in H. destruct H as [Hc Hds].
  rewrite (IH Hds). unfold ascii_digit_of, digit_value.
  unfold is_digit in Hc. destruct (decimal_value c) as [d|] eqn:Hd;
    [|discriminate].
  destruct (c <? 128)%N eqn:Hlt.
  - apply N.ltb_lt in Hlt.
    destruct (decimal_value_ascii _ _ Hd Hlt) as [_ <-]. reflexivity.
  - rewrite digit_not_space; [reflexivity|].
    unfold is_digit. rewrite Hd. reflexivity.
Qed.

Lemma ascii_digit_of_spec c :
  is_digit c = true ->
  is_ascii_digit (ascii_digit_of c) = true /\
  ascii_digit_value (ascii_digit_of c) = Some (digit_value c) /\
  is_ascii_space (ascii_digit_of c) = false /\
  char_eqb (ascii_digit_of c) 45%N = false /\
  char_eqb (ascii_digit_of c) 43%N = false.
Proof.
  unfold is_digit, ascii_digit_of, digit_value, ascii_digit_value.
  destruct (decimal_value c) as [d|] eqn:Hd; [|discriminate]. intros _.
  apply decimal_value_lt10 in Hd.
  assert (E : is_ascii_digit (48 + d)%N = true).
  { unfold is_ascii_digit. apply andb_true_intro.
    split; apply N.leb_le; lia. }
  rewrite E. repeat split.
  - f_equal. lia.
  - unfold is_ascii_space.
    apply orb_false_intro; [apply andb_false_intro2|];
      [apply N.leb_gt|apply N.eqb_neq]; lia.
  - apply N.eqb_neq; lia.
  - apply N.eqb_neq; lia.
Qed.

Lemma drop_while_head p (s : str) :
  match s with [] => True | c :: _ => p c = false end ->
  drop_while p s = s.
Proof. destruct s as [|c s]; simpl; auto. intros ->. reflexivity. Qed.

Lemma drop_while_all_false p (s : str) :
  (forall c, In c s -> p c = false) -> drop_while p s = s.
Proof.
  intros H. apply drop_while_head. destruct s; auto. apply H. left; auto.
Qed.

Lemma drop_underscores_digits s : forall b,
  forallb is_ascii_digit s = true -> s <> [] \/ b = true ->
  drop_underscores is_ascii_digit s b = Some s.
Proof.
  induction s as [|c s IH]; simpl; intros b H Hb.
  - destruct Hb as [Hb| ->]; [congruence|reflexivity].
  - apply andb_prop in H. destruct H as [Hc Hs]. rewrite Hc.
    rewrite IH; auto.
Qed.

Lemma digits_value_ascii ds : forall acc,
  forallb is_digit ds = true ->
  digits_value 10 ascii_digit_value (map ascii_digit_of ds) acc =
  Some (fold_left (fun a c => (a * 10 + digit_value c)%N) ds acc).
Proof.
  induction ds as [|c ds IH]; simpl; intros acc H; auto.
  apply andb_prop in H. destruct H as [Hc Hds].
  destruct (ascii_digit_of_spec c Hc) as (_ & -> & _). apply IH, Hds.
Qed.

Lemma int_of_digit_run ds :
  digit_run ds ->
  int_of_str ds =
  if (int_max_str_digits <? N.of_nat (length ds))%N then None
  else Some (Z.of_N (number_of ds)).
Proof.
  intros [Hne Hd]. unfold int_of_str.
  rewrite (to_ascii_decimal_digits ds Hd).
  assert (Hall : forall c, In c (map ascii_digit_of ds) ->
                 is_ascii_digit c = true /\ is_ascii_space c = false /\
                 char_eqb c 45%N = false /\ char_eqb c 43%N = false).
  { intros c Hin. apply in_map_iff in Hin. destruct Hin as (x & <- & Hx).
    rewrite forallb_forall in Hd.
    destruct (ascii_digit_of_spec x (Hd x Hx)) as (A & _ & B & C & D); auto. }
  assert (Hstrip : ascii_strip (map ascii_digit_of ds) = map ascii_digit_of ds).
  { unfold ascii_strip.
    rewrite (drop_while_all_false is_ascii_space (map ascii_digit_of ds)).
    - rewrite drop_while_all_false; [apply rev_involutive|].
      intros c Hin. apply in_rev in Hin. apply Hall, Hin.
    - intros c Hin. apply Hall, Hin. }
  rewrite Hstrip.
  destruct ds as [|c ds]; [congruence|]. simpl map.
  destruct (Hall (ascii_digit_of c)) as (_ & _ & -> & ->); [left; reflexivity|].
  change (ascii_digit_of c :: map ascii_digit_of ds)
    with (map ascii_digit_of (c :: ds)).
  rewrite drop_underscores_digits.
  - rewrite digits_value_ascii by exact Hd. rewrite length_map. reflexivity.
  - apply forallb_forall. intros x Hx. apply Hall, Hx.
  - left. discriminate.
Qed.

Lemma int_group_digits m ds :
  m_group1 m = Some ds -> digit_run ds ->
  int_group m = number_within_cap m.
Proof.
  intros Hg Hd. unfold int_group, number_within_cap, over_cap, captured_number.
  rewrite Hg, (int_of_digit_run _ Hd).
  destruct (int_max_str_digits <? N.of_nat (length ds))%N; reflexivity.
Qed.

Lemma int_group_search r s m :
  CapturesDigits r -> search r s = Some m ->
  int_group m = number_within_cap m /\
  exists ds, m_group1 m = Some ds /\ digit_run ds.
Proof.
  intros C H. destruct (search_captures_digits _ _ _ C H) as (ds & Hg & Hd).
  split; [|eauto]. eapply int_group_digits; eauto.
Qed.

(** The extractor, with each [int] of a captured digit run replaced by
    the number the run denotes, or [ValueError] beyond the cap. *)
Lemma parse_guest_count_eq now html :
  _parse_guest_count now html =
  do text <- _extract_visible_text html ;
  match search COUNT_ID_PATTERN html with
  | Some a =>
      do n <- number_within_cap a ;
      do cap <- capacity_in (window_after_cell text n) ;
      Ok (mkGuestCount now n cap)
  | None =>
      match search COUNT_PATTERN text with
      | Some b =>
          do n <- number_within_cap b ;
          do cap <- capacity_in (window_after_phrase text b) ;
          Ok (mkGuestCount now n cap)
      | None => Raise not_found
      end
  end.
Proof.
  assert (Hcap : forall n w,
    match search CAPACITY_PATTERN w with
    | Some capacity_match =>
        do capacity <- int_group capacity_match ;
        Ok (mkGuestCount now n (Some capacity))
    | None => Ok (mkGuestCount now n None)
    end = do cap <- capacity_in w ; Ok (mkGuestCount now n cap)).
  { intros n w. unfold capacity_in.
    destruct (search CAPACITY_PATTERN w) as [m|] eqn:E; auto.
    destruct (int_group_search _ _ _ CAPACITY_PATTERN_captures E) as [-> _].
    destruct (number_within_cap m); reflexivity. }
  unfold _parse_guest_count.
  destruct (_extract_visible_text html) as [text|e]; [|reflexivity].
  cbn [bind].
  destruct (search COUNT_ID_PATTERN html) as [a|] eqn:EA.
  - destruct (int_group_search _ _ _ COUNT_ID_PATTERN_captures EA) as [-> _].
    destruct (number_within_cap a) as [n|e]; [|reflexivity].
    unfold window_after_cell. cbn [bind].
    destruct (find (str_of_int n) text); cbn [bind]; apply Hcap.
  - destruct (search COUNT_PATTERN text) as [b|] eqn:EB; [|reflexivity].
    destruct (int_group_search _ _ _ COUNT_PATTERN_captures EB) as [-> _].
    destruct (number_within_cap b) as [n|e]; [|reflexivity].
    cbn [bind]. apply Hcap.
Qed.

Lemma Matches_charref_group u g g' :
  Matches charref u g g' -> exists t, g' = Some t.
Proof.
  unfold charref. intros H. apply Matches_inv_cat in H.
  destruct H as (a & b & g1 & -> & _ & H).
  apply Matches_inv_grp in H. destruct H as (-> & _). eauto.
Qed.

Lemma replace_charref_raises t e :
  replace_charref (Some t) = Raise e -> e = ValueError.
Proof.
  unfold replace_charref. destruct t as [|c r].
  - destruct (html5_get []); [discriminate|].
    destruct (longest_prefix [] (length (@nil char) - 1)); discriminate.
  - assert (Hname :
      match html5_get (c :: r) with
      | Some v => Ok v
      | None =>
          match longest_prefix (c :: r) (length (c :: r) - 1) with
          | Some v => Ok v
          | None => Ok (38%N :: c :: r)
          end
      end = Raise e -> e = ValueError).
    { destruct (html5_get (c :: r)); [discriminate|].
      destruct (longest_prefix (c :: r) (length (c :: r) - 1)); discriminate. }
    assert (Hnum : forall num : option N,
      match num with
      | None => Raise ValueError
      | Some num =>
          match invalid_charrefs num with
          | Some c => Ok [c]
          | None =>
              if ((55296 <=? num) && (num <=? 57343) || (1114111 <? num))%N
              then Ok [65533%N]
              else if invalid_codepoints num then Ok [] else Ok [num]
          end
      end = Raise e -> e = ValueError).
    { intros [num|]; [|congruence].
      destruct (invalid_charrefs num); [discriminate|].
      destruct ((55296 <=? num) && (num <=? 57343) || (1114111 <? num))%N;
        [discriminate|].
      destruct (invalid_codepoints num); discriminate. }
    destruct (N.eq_dec c 35) as [->|Hc].
    + apply Hnum.
    + intros H. apply Hname. revert H.
      destruct c as [|p]; [exact (fun H => H)|].
      do 6 (destruct p as [p|p|]; try exact (fun H => H)).
      congruence.
Qed.

Lemma sub_fn_charref_raises s : forall skip e,
  sub_fn_aux charref replace_charref s skip = Raise e -> e = ValueError.
Proof.
  assert (Hrepl : forall x m e, match_here charref x 0 = Some m ->
            replace_charref (m_group1 m) = Raise e -> e = ValueError).
  { intros x m e Hm. apply match_here_sound in Hm.
    destruct Hm as (u & v & g' & _ & HM & ->). cbn [m_group1].
    destruct (Matches_charref_group _ _ _ HM) as (t & ->).
    apply replace_charref_raises. }
  induction s as [|c s IH]; intros skip e; cbn [sub_fn_aux].
  - destruct skip; [|discriminate].
    destruct (match_here charref [] 0) as [m|] eqn:E; [|discriminate].
    eapply Hrepl; eauto.
  - destruct skip as [|n]; [|apply IH].
    destruct (match_here charref (c :: s) 0) as [m|] eqn:E.
    + destruct (replace_charref (m_group1 m)) as [out|e'] eqn:R.
      * cbn [bind].
        destruct (m_end m) as [|k];
          [destruct (sub_fn_aux charref replace_charref s 0) eqn:S
          |destruct (sub_fn_aux charref replace_charref s k) eqn:S];
          cbn [bind]; try discriminate;
          intros H; inversion H; subst; eapply IH; eauto.
      * cbn [bind]. intros H. inversion H; subst. eapply Hrepl; eauto.
    + destruct (sub_fn_aux charref replace_charref s 0) eqn:S; cbn [bind];
        [discriminate|].
      intros H. inversion H; subst. eapply IH; eauto.
Qed.

(** The normalizer raises nothing but [ValueError]. *)
Lemma extract_visible_text_raises html e :
  _extract_visible_text html = Raise e -> e = ValueError.
Proof.
  unfold _extract_visible_text, unescape.
  destruct (negb (mem 38%N _)); [discriminate|].
  unfold sub_fn.
  destruct (sub_fn_aux charref replace_charref _ 0) as [t|e'] eqn:E;
    cbn [bind]; [discriminate|].
  intros H. inversion H; subst. eapply sub_fn_charref_raises; eauto.
Qed.

(** [int] on the digit run a match captured. *)
Lemma number_within_cap_group m ds :
  m_group1 m = Some ds ->
  number_within_cap m =
  if (int_max_str_digits <? N.of_nat (length ds))%N
  then Raise ValueError
  else Ok (Z.of_N (number_of ds)).
Proof.
  intros Hg. unfold number_within_cap, over_cap, captured_number.
  rewrite Hg. reflexivity.
Qed.

(** C1. For every page, the extractor searches the raw HTML for the cell
    pattern first.  When the cell pattern matches, the count is the number
    of the digit run it captured; the phrase pattern is searched, in the
    normalized text, only when the cell pattern has no match, and then the
    count is the number of the digit run the phrase pattern captured.  In
    both cases the observation is returned, stamped with the time of the
    call, together with the capacity found in the window of the strategy;
    the only failures are the not-found error when neither pattern matches
    and a [ValueError] when the normalizer fails or when the count or the
    capacity of the window has more digits than [int] accepts.  The page
    "Anzahl Gäste aktuell: 58" gives the count 58; a page with the cell
    gives the count of the cell, also when the phrase pattern matches its
    text with another number. *)
Theorem primary_extractor_strategy_order :
  (forall now html,
     match _extract_visible_text html with
     | Raise e => e = ValueError /\ _parse_guest_count now html = Raise e
     | Ok text =>
         match search COUNT_ID_PATTERN html with
         | Some a =>
             exists ds,
               m_group1 a = Some ds /\ digit_run ds /\
               _parse_guest_count now html =
               if (int_max_str_digits <? N.of_nat (length ds))%N
               then Raise ValueError
               else
                 do cap <- capacity_in
                             (window_after_cell text (Z.of_N (number_of ds))) ;
                 Ok (mkGuestCount now (Z.of_N (number_of ds)) cap)
         | None =>
             match search COUNT_PATTERN text with
             | Some b =>
                 exists ds,
                   m_group1 b = Some ds /\ digit_run ds /\
                   _parse_guest_count now html =
                   if (int_max_str_digits <? N.of_nat (length ds))%N
                   then Raise ValueError
                   else
                     do cap <- capacity_in (window_after_phrase text b) ;
                     Ok (mkGuestCount now (Z.of_N (number_of ds)) cap)
             | None => _parse_guest_count now html = Raise not_found
             end
         end
     end) /\
  (forall window,
     match search CAPACITY_PATTERN window with
     | Some c =>
         exists ds,
           m_group1 c = Some ds /\ digit_run ds /\
           capacity_in window =
           if (int_max_str_digits <? N.of_nat (length ds))%N
           then Raise ValueError
           else Ok (Some (Z.of_N (number_of ds)))
     | None => capacity_in window = Ok None
     end) /\
  (forall now,
     search COUNT_ID_PATTERN (py "Anzahl Gäste aktuell: 58") = None /\
     _parse_guest_count now (py "Anzahl Gäste aktuell: 58") =
     Ok (mkGuestCount now 58 None)) /\
  (forall now,
     _extract_visible_text
       (py "<td id='SSD-4_visitornumber'>68</td> Kapazität 120") =
     Ok (py "68 Kapazität 120") /\
     search COUNT_PATTERN (py "68 Kapazität 120") = None /\
     _parse_guest_count now
       (py "<td id='SSD-4_visitornumber'>68</td> Kapazität 120") =
     Ok (mkGuestCount now 68 (Some 120%Z))) /\
  (forall now,
     _extract_visible_text
       (py "Anzahl Gäste 5 <td id='SSD-4_visitornumber'>68</td>") =
     Ok (py "Anzahl Gäste 5 68") /\
     option_map m_group1 (search COUNT_PATTERN (py "Anzahl Gäste 5 68")) =
     Some (Some (py "5")) /\
     _parse_guest_count now
       (py "Anzahl Gäste 5 <td id='SSD-4_visitornumber'>68</td>") =
     Ok (mkGuestCount now 68 None)).
Proof.
  split; [|split; [|repeat split; vm_compute; reflexivity]].
  - intros now html. rewrite parse_guest_count_eq.
    destruct (_extract_visible_text html) as [text|e] eqn:ET; cbn [bind].
    2:{ apply extract_visible_text_raises in ET. subst. auto. }
    destruct (search COUNT_ID_PATTERN html) as [a|] eqn:EA.
    + destruct (int_group_search _ _ _ COUNT_ID_PATTERN_captures EA)
        as (_ & ds & Hg & Hd).
      exists ds. split; [exact Hg|]. split; [exact Hd|].
      rewrite (number_within_cap_group _ _ Hg).
      destruct (int_max_str_digits <? N.of_nat (length ds))%N; reflexivity.
    + destruct (search COUNT_PATTERN text) as [b|] eqn:EB; [|reflexivity].
      destruct (int_group_search _ _ _ COUNT_PATTERN_captures EB)
        as (_ & ds & Hg & Hd).
      exists ds. split; [exact Hg|]. split; [exact Hd|].
      rewrite (number_within_cap_group _ _ Hg).
      destruct (int_max_str_digits <? N.of_nat (length ds))%N; reflexivity.
  - intros window. unfold capacity_in.
    destruct (search CAPACITY_PATTERN window) as [c|] eqn:EC; [|reflexivity].
    destruct (int_group_search _ _ _ CAPACITY_PATTERN_captures EC)
      as (_ & ds & Hg & Hd).
    exists ds. split; [exact Hg|]. split; [exact Hd|].
    rewrite (number_within_cap_group _ _ Hg).
    destruct (int_max_str_digits <? N.of_nat (length ds))%N; reflexivity.
Qed.

(** When the normalizer returns a text, the extractor fails with the
    not-found error exactly when neither pattern matches. *)
Theorem primary_extractor_not_found now html text :
  _extract_visible_text html = Ok text ->
  (_parse_guest_count now html = Raise not_found <->
   search COUNT_ID_PATTERN html = None /\
   search COUNT_PATTERN text = None).
Proof.
  intros ET. rewrite parse_guest_count_eq, ET. cbn [bind].
  assert (Hrest : forall n w,
    (do cap <- capacity_in w ; Ok (mkGuestCount now n cap)) <>
    Raise not_found).
  { intros n w. unfold capacity_in.
    destruct (search CAPACITY_PATTERN w) as [m|]; cbn [bind]; [|discriminate].
    unfold number_within_cap. destruct (over_cap m); cbn [bind]; discriminate. }
  destruct (search COUNT_ID_PATTERN html) as [a|].
  - split; [|intros [? _]; discriminate].
    unfold number_within_cap. destruct (over_cap a); cbn [bind];
      [discriminate|]. intros H. exfalso. eapply Hrest; eauto.
  - destruct (search COUNT_PATTERN text) as [b|].
    + split; [|intros [_ ?]; discriminate].
      unfold number_within_cap. destruct (over_cap b); cbn [bind];
        [discriminate|]. intros H. exfalso. eapply Hrest; eauto.
    + split; auto.
Qed.

Lemma primary_extractor_not_found_witness :
  _parse_guest_count 0%Z (py "Keine Angaben verfügbar") = Raise not_found <->
  search COUNT_ID_PATTERN (py "Keine Angaben verfügbar") = None /\
  search COUNT_PATTERN (py "Keine Angaben verfügbar") = None.
Proof.
  apply (primary_extractor_not_found 0%Z (py "Keine Angaben verfügbar")
           (py "Keine Angaben verfügbar")).
  vm_compute. reflexivity.
Defined.

(** C7, the failing page.  On a page that is one decimal character
    reference of 4301 digits, neither pattern has anything to match, and
    the extractor raises [ValueError] from the normalizer instead of the
    not-found error. *)
Theorem primary_extractor_raises_value_error :
  search COUNT_ID_PATTERN page_long_reference = None /\
  _extract_visible_text page_long_reference = Raise ValueError /\
  forall now, _parse_guest_count now page_long_reference = Raise ValueError.
Proof.
  assert (E : _extract_visible_text page_long_reference = Raise ValueError)
    by (vm_compute; reflexivity).
  split; [vm_compute; reflexivity|]. split; [exact E|].
  intros now. unfold _parse_guest_count. rewrite E. reflexivity.
Qed.

Lemma starts_with_spec p : forall s,
  starts_with p s = true <-> exists rest, s = p ++ rest.
Proof.
  induction p as [|a p IH]; intros s; simpl.
  - split; eauto.
  - destruct s as [|b s].
    + split; [discriminate|]. intros (rest & E). discriminate.
    + rewrite andb_true_iff, IH. unfold char_eqb. rewrite N.eqb_eq. split.
      * intros (-> & rest & ->). eauto.
      * intros (rest & E). inversion E; subst. eauto.
Qed.

Lemma find_from_spec p s : forall pos i,
  find_from p s pos = Some i ->
  exists pre rest, s = pre ++ p ++ rest /\ i = pos + length pre /\
    forall pre' rest', s = pre' ++ p ++ rest' -> length pre <= length pre'.
Proof.
  induction s as [|c s IH]; intros pos i; simpl;
    destruct (starts_with p _) eqn:E.
  - intros H; inversion H; subst. apply starts_with_spec in E.
    destruct E as (rest & E). exists [], rest. simpl.
    repeat split; auto; intros; lia.
  - discriminate.
  - intros H; inversion H; subst. apply starts_with_spec in E.
    destruct E as (rest & E). exists [], rest. simpl.
    repeat split; auto; intros; lia.
  - intros H. apply IH in H. destruct H as (pre & rest & -> & -> & Hmin).
    exists (c :: pre), rest. simpl. repeat split; auto; try lia.
    intros pre' rest' E'. destruct pre' as [|c' pre']; simpl in E'.
    + assert (starts_with p (c :: pre ++ p ++ rest) = true)
        by (apply starts_with_spec; eauto).
      congruence.
    + inversion E'; subst. simpl. apply le_n_S. eapply Hmin; eauto.
Qed.

Lemma find_from_none p s : forall pos,
  find_from p s pos = None -> forall pre rest, s <> pre ++ p ++ rest.
Proof.
  induction s as [|c s IH]; intros pos; simpl;
    destruct (starts_with p _) eqn:E; try discriminate;
    intros H pre rest E'.
  - destruct pre; simpl in E'.
    + assert (starts_with p [] = true) by (apply starts_with_spec; eauto).
      congruence.
    + discriminate.
  - destruct pre as [|c' pre]; simpl in E'.
    + assert (starts_with p (c :: s) = true) by (apply starts_with_spec; eauto).
      congruence.
    + inversion E'; subst. eapply IH; eauto.
Qed.

Lemma app_same_length (a b c d : str) :
  a ++ b = c ++ d -> length a = length c -> a = c /\ b = d.
Proof.
  revert c. induction a as [|x a IH]; intros [|y c] E L; simpl in *;
    try discriminate; auto.
  inversion E; subst. destruct (IH c) as [-> ->]; auto.
Qed.

Lemma slice_window (s : str) (i n : nat) :
  i <= length s ->
  exists pre post,
    s = pre ++ slice s i (i + n) ++ post /\ length pre = i /\
    length (slice s i (i + n)) <= n /\
    (post = [] \/ length (slice s i (i + n)) = n).
Proof.
  intros Hi. unfold slice. replace (i + n - i) with n by lia.
  exists (firstn i s), (skipn n (skipn i s)).
  rewrite (firstn_skipn n (skipn i s)), (firstn_skipn i s).
  repeat split.
  - apply firstn_length_le, Hi.
  - rewrite length_firstn. lia.
  - rewrite length_firstn.
    destruct (Nat.le_gt_cases n (length (skipn i s))) as [H|H].
    + right. lia.
    + left. apply skipn_all2. lia.
Qed.

Lemma search_end_bound r s m :
  search r s = Some m -> m_end m <= length s.
Proof.
  intros H. apply search_from_sound in H.
  destruct H as (pre & u & v & g' & -> & _ & -> & _). simpl.
  rewrite !length_app. lia.
Qed.

(** A capture is a piece of the matched text. *)
Lemma Matches_group_length r u g g' :
  Matches r u g g' ->
  g' = g \/ exists ds, g' = Some ds /\ length ds <= length u.
Proof.
  induction 1 as [g|p c g Hp|p lo hi u g Hu Hlo Hh
                  |r1 r2 u1 u2 g g1 g2 _ IH1 _ IH2
                  |r1 r2 u g g1 _ IH|r1 r2 u g g1 _ IH
                  |r1 u g g1 _ IH|r1 g|r1 u g g1 _ IH]; auto.
  - rewrite length_app.
    destruct IH2 as [->|(ds & -> & Hl)].
    + destruct IH1 as [->|(ds & -> & Hl)]; auto.
      right. exists ds. split; auto. lia.
    + right. exists ds. split; auto. lia.
  - right. exists u. auto.
Qed.

Lemma search_group_length r s m :
  search r s = Some m ->
  match m_group1 m with
  | Some ds => length ds <= length s
  | None => True
  end.
Proof.
  intros H. apply search_from_sound in H.
  destruct H as (pre & u & v & g' & -> & HM & -> & _). cbn [m_group1].
  apply Matches_group_length in HM.
  destruct HM as [->|(ds & -> & Hl)]; auto.
  rewrite !length_app. lia.
Qed.

(** C2, refuted as stated.  On the first page the cell holds a non-ASCII
    digit, the count 3 is not found in the text under that spelling, and
    the capacity 9 is read 150 characters after the count, outside the next
    hundred.  On the second page the window starts at the first "5" of the
    text and not at the cell, so the capacity is 9 although the hundred
    characters after the cell give 250. *)
Lemma capacity_window_counterexample :
  (_extract_visible_text page_far_capacity =
     Ok (py "٣ " ++ repeat (char_of "x") 150 ++ py " von 9") /\
   capacity_in
     (window_following (py "٣ " ++ repeat (char_of "x") 150 ++ py " von 9") 1)
     = Ok None /\
   _parse_guest_count 0%Z page_far_capacity =
     Ok (mkGuestCount 0%Z 3 (Some 9%Z)))
  /\
  (_extract_visible_text page_two_counts =
     Ok (py "5 von 9 " ++ repeat (char_of "x") 120 ++ py " 5 von 250") /\
   capacity_in
     (window_following
        (py "5 von 9 " ++ repeat (char_of "x") 120 ++ py " 5 von 250") 130)
     = Ok (Some 250%Z) /\
   _parse_guest_count 0%Z page_two_counts =
     Ok (mkGuestCount 0%Z 5 (Some 9%Z))).
Proof. repeat split; vm_compute; reflexivity. Qed.

(** C2, amended.  After the phrase pattern, the capacity is searched in
    the at most hundred characters of the text that follow the match.
    After the cell pattern it is searched in the at most hundred characters
    that start at the first occurrence of the decimal spelling of the
    count, that occurrence included, or in the whole text when the spelling
    does not occur.  The search finds nothing exactly when the capacity
    pattern occurs nowhere in the window, and then the capacity is unset;
    in a window of a hundred characters it raises nothing.  "Anzahl Gäste
    73 von 250" gives 73 and 250. *)
Theorem capacity_search_window :
  (forall now html,
     match _extract_visible_text html with
     | Raise e => _parse_guest_count now html = Raise e
     | Ok text =>
         match search COUNT_ID_PATTERN html with
         | Some a =>
             match number_within_cap a with
             | Raise e => _parse_guest_count now html = Raise e
             | Ok n =>
                 let window := window_after_cell text n in
                 _parse_guest_count now html =
                   (do cap <- capacity_in window ;
                    Ok (mkGuestCount now n cap)) /\
                 match find (str_of_int n) text with
                 | Some i =>
                     exists pre post,
                       text = pre ++ window ++ post /\ length pre = i /\
                       length window <= 100 /\
                       (post = [] \/ length window = 100) /\
                       (exists rest, window ++ post = str_of_int n ++ rest) /\
                       (forall pre' rest',
                          text = pre' ++ str_of_int n ++ rest' ->
                          i <= length pre')
                 | None =>
                     window = text /\
                     forall pre rest, text <> pre ++ str_of_int n ++ rest
                 end
             end
         | None =>
             match search COUNT_PATTERN text with
             | Some b =>
                 match number_within_cap b with
                 | Raise e => _parse_guest_count now html = Raise e
                 | Ok n =>
                     let window := window_after_phrase text b in
                     _parse_guest_count now html =
                       (do cap <- capacity_in window ;
                        Ok (mkGuestCount now n cap)) /\
                     exists pre post,
                       text = pre ++ window ++ post /\
                       length pre = m_end b /\
                       length window <= 100 /\
                       (post = [] \/ length window = 100)
                 end
             | None => _parse_guest_count now html = Raise not_found
             end
         end
     end) /\
  (forall window,
     capacity_in window = Ok None <->
     forall pre, ~ occurs_at CAPACITY_PATTERN window pre) /\
  (forall window,
     length window <= 100 -> exists cap, capacity_in window = Ok cap) /\
  (forall now,
     _parse_guest_count now (py "Anzahl Gäste 73 von 250") =
     Ok (mkGuestCount now 73 (Some 250%Z))).
Proof.
  split; [|split; [|split]].
  - intros now html. rewrite parse_guest_count_eq.
    destruct (_extract_visible_text html) as [text|e]; [|reflexivity].
    cbn [bind].
    destruct (search COUNT_ID_PATTERN html) as [a|] eqn:EA.
    + destruct (number_within_cap a) as [n|e]; [|reflexivity].
      cbn [bind]. cbv zeta. split; [reflexivity|]. unfold window_after_cell.
      destruct (find (str_of_int n) text) as [i|] eqn:EF.
      * apply find_from_spec in EF.
        destruct EF as (pre0 & rest0 & E & Hi & Hmin). simpl in Hi.
        assert (Hle : i <= length text).
        { rewrite E, length_app. lia. }
        destruct (slice_window text i 100 Hle) as (pre & post & E' & Hp & Hl & Hr).
        exists pre, post. repeat split; auto.
        -- exists rest0. rewrite E in E' at 1.
           apply app_same_length in E'; [|lia].
           destruct E' as [_ E']. congruence.
        -- intros pre' rest' E2. subst i. eapply Hmin; eauto.
      * split; [reflexivity|]. eapply find_from_none; eauto.
    + destruct (search COUNT_PATTERN text) as [b|] eqn:EB; [|reflexivity].
      destruct (number_within_cap b) as [n|e]; [|reflexivity].
      cbn [bind]. cbv zeta. split; [reflexivity|].
      apply slice_window. eapply search_end_bound; eauto.
  - intros window. unfold capacity_in.
    destruct (search CAPACITY_PATTERN window) as [m|] eqn:E.
    + split.
      * destruct (number_within_cap m); discriminate.
      * intros H. exfalso. apply search_from_sound in E.
        destruct E as (pre & u & v & g' & E & HM & _).
        apply (H pre). exists u, v, None, g'. auto.
    + split; auto. intros _. eapply search_from_none; eauto.
  - intros window Hlen. unfold capacity_in.
    destruct (search CAPACITY_PATTERN window) as [m|] eqn:E; [|eauto].
    apply search_group_length in E.
    unfold number_within_cap, over_cap.
    destruct (m_group1 m) as [ds|]; cbn [bind]; [|eauto].
    assert (Hc : (int_max_str_digits <? N.of_nat (length ds))%N = false).
    { apply N.ltb_ge. unfold int_max_str_digits. lia. }
    rewrite Hc. cbn [bind]. eauto.
  - intros now. vm_compute. reflexivity.
Qed.

Lemma capacity_search_witness :
  exists cap, capacity_in (py " von 250") = Ok cap.
Proof.
  destruct capacity_search_window as (_ & _ & H & _).
  apply (H (py " von 250")). vm_compute. repeat constructor.
Defined.

Lemma Matches_lits eq s : forall u g g',
  Matches (lits eq s) u g g' <->
  g' = g /\ Forall2 (fun c x => eq c x = true) s u.
Proof.
  induction s as [|c s IH]; intros u g g'.
  - simpl. split.
    + inversion 1; subst. auto.
    + intros (-> & H). inversion H; subst. constructor.
  - destruct s as [|c' s].
    + simpl. split.
      * intros H. apply Matches_inv_cls in H.
        destruct H as (-> & x & -> & Hx). auto.
      * intros (-> & H). inversion H as [|? x ? l' Hx Ht]; subst.
        inversion Ht; subst. constructor; auto.
    + change (lits eq (c :: c' :: s))
        with (Cat (Cls (eq c)) (lits eq (c' :: s))). split.
      * intros H. apply Matches_inv_cat in H.
        destruct H as (u1 & u2 & g1 & -> & H1 & H2).
        apply Matches_inv_cls in H1. destruct H1 as (-> & x & -> & Hx).
        apply IH in H2. destruct H2 as (-> & H2).
        split; auto. simpl. constructor; auto.
      * intros (-> & H). inversion H as [|? x ? l' Hx Ht]; subst.
        change (x :: l') with ([x] ++ l').
        econstructor; [constructor; exact Hx|]. apply IH. auto.
Qed.

Lemma Forall2_char_eqb (s u : str) :
  Forall2 (fun c x => char_eqb c x = true) s u <-> u = s.
Proof.
  split.
  - induction 1 as [|c x s u Hx _ IH]; auto.
    apply N.eqb_eq in Hx. subst. reflexivity.
  - intros ->. induction s; constructor; auto. apply N.eqb_refl.
Qed.

Lemma Matches_lit s u g g' :
  Matches (lit s) u g g' <-> u = py s /\ g' = g.
Proof.
  unfold lit. rewrite Matches_lits, Forall2_char_eqb. tauto.
Qed.

Lemma Matches_uid u g g' :
  Matches UID_IN_MARKUP_PATTERN u g g' <->
  exists uid, uid_token uid /\ u = uid ++ py "_visitornumber" /\ g' = Some uid.
Proof.
  unfold UID_IN_MARKUP_PATTERN, plus. split.
  - intros H. apply Matches_inv_cat in H.
    destruct H as (u1 & u2 & g1 & -> & H1 & H2).
    apply Matches_lit in H2. destruct H2 as (-> & ->).
    apply Matches_inv_grp in H1. destruct H1 as (-> & g0 & H1).
    apply Matches_inv_cat in H1.
    destruct H1 as (a & ds & g1 & -> & Ha & Hd).
    apply Matches_lit in Ha. destruct Ha as (-> & ->).
    apply Matches_inv_rep in Hd. destruct Hd as (_ & Hd & Hl & _).
    exists (py "SSD-" ++ ds). repeat split; auto.
    exists ds. repeat split; auto. intros ->. simpl in Hl. lia.
  - intros (uid & (ds & (Hne & Hd) & ->) & -> & ->).
    econstructor.
    + apply M_grp with (g' := g). econstructor.
      * apply Matches_lit. split; reflexivity.
      * constructor; auto.
        -- destruct ds; [congruence | simpl; lia].
        -- discriminate.
    + apply Matches_lit. split; reflexivity.
Qed.

(** C6. Identifier recovery, run on the raw page, returns the leftmost
    token [SSD-<digits>] that is directly followed by [_visitornumber], and
    returns nothing exactly when the page has no such token. *)
Theorem identifier_recovery_first_token html :
  match _extract_uid_from_html html with
  | Some uid =>
      uid_token uid /\
      exists pre post,
        html = pre ++ uid ++ py "_visitornumber" ++ post /\
        forall pre' uid' post',
          uid_token uid' ->
          html = pre' ++ uid' ++ py "_visitornumber" ++ post' ->
          length pre <= length pre'
  | None =>
      forall pre uid post,
        uid_token uid -> html <> pre ++ uid ++ py "_visitornumber" ++ post
  end.
Proof.
  assert (Hocc : forall pre uid post,
            uid_token uid ->
            html = pre ++ uid ++ py "_visitornumber" ++ post ->
            occurs_at UID_IN_MARKUP_PATTERN html pre).
  { intros pre uid post Hu E.
    exists (uid ++ py "_visitornumber"), post, None, (Some uid).
    split; [rewrite <- app_assoc; exact E|].
    apply Matches_uid. eauto. }
  unfold _extract_uid_from_html.
  destruct (search UID_IN_MARKUP_PATTERN html) as [m|] eqn:E.
  - apply search_from_sound in E.
    destruct E as (pre & u & v & g' & E & HM & -> & Hleft).
    cbn [m_group1].
    apply Matches_uid in HM. destruct HM as (uid & Hu & -> & ->).
    split; auto. exists pre, v. split.
    + rewrite <- app_assoc in E. exact E.
    + intros pre' uid' post' Hu' E'. eapply Hleft, Hocc; eauto.
  - intros pre uid post Hu E'.
    eapply search_from_none; eauto.
Qed.

(** ** The live feed: one frame *)

(** C4, refuted as stated.  The first record of the frame has the right
    identifier and a count that is no number, the second has the right
    identifier and a good count: the scan stops at the first and the frame
    gives nothing, where a scan that went on would give (5, 10). *)
Lemma scan_stops_at_bad_count :
  let frame := [feed_record "SSD-4" "n/a" "10"; feed_record "SSD-4" "5" "10"] in
  scan_records (py "SSD-4") frame = None /\
  scan_records_continuing (py "SSD-4") frame = Some (5%Z, Some 10%Z).
Proof. split; vm_compute; reflexivity. Qed.

Lemma scan_records_find uid payload :
  scan_records uid payload =
  match List.find (has_uid uid) payload with
  | Some item => record_result item
  | None => None
  end.
Proof.
  induction payload as [|item rest IH]; simpl; auto.
  destruct item as [| | | | |items|members]; simpl; auto.
  destruct (dict_get (py "uid") members); simpl; auto.
  destruct (str_eqb s uid); auto.
Qed.

(** C4, amended.  In a frame that is an array, the first record whose
    [uid] is the requested identifier decides: its [currentfill] and
    [maxspace] go through float-then-int, numbers written as strings
    included; when [currentfill] does not convert the frame gives no result
    and no later record is looked at; when [maxspace] is null or does not
    convert the capacity is unset. *)
Theorem scan_records_first_match :
  (forall uid payload,
     scan_records uid payload =
     match List.find (has_uid uid) payload with
     | Some item => record_result item
     | None => None
     end) /\
  (forall members count_val,
     int_float (dict_get (py "currentfill") members) = Some count_val ->
     (dict_get (py "maxspace") members = JNull \/
      int_float (dict_get (py "maxspace") members) = None) ->
     record_result (JObj members) = Some (count_val, None)) /\
  int_float (JStr (py "42")) = Some 42%Z /\
  int_float (JStr (py "41.9")) = Some 41%Z /\
  int_float (JInt 42) = Some 42%Z /\
  int_float (JStr (py "n/a")) = None /\
  int_float JNull = None.
Proof.
  split; [|split].
  - apply scan_records_find.
  - intros members count_val Hc Hm. unfold record_result. rewrite Hc.
    destruct Hm as [-> | Hm]; auto.
    rewrite Hm. destruct (dict_get (py "maxspace") members); auto.
  - repeat split; vm_compute; reflexivity.
Qed.

Lemma scan_records_witness :
  record_result (feed_record "SSD-4" "68" "n/a") = Some (68%Z, None).
Proof.
  apply (proj1 (proj2 scan_records_first_match)
           [(py "uid", JStr (py "SSD-4")); (py "currentfill", JStr (py "68"));
            (py "maxspace", JStr (py "n/a"))]).
  - vm_compute. reflexivity.
  - right. vm_compute. reflexivity.
Defined.

(** ** The live feed: a session *)

Lemma repeat_app_cons {A : Type} (x : A) k (l : list A) :
  repeat x k ++ x :: l = x :: repeat x k ++ l.
Proof. induction k; simpl; congruence. Qed.

Lemma recv_more_run uid n : forall w,
  let '(k, t, later) := receives uid n (pending w) in
  session_result (fst (recv_more uid n w)) = first_match uid n (pending w) /\
  snd (recv_more uid n w) =
    mkWorld later (waited_ms w + t) (repeat (WsRecv 10000) k ++ trace w).
Proof.
  induction n as [|n IH]; intros w.
  - simpl. destruct w; simpl. rewrite N.add_0_r. auto.
  - destruct w as [feed t0 tr]. simpl.
    unfold mbind, _recv_once, mbind, recv. simpl.
    destruct feed as [|[d f|] rest]; simpl; auto.
    + destruct (d <? 10000)%N eqn:Hd; simpl; [|destruct f; auto].
      destruct f as [payload|]; simpl; auto.
      assert (Hnone :
        let '(k, t, later) := receives uid n rest in
        session_result
          (fst (recv_more uid n (mkWorld rest (t0 + d) (WsRecv 10000 :: tr)))) =
        first_match uid n rest /\
        snd (recv_more uid n (mkWorld rest (t0 + d) (WsRecv 10000 :: tr))) =
        mkWorld later (t0 + (d + t))
                (WsRecv 10000 :: repeat (WsRecv 10000) k ++ tr)).
      { specialize (IH (mkWorld rest (t0 + d)%N (WsRecv 10000 :: tr))).
        simpl in IH. destruct (receives uid n rest) as [[k t] later].
        destruct IH as [IH1 IH2]. split; auto.
        rewrite IH2, N.add_assoc. f_equal. apply repeat_app_cons. }
      assert (Hskip :
        let '(k, t, later) :=
          let '(k, t, later) := receives uid n rest in
          (S k, (d + t)%N, later) in
        session_result
          (fst (recv_more uid n (mkWorld rest (t0 + d) (WsRecv 10000 :: tr)))) =
        first_match uid n rest /\
        snd (recv_more uid n (mkWorld rest (t0 + d) (WsRecv 10000 :: tr))) =
        mkWorld later (t0 + t) (repeat (WsRecv 10000) k ++ tr)).
      { revert Hnone. destruct (receives uid n rest) as [[k t] later].
        simpl. auto. }
      destruct payload as [| | | | |items|members]; simpl; try exact Hskip.
      destruct (scan_records uid items) as [r|]; simpl; auto.
    + rewrite N.add_0_r. auto.
Qed.

Lemma receives_bounds uid n : forall feed,
  let '(k, t, _) := receives uid n feed in
  k <= n /\ (0 < n -> 0 < k) /\ (t <= 10000 * N.of_nat k)%N.
Proof.
  induction n as [|n IH]; intros feed.
  - simpl. repeat split; lia.
  - cbn [receives].
    destruct feed as [|[d f|] rest]; cbv beta iota zeta;
      try (repeat split; lia).
    destruct (d <? 10000)%N eqn:Hd; cbv beta iota zeta;
      [|repeat split; lia].
    apply N.ltb_lt in Hd.
    destruct f as [payload|]; cbv beta iota zeta; [|repeat split; lia].
    destruct (frame_result uid payload); cbv beta iota zeta;
      [repeat split; lia|].
    specialize (IH rest). destruct (receives uid n rest) as [[k t] later].
    destruct IH as (A & B & C). repeat split; lia.
Qed.

(** The session of the source, once connected, is a session of budget 3. *)
Lemma fetch_via_websocket_run e uid w :
  websockets_installed e = true -> ws_connect_ok e = true ->
  ws_send_ok e = true ->
  let '(k, t, later) := receives uid 3 (pending w) in
  fst (_fetch_count_via_websocket e uid w) = first_match uid 3 (pending w) /\
  snd (_fetch_count_via_websocket e uid w) =
    mkWorld later (waited_ms w + t)
      (WsClose :: repeat (WsRecv 10000) k ++
       [WsSend (py "all");
        WsConnect (ws_url e) (headers_keyword (connect_parameters e))] ++
       trace w).
Proof.
  intros Hi Hc Hs.
  pose (w1 := mkWorld (pending w) (waited_ms w)
                (WsSend (py "all") ::
                 WsConnect (ws_url e) (headers_keyword (connect_parameters e))
                 :: trace w)).
  pose proof (recv_more_run uid 3 w1) as H.
  change (pending w1) with (pending w) in H.
  destruct (receives uid 3 (pending w)) as [[k t] later].
  destruct H as [H1 H2].
  unfold _fetch_count_via_websocket. rewrite Hi. cbn [negb].
  change (let* result := _recv_once uid in
          match result with
          | Some r => ret (Some r)
          | None => recv_more uid 2
          end) with (recv_more uid 3).
  unfold try_except, try_finally, connect, send, emit, mbind, ret, raise.
  rewrite Hc, Hs. cbn [pending waited_ms trace]. fold w1.
  destruct (recv_more uid 3 w1) as [r w2] eqn:E.
  cbn [fst snd] in H1, H2. subst w2. rewrite <- H1.
  destruct r as [[x|]|ex]; simpl; split; reflexivity.
Qed.

Lemma first_match_cases uid n : forall feed,
  match first_match uid n feed with
  | Ok r =>
      exists k d payload,
        k < n /\ Forall (quiet uid) (firstn k feed) /\
        nth_error feed k = Some (Arrives d (Json payload)) /\
        (d < 10000)%N /\ frame_result uid payload = Some r
  | Raise x =>
      (x = feed_exhausted /\ length (firstn n feed) = n /\
       Forall (quiet uid) (firstn n feed)) \/
      (x = feed_failed /\
       exists k, k < n /\ length (firstn k feed) = k /\
                 Forall (quiet uid) (firstn k feed) /\
                 breaking (nth_error feed k))
  end.
Proof.
  induction n as [|n IH]; intros feed.
  - simpl. left. auto.
  - assert (Hbreak : breaking (nth_error feed 0) ->
      (Raise (A := Z * option Z) feed_failed = Raise feed_failed) ->
      (feed_failed = feed_exhausted /\ length (firstn (S n) feed) = S n /\
       Forall (quiet uid) (firstn (S n) feed)) \/
      (feed_failed = feed_failed /\
       exists k, k < S n /\ length (firstn k feed) = k /\
                 Forall (quiet uid) (firstn k feed) /\
                 breaking (nth_error feed k))).
    { intros Hb _. right. split; auto. exists 0. simpl.
      repeat split; auto. lia. }
    cbn [first_match].
    destruct feed as [|[d [payload|]|] rest]; try (apply Hbreak; simpl; auto).
    destruct (d <? 10000)%N eqn:Hd.
    2:{ apply Hbreak; simpl; auto. apply N.ltb_ge in Hd. auto. }
    apply N.ltb_lt in Hd.
    destruct (frame_result uid payload) as [r|] eqn:Hr.
    + exists 0, d, payload. simpl. repeat split; auto. lia.
    + assert (Hq : quiet uid (Arrives d (Json payload))).
      { exists d, payload. auto. }
      specialize (IH rest). destruct (first_match uid n rest) as [r|x].
      * destruct IH as (k & d' & p' & Hk & Hall & Hnth & Hd' & Hr').
        exists (S k), d', p'. simpl. repeat split; auto. lia.
      * destruct IH as [(-> & Hlen & Hall)|(-> & k & Hk & Hlen & Hall & Hb)].
        -- left. simpl. repeat split; auto.
        -- right. split; auto. exists (S k). simpl.
           repeat split; auto. lia.
Qed.

(** C5. Once connected, the client sends the one frame "all", makes
    between one and three receives, each with a time-out of ten seconds, and
    closes the connection; its result is that of the first frame, among the
    first three, that has one, in particular of the second frame when the
    first has none, and it fails with the exhaustion error after three frames
    without a result. *)
Theorem feed_session_three_frames e uid w :
  websockets_installed e = true -> ws_connect_ok e = true ->
  ws_send_ok e = true ->
  (exists k t later,
     1 <= k <= 3 /\ (t <= 10000 * N.of_nat k)%N /\
     snd (_fetch_count_via_websocket e uid w) =
       mkWorld later (waited_ms w + t)
         (WsClose :: repeat (WsRecv 10000) k ++
          [WsSend (py "all");
           WsConnect (ws_url e) (headers_keyword (connect_parameters e))] ++
          trace w)) /\
  fst (_fetch_count_via_websocket e uid w) = first_match uid 3 (pending w) /\
  (forall d1 p1 d2 p2 rest r,
     pending w = Arrives d1 (Json p1) :: Arrives d2 (Json p2) :: rest ->
     (d1 < 10000)%N -> (d2 < 10000)%N ->
     frame_result uid p1 = None -> frame_result uid p2 = Some r ->
     fst (_fetch_count_via_websocket e uid w) = Ok r) /\
  (forall d1 p1 d2 p2 d3 p3 rest,
     pending w =
       Arrives d1 (Json p1) :: Arrives d2 (Json p2) :: Arrives d3 (Json p3)
       :: rest ->
     (d1 < 10000)%N -> (d2 < 10000)%N -> (d3 < 10000)%N ->
     frame_result uid p1 = None -> frame_result uid p2 = None ->
     frame_result uid p3 = None ->
     fst (_fetch_count_via_websocket e uid w) = Raise feed_exhausted).
Proof.
  intros Hi Hc Hs.
  pose proof (fetch_via_websocket_run e uid w Hi Hc Hs) as H.
  pose proof (receives_bounds uid 3 (pending w)) as B.
  destruct (receives uid 3 (pending w)) as [[k t] later].
  destruct H as [H1 H2]. destruct B as (B1 & B2 & B3).
  split; [|split; [|split]].
  - exists k, t, later. repeat split; auto; lia.
  - exact H1.
  - intros d1 p1 d2 p2 rest r E Hd1 Hd2 Hp1 Hp2. rewrite H1, E.
    apply N.ltb_lt in Hd1, Hd2. cbn [first_match].
    rewrite Hd1, Hp1, Hd2, Hp2. reflexivity.
  - intros d1 p1 d2 p2 d3 p3 rest E Hd1 Hd2 Hd3 Hp1 Hp2 Hp3. rewrite H1, E.
    apply N.ltb_lt in Hd1, Hd2, Hd3. cbn [first_match].
    rewrite Hd1, Hp1, Hd2, Hp2, Hd3, Hp3. reflexivity.
Qed.

Lemma feed_session_second_of_three :
  fst (_fetch_count_via_websocket env_ok (py "SSD-4") world_second_frame) =
  Ok (68%Z, Some 120%Z).
Proof.
  destruct (feed_session_three_frames env_ok (py "SSD-4") world_second_frame
              eq_refl eq_refl eq_refl) as (_ & _ & H & _).
  apply (H 20%N frame_other 35%N frame_target
           [Arrives 50 (Json frame_other)]); reflexivity.
Defined.

(** C10. A frame that parses but is no array, or is an array without a
    record for the identifier, gives nothing and uses up one receive: the
    session goes on with the rest of the feed and one receive less.  A
    session that fails before its third frame was dealt with has met
    silence until the time-out, a dropped connection, a late frame or a
    frame that is no JSON, or could not connect or send; any other failure
    is the exhaustion of three frames without a result. *)
Theorem feed_skips_frames_without_match e uid w :
  websockets_installed e = true ->
  (forall payload,
     match payload with
     | JArr items => List.find (has_uid uid) items = None
     | _ => True
     end -> frame_result uid payload = None) /\
  (forall n d payload rest t tr,
     (d < 10000)%N -> frame_result uid payload = None ->
     recv_more uid (S n) (mkWorld (Arrives d (Json payload) :: rest) t tr) =
     recv_more uid n (mkWorld rest (t + d) (WsRecv 10000 :: tr))) /\
  (forall d payload rest,
     ws_connect_ok e = true -> ws_send_ok e = true ->
     pending w = Arrives d (Json payload) :: rest ->
     (d < 10000)%N -> frame_result uid payload = None ->
     fst (_fetch_count_via_websocket e uid w) = first_match uid 2 rest) /\
  (forall x,
     fst (_fetch_count_via_websocket e uid w) = Raise x ->
     (x = feed_exhausted /\ length (firstn 3 (pending w)) = 3 /\
      Forall (quiet uid) (firstn 3 (pending w))) \/
     (x = feed_failed /\
      (ws_connect_ok e = false \/ ws_send_ok e = false \/
       exists k, k < 3 /\ length (firstn k (pending w)) = k /\
                 Forall (quiet uid) (firstn k (pending w)) /\
                 breaking (nth_error (pending w) k)))).
Proof.
  intros Hi. split; [|split; [|split]].
  - intros payload H. destruct payload; simpl; auto.
    rewrite scan_records_find, H. reflexivity.
  - intros n d payload rest t tr Hd Hp. apply N.ltb_lt in Hd.
    cbn [recv_more]. unfold mbind at 1, _recv_once, mbind at 1, recv.
    cbn [pending waited_ms trace]. rewrite Hd.
    unfold frame_result in Hp.
    destruct payload; unfold ret; try reflexivity. rewrite Hp. reflexivity.
  - intros d payload rest Hc Hs E Hd Hp.
    pose proof (fetch_via_websocket_run e uid w Hi Hc Hs) as H.
    destruct (receives uid 3 (pending w)) as [[k t] later].
    destruct H as [-> _]. rewrite E. apply N.ltb_lt in Hd.
    cbn [first_match]. rewrite Hd, Hp. reflexivity.
  - intros x Hx.
    destruct (ws_connect_ok e) eqn:Hc.
    2:{ right. revert Hx. unfold _fetch_count_via_websocket. rewrite Hi.
        unfold try_except, try_finally, connect, send, emit, mbind, ret, raise.
        rewrite Hc. cbn. intros Hx. inversion Hx. auto. }
    destruct (ws_send_ok e) eqn:Hs.
    2:{ right. revert Hx. unfold _fetch_count_via_websocket. rewrite Hi.
        unfold try_except, try_finally, connect, send, emit, mbind, ret, raise.
        rewrite Hc, Hs. cbn. intros Hx. inversion Hx. auto. }
    pose proof (fetch_via_websocket_run e uid w Hi Hc Hs) as H.
    destruct (receives uid 3 (pending w)) as [[k t] later].
    destruct H as [H _]. rewrite H in Hx.
    pose proof (first_match_cases uid 3 (pending w)) as C.
    rewrite Hx in C.
    destruct C as [(-> & C)|(-> & C)]; [left|right]; auto.
Qed.

Lemma feed_skips_frames_witness :
  fst (_fetch_count_via_websocket env_ok (py "SSD-4") world_skipped_frame) =
  first_match (py "SSD-4") 2 [Arrives 35 (Json frame_target)].
Proof.
  destruct (feed_skips_frames_without_match env_ok (py "SSD-4")
              world_skipped_frame eq_refl) as (_ & _ & H & _).
  apply (H 20%N (JObj [(py "status", JStr (py "ok"))])); reflexivity.
Defined.

(** ** The orchestrator *)

(** C8. When the HTTP fetch fails, by a transport error or a status
    outside 2xx, the call fails with the fetch error at once: the request
    is its only action besides closing its own client; no page is parsed,
    no identifier recovered, no debug file written, no feed connection
    opened, and the feed is left untouched. *)
Theorem fetch_failure_skips_fallback e now w :
  httpx_installed e = true -> http_fetch_fails e ->
  fetch_guest_count_async e now w =
  (Raise fetch_failed,
   mkWorld (pending w) (waited_ms w)
           (closing e ++ HttpGet (target_url e) :: trace w)).
Proof.
  intros Hi Hf. unfold fetch_guest_count_async, closing. rewrite Hi.
  cbn [negb].
  unfold try_finally, try_except, mbind, emit, ret, raise.
  destruct Hf as [-> | (status & text & -> & Hs)]; [|rewrite Hs];
    cbn [pending waited_ms trace];
    destruct (client_supplied e); cbn [pending waited_ms trace];
    destruct w; reflexivity.
Qed.

Lemma fetch_failure_witness :
  fetch_guest_count_async env_unavailable 0%Z world_second_frame =
  (Raise fetch_failed,
   mkWorld (pending world_second_frame) 0
           [HttpClose; HttpGet "https://example.org/city.html"]).
Proof.
  apply (fetch_failure_skips_fallback env_unavailable 0%Z world_second_frame).
  - reflexivity.
  - right. exists 503%N, (py "SSD-4_visitornumber"). split; reflexivity.
Defined.

(** C9. When the page was fetched, the extractor failed and the page
    holds no identifier, the call fails with the extractor's own error, and
    its outcome is the same whether the debug file can be written or not;
    the feed is not contacted. *)
Theorem debug_dump_never_changes_result e now w status html msg :
  httpx_installed e = true ->
  http e = HttpResponse status html -> is_success status = true ->
  _parse_guest_count now html = Raise (GuestCountError msg) ->
  _extract_uid_from_html html = None ->
  forall ok,
    fetch_guest_count_async (with_dump_ok e ok) now w =
    (Raise (GuestCountError msg),
     mkWorld (pending w) (waited_ms w)
             (closing e ++ DumpHtml html :: HttpGet (target_url e) :: trace w)).
Proof.
  intros Hi Hh Hs Hp Hu ok.
  unfold fetch_guest_count_async, closing, with_dump_ok.
  cbn [httpx_installed http client_supplied target_url dump_ok].
  rewrite Hi, Hh, Hs. cbn [negb].
  unfold try_finally, try_except, mbind, emit, ret, raise, lift,
    _maybe_dump_html_for_debug, try_except, mbind, emit, ret, raise.
  rewrite Hp, Hu. cbn [pending waited_ms trace dump_ok].
  destruct ok; destruct (client_supplied e);
    cbn [pending waited_ms trace]; destruct w; reflexivity.
Qed.

Lemma debug_dump_witness :
  fetch_guest_count_async (with_dump_ok env_ok false) 0%Z world_second_frame =
  (Raise not_found,
   mkWorld (pending world_second_frame) 0
           [HttpClose; DumpHtml (py "Keine Angaben verfügbar");
            HttpGet "https://example.org/city.html"]).
Proof.
  apply (debug_dump_never_changes_result env_ok 0%Z world_second_frame 200%N
           (py "Keine Angaben verfügbar")
           "Could not find guest count in page");
    vm_compute; reflexivity.
Defined.

(** ** Substitution *)

Lemma match_here_end_bound r s m :
  match_here r s 0 = Some m -> m_end m <= length s.
Proof.
  intros H. apply match_here_sound in H.
  destruct H as (u & v & g' & -> & _ & ->). simpl. rewrite length_app. lia.
Qed.

Lemma sub_aux_skip r repl : forall s n,
  n <= length s -> sub_aux r repl s n = sub_aux r repl (skipn n s) 0.
Proof.
  induction s as [|c s IH]; intros [|n] Hn; simpl in *; auto; try lia.
  apply IH. lia.
Qed.

(** The unfolding of a substitution at a non-empty text. *)
Lemma sub_cons r repl c s :
  sub r repl (c :: s) =
  match match_here r (c :: s) 0 with
  | None => c :: sub r repl s
  | Some m =>
      match m_end m with
      | O => repl ++ c :: sub r repl s
      | S n => repl ++ sub r repl (skipn n s)
      end
  end.
Proof.
  unfold sub. cbn [sub_aux].
  destruct (match_here r (c :: s) 0) as [m|] eqn:E; auto.
  destruct (m_end m) as [|n] eqn:En; auto.
  rewrite sub_aux_skip; auto.
  apply match_here_end_bound in E. simpl in E. lia.
Qed.

Lemma sub_aux_in r repl x : forall s n,
  In x (sub_aux r repl s n) -> In x s \/ In x repl.
Proof.
  induction s as [|c s IH]; intros n H; simpl in H.
  - destruct n; [|contradiction].
    destruct (match_here r [] 0); [auto | contradiction].
  - assert (Hrec : forall k, In x (sub_aux r repl s k) ->
                             In x (c :: s) \/ In x repl).
    { intros k Hk. destruct (IH _ Hk); [left; right; auto | auto]. }
    destruct n as [|n]; [|eapply Hrec; exact H].
    destruct (match_here r (c :: s) 0) as [m|].
    + destruct (m_end m); apply in_app_or in H; destruct H as [H|H];
        try (right; exact H); try (eapply Hrec; exact H).
      destruct H as [->|H]; [left; left; reflexivity | eapply Hrec; exact H].
    + destruct H as [->|H]; [left; left; reflexivity | eapply Hrec; exact H].
Qed.

Lemma sub_in r repl x s :
  In x (sub r repl s) -> In x s \/ In x repl.
Proof. apply sub_aux_in. Qed.

(** Greedy repetition before a continuation that always accepts takes the
    longest run. *)
Lemma take_drop_while p (s : str) : take_while p s ++ drop_while p s = s.
Proof. induction s as [|c s IH]; simpl; auto. destruct (p c); simpl; congruence. Qed.

Lemma rep_greedy (T : Type) p (k : str -> option T) :
  (forall s, k s <> None) ->
  forall s lo,
    rep p lo None s k =
    if lo <=? length (take_while p s) then k (drop_while p s) else None.
Proof.
  intros Hk. induction s as [|c s IH]; intros lo.
  - simpl. destruct lo; reflexivity.
  - cbn [rep take_while drop_while option_map]. destruct (p c) eqn:Hp.
    + rewrite IH. cbn [length].
      destruct lo as [|lo]; cbn [pred].
      * simpl. destruct (k (drop_while p s)) eqn:E; auto.
        exfalso. exact (Hk _ E).
      * change (S lo <=? S (length (take_while p s)))
          with (lo <=? length (take_while p s)).
        destruct (lo <=? length (take_while p s)); auto.
        destruct (k (drop_while p s)) eqn:E; auto.
    + simpl. destruct lo; reflexivity.
Qed.

Lemma match_here_SPACES s :
  match_here SPACES s 0 =
  match take_while is_space s with
  | [] => None
  | u => Some (mkMatch 0 (length u) None)
  end.
Proof.
  unfold match_here, SPACES, plus. cbn [run].
  rewrite rep_greedy by discriminate.
  pose proof (take_drop_while is_space s) as E.
  destruct (take_while is_space s) as [|c u] eqn:Et; [reflexivity|].
  assert (L : length s = length (c :: u) + length (drop_while is_space s)).
  { rewrite <- E at 1. apply length_app. }
  change (1 <=? length (c :: u)) with true. cbv iota.
  do 2 f_equal. lia.
Qed.

(** ** Stripping *)

Lemma drop_while_app_last p (a : str) c :
  p c = false -> drop_while p (a ++ [c]) = drop_while p a ++ [c].
Proof.
  intros Hc. induction a as [|x a IH]; simpl.
  - rewrite Hc. reflexivity.
  - destruct (p x); auto.
Qed.

Lemma drop_while_idem p (s : str) :
  drop_while p (drop_while p s) = drop_while p s.
Proof.
  induction s as [|c s IH]; simpl; auto.
  destruct (p c) eqn:E; auto. simpl. rewrite E. reflexivity.
Qed.

Lemma rstrip_cons c s :
  is_space c = false -> rstrip (c :: s) = c :: rstrip s.
Proof.
  intros Hc. unfold rstrip. simpl rev.
  rewrite drop_while_app_last by exact Hc.
  rewrite rev_app_distr. reflexivity.
Qed.

Lemma rstrip_idem s : rstrip (rstrip s) = rstrip s.
Proof.
  unfold rstrip. rewrite rev_involutive, drop_while_idem. reflexivity.
Qed.

Lemma lstrip_head s :
  match lstrip s with [] => True | c :: _ => is_space c = false end.
Proof.
  unfold lstrip. induction s as [|c s IH]; simpl; auto.
  destruct (is_space c) eqn:E; auto.
Qed.

Lemma strip_idem s : strip (strip s) = strip s.
Proof.
  unfold strip. pose proof (lstrip_head s) as H.
  destruct (lstrip s) as [|c z]; [reflexivity|].
  rewrite (rstrip_cons c z H). unfold lstrip at 1. simpl. rewrite H.
  rewrite <- (rstrip_cons c z H). apply rstrip_idem.
Qed.

(** A stripped text is a segment of the text. *)
Lemma strip_segment s : exists a b, s = a ++ strip s ++ b.
Proof.
  unfold strip, lstrip.
  exists (take_while is_space s).
  pose proof (take_drop_while is_space s) as E.
  set (z := drop_while is_space s) in *. unfold rstrip.
  exists (rev (take_while is_space (rev z))).
  rewrite <- rev_app_distr, take_drop_while, rev_involutive. auto.
Qed.

(** ** Tags *)

Lemma not_gt_spec c : noneof (py ">") c = true <-> c <> 62%N.
Proof.
  unfold noneof. change (py ">") with [62%N]. simpl. unfold char_eqb.
  rewrite orb_false_r, negb_true_iff, N.eqb_neq. tauto.
Qed.

Lemma TAG_sound s m :
  match_here TAG s 0 = Some m -> tag_at s /\ m_end m <> 0.
Proof.
  intros H. apply match_here_sound in H.
  destruct H as (u & v & g' & -> & HM & ->).
  unfold TAG, plus in HM.
  apply Matches_inv_cat in HM. destruct HM as (a & b & g1 & -> & Ha & HM).
  apply Matches_lit in Ha. destruct Ha as (-> & ->).
  apply Matches_inv_cat in HM. destruct HM as (x & y & g2 & -> & Hx & Hy).
  apply Matches_lit in Hy. destruct Hy as (-> & ->).
  apply Matches_inv_rep in Hx. destruct Hx as (_ & Hx & Hl & _).
  change (py "<") with [60%N]. change (py ">") with [62%N] in *.
  split; [|simpl; lia].
  destruct x as [|c x]; [simpl in Hl; lia|].
  simpl in Hx. apply andb_prop in Hx. destruct Hx as [Hc _].
  exists c, (x ++ [62%N] ++ v). repeat split.
  - simpl. rewrite <- !app_assoc. reflexivity.
  - apply not_gt_spec. exact Hc.
  - apply in_or_app. right. left. reflexivity.
Qed.

Lemma first_occurrence (x : char) (w : str) :
  In x w -> exists a b, w = a ++ x :: b /\ ~ In x a.
Proof.
  induction w as [|c w IH]; [contradiction|]. intros H.
  destruct (N.eq_dec c x) as [->|Hne].
  - exists [], w. auto.
  - destruct H as [->|H]; [congruence|].
    destruct (IH H) as (a & b & -> & Ha).
    exists (c :: a), b. split; auto. intros [E|E]; auto.
Qed.

Lemma TAG_complete s : tag_at s -> match_here TAG s 0 <> None.
Proof.
  intros (c & w & -> & Hc & Hw).
  apply first_occurrence in Hw. destruct Hw as (a & b & -> & Ha).
  enough (H : match_here TAG (([60%N] ++ (c :: a) ++ [62%N]) ++ b) 0 <> None).
  { simpl in H. rewrite <- app_assoc in H. exact H. }
  apply match_here_complete with (g := None) (g' := None).
  unfold TAG, plus. apply M_cat with (g' := None).
  - apply Matches_lit. split; reflexivity.
  - apply M_cat with (g' := None).
    + apply M_rep.
      * apply forallb_forall. intros y [<-|Hy].
        -- apply not_gt_spec, Hc.
        -- apply not_gt_spec. intros ->. auto.
      * simpl. lia.
      * discriminate.
    + apply Matches_lit. split; reflexivity.
Qed.

Lemma sub_nil r repl : never_empty r -> sub r repl [] = [].
Proof.
  intros Hn. unfold sub. simpl.
  destruct (match_here r [] 0) as [m|] eqn:E; auto.
  pose proof (match_here_end_bound _ _ _ E). specialize (Hn _ _ E).
  simpl in *. lia.
Qed.

Lemma sub_cons_none r repl c s :
  match_here r (c :: s) 0 = None -> sub r repl (c :: s) = c :: sub r repl s.
Proof. intros H. rewrite sub_cons, H. reflexivity. Qed.

Lemma sub_cons_some r repl c s m :
  never_empty r -> match_here r (c :: s) 0 = Some m ->
  sub r repl (c :: s) = repl ++ sub r repl (skipn (pred (m_end m)) s) /\
  pred (m_end m) <= length s.
Proof.
  intros Hn H. rewrite sub_cons, H.
  pose proof (match_here_end_bound _ _ _ H) as Hb. specialize (Hn _ _ H).
  destruct (m_end m) as [|n]; [congruence|]. simpl in *. split; auto. lia.
Qed.

(** Substituting a space for the matches of such a pattern leaves no tag,
    when a tag could only start where the pattern matches. *)
Lemma sub_tagless r :
  never_empty r -> never_at_gt r ->
  forall n s,
    length s <= n ->
    (forall pre suf, s = pre ++ suf ->
                     match_here r suf 0 = None -> ~ tag_at suf) ->
    tagless (sub r (py " ") s).
Proof.
  intros Hne Hgt. change (py " ") with [32%N].
  induction n as [|n IH]; intros s Hlen Hs.
  - destruct s; [|simpl in Hlen; lia]. rewrite sub_nil; simpl; auto.
  - destruct s as [|c s]; [rewrite sub_nil; simpl; auto|].
    simpl in Hlen.
    assert (Hsuf : forall k, k <= length s ->
              tagless (sub r [32%N] (skipn k s))).
    { intros k Hk. apply IH.
      - rewrite length_skipn. lia.
      - intros pre suf E. apply (Hs ((c :: firstn k s) ++ pre)).
        rewrite <- app_assoc, <- E. simpl. rewrite firstn_skipn. reflexivity. }
    destruct (match_here r (c :: s) 0) as [m|] eqn:E.
    + destruct (sub_cons_some r [32%N] c s m Hne E) as [-> Hk].
      simpl. split; [|apply Hsuf, Hk].
      intros (c' & w & Ew & _). discriminate.
    + rewrite (sub_cons_none _ _ _ _ E).
      specialize (Hsuf 0 (Nat.le_0_l _)). simpl in Hsuf.
      simpl. split; auto.
      intros (c2 & w & Ew & Hc2 & Hw). inversion Ew as [[Ec Esub]].
      subst c. clear Ew.
      assert (Hnt : ~ tag_at (60%N :: s)) by (apply (Hs []); auto).
      destruct s as [|d s].
      * rewrite sub_nil in Esub by assumption. discriminate.
      * destruct (N.eq_dec d 62%N) as [->|Hd].
        -- rewrite (sub_cons_none _ _ _ _ (Hgt s)) in Esub.
           inversion Esub. congruence.
        -- assert (Hin : In 62%N (sub r [32%N] (d :: s))).
           { rewrite Esub. right. exact Hw. }
           apply sub_in in Hin. destruct Hin as [[Hin|Hin]|[Hin|[]]];
             try congruence; try discriminate.
           apply Hnt. exists d, s. auto.
Qed.

Lemma tagless_suffix a b : tagless (a ++ b) -> tagless b.
Proof. induction a as [|c a IH]; simpl; auto. intros [_ H]. auto. Qed.

Lemma tag_at_app s b : tag_at s -> tag_at (s ++ b).
Proof.
  intros (c & w & -> & Hc & Hw). exists c, (w ++ b). repeat split; auto.
  apply in_or_app. auto.
Qed.

Lemma tagless_prefix a b : tagless (a ++ b) -> tagless a.
Proof.
  induction a as [|c a IH]; simpl; auto. intros [H1 H2]. split; auto.
  intros H. apply H1. apply (tag_at_app (c :: a) b H).
Qed.

Lemma tagless_head s : tagless s -> ~ tag_at s.
Proof.
  destruct s; simpl; [|tauto]. intros _ (c & w & E & _). discriminate.
Qed.

Lemma TAG_sub_tagless s : tagless (sub TAG (py " ") s).
Proof.
  apply (sub_tagless TAG) with (n := length s); auto.
  - intros x m H. apply (TAG_sound _ _ H).
  - intros x. reflexivity.
  - intros pre suf _ H Ht. apply TAG_complete in Ht. auto.
Qed.

Lemma SPACES_never_empty : never_empty SPACES.
Proof.
  intros s m H. rewrite match_here_SPACES in H.
  destruct (take_while is_space s); inversion H. simpl. discriminate.
Qed.

Lemma SPACES_sub_tagless s :
  tagless s -> tagless (sub SPACES (py " ") s).
Proof.
  intros Ht. apply (sub_tagless SPACES) with (n := length s); auto.
  - apply SPACES_never_empty.
  - intros x. rewrite match_here_SPACES. reflexivity.
  - intros pre suf -> _. apply tagless_head. eapply tagless_suffix; eauto.
Qed.

Lemma tagless_sub_id s : tagless s -> sub TAG (py " ") s = s.
Proof.
  induction s as [|c s IH]; intros H.
  - apply sub_nil. intros x m Hm. apply (TAG_sound _ _ Hm).
  - destruct H as [H1 H2].
    destruct (match_here TAG (c :: s) 0) as [m|] eqn:E.
    + exfalso. apply H1. apply (TAG_sound _ _ E).
    + rewrite (sub_cons_none _ _ _ _ E), IH; auto.
Qed.

(** ** White space *)

Lemma skipn_take_while p (s : str) :
  skipn (length (take_while p s)) s = drop_while p s.
Proof.
  induction s as [|c s IH]; simpl; auto. destruct (p c); simpl; auto.
Qed.

Lemma drop_while_head_false p (s : str) :
  match drop_while p s with [] => True | d :: _ => p d = false end.
Proof.
  induction s as [|c s IH]; simpl; auto. destruct (p c) eqn:E; auto.
Qed.

Lemma SPACES_sub_cons c s :
  sub SPACES (py " ") (c :: s) =
  if is_space c then 32%N :: sub SPACES (py " ") (drop_while is_space s)
  else c :: sub SPACES (py " ") s.
Proof.
  destruct (match_here SPACES (c :: s) 0) as [m|] eqn:E;
    pose proof E as E'; rewrite match_here_SPACES in E'; simpl in E';
    destruct (is_space c) eqn:Hc; try discriminate.
  - destruct (sub_cons_some SPACES (py " ") c s m SPACES_never_empty E)
      as [-> _].
    inversion E'; subst. simpl. rewrite skipn_take_while. reflexivity.
  - apply sub_cons_none, E.
Qed.

Lemma SPACES_sub_collapsed n : forall s,
  length s <= n ->
  collapsed (sub SPACES (py " ") s) /\
  match s with
  | [] => sub SPACES (py " ") s = []
  | c :: _ =>
      is_space c = false -> exists rest, sub SPACES (py " ") s = c :: rest
  end.
Proof.
  induction n as [|n IH]; intros s Hlen.
  - destruct s; [|simpl in Hlen; lia].
    rewrite (sub_nil _ _ SPACES_never_empty). simpl. auto.
  - destruct s as [|c s].
    + rewrite (sub_nil _ _ SPACES_never_empty). simpl. auto.
    + simpl in Hlen. rewrite SPACES_sub_cons.
      destruct (is_space c) eqn:Hc.
      * split; [|discriminate].
        assert (Hd : length (drop_while is_space s) <= n).
        { pose proof (take_drop_while is_space s) as E.
          apply (f_equal (@length char)) in E. rewrite length_app in E. lia. }
        destruct (IH _ Hd) as [Hcol Hhead].
        simpl. split; auto. intros _. split; auto.
        pose proof (drop_while_head_false is_space s) as Hf.
        destruct (drop_while is_space s) as [|d z].
        -- rewrite Hhead. exact I.
        -- destruct (Hhead Hf) as (rest & ->). exact Hf.
      * destruct (IH s) as [Hcol _]; [lia|].
        split; [|eauto]. simpl. split; auto. congruence.
Qed.

Lemma collapsed_sub_id s : collapsed s -> sub SPACES (py " ") s = s.
Proof.
  induction s as [|c s IH]; intros H.
  - apply sub_nil, SPACES_never_empty.
  - destruct H as [H1 H2]. rewrite SPACES_sub_cons.
    destruct (is_space c) eqn:Hc.
    + destruct (H1 eq_refl) as [-> Hnext].
      destruct s as [|d s]; simpl.
      * rewrite sub_nil by apply SPACES_never_empty. reflexivity.
      * rewrite Hnext. rewrite (IH H2). reflexivity.
    + rewrite (IH H2). reflexivity.
Qed.

Lemma collapsed_suffix a b : collapsed (a ++ b) -> collapsed b.
Proof. induction a as [|c a IH]; simpl; auto. intros [_ H]. auto. Qed.

Lemma collapsed_prefix a b : collapsed (a ++ b) -> collapsed a.
Proof.
  induction a as [|c a IH]; simpl; auto. intros [H1 H2]. split; auto.
  intros Hc. destruct (H1 Hc) as [-> Hn]. split; auto.
  destruct a; simpl in *; auto.
Qed.

(** ** The text normalizer *)

Lemma unescape_no_amp s : mem 38%N s = false -> unescape s = Ok s.
Proof. intros H. unfold unescape. rewrite H. reflexivity. Qed.

Lemma mem_false_iff c s : mem c s = false <-> ~ In c s.
Proof.
  unfold mem. split.
  - intros H Hin. assert (existsb (char_eqb c) s = true).
    { apply existsb_exists. exists c. split; auto. apply N.eqb_refl. }
    congruence.
  - intros H. destruct (existsb (char_eqb c) s) eqn:E; auto.
    apply existsb_exists in E. destruct E as (x & Hx & Ex).
    apply N.eqb_eq in Ex. subst. contradiction.
Qed.

(** On a text without [&] the normalizer returns the stripped result of
    the two substitutions, and what it returns holds no tag, no white space
    to collapse, no [&], and is stripped. *)
Lemma normalized_no_amp s :
  mem 38%N s = false ->
  let t := strip (sub SPACES (py " ") (sub TAG (py " ") s)) in
  _extract_visible_text s = Ok t /\
  tagless t /\ collapsed t /\ mem 38%N t = false.
Proof.
  intros Hs. cbv zeta. unfold _extract_visible_text.
  set (t2 := sub SPACES (py " ") (sub TAG (py " ") s)).
  assert (Hamp : forall x, ~ In 38%N x -> ~ In 38%N (sub TAG (py " ") x) /\
                                         ~ In 38%N (sub SPACES (py " ") x)).
  { intros x Hx. split; intros H; apply sub_in in H;
      destruct H as [H|[H|[]]]; auto; discriminate. }
  assert (H2 : ~ In 38%N t2).
  { apply Hamp. apply Hamp. apply mem_false_iff, Hs. }
  rewrite (unescape_no_amp t2) by (apply mem_false_iff, H2). cbn [bind].
  destruct (strip_segment t2) as (a & b & E).
  assert (Ht : tagless t2) by apply SPACES_sub_tagless, TAG_sub_tagless.
  assert (Hc : collapsed t2)
    by apply (SPACES_sub_collapsed (length (sub TAG (py " ") s))), le_n.
  rewrite E in Ht, Hc, H2.
  repeat split.
  - eapply tagless_prefix, tagless_suffix; eauto.
  - eapply collapsed_prefix, collapsed_suffix; eauto.
  - apply mem_false_iff. intros Hin. apply H2.
    apply in_or_app. right. apply in_or_app. left. exact Hin.
Qed.

(** C3, refuted as stated.  Character references are decoded after the
    tags are removed, so a first pass can produce markup, white space or
    further references that a second pass treats again. *)
Lemma normalizer_not_idempotent :
  (_extract_visible_text (py "&lt;b&gt;bold") = Ok (py "<b>bold") /\
   _extract_visible_text (py "<b>bold") = Ok (py "bold")) /\
  (_extract_visible_text (py "Tom &amp;amp; Jerry") =
     Ok (py "Tom &amp; Jerry") /\
   _extract_visible_text (py "Tom &amp; Jerry") = Ok (py "Tom & Jerry")) /\
  (_extract_visible_text (py "a&#9;b") = Ok [97; 9; 98]%N /\
   _extract_visible_text [97; 9; 98]%N = Ok (py "a b")).
Proof. repeat split; vm_compute; reflexivity. Qed.

(** C3, amended.  On every text that holds no [&], the normalizer returns
    a text, and normalizing that text returns it unchanged. *)
Theorem normalizer_idempotent_without_references s :
  mem (char_of "&") s = false ->
  exists t,
    _extract_visible_text s = Ok t /\ _extract_visible_text t = Ok t.
Proof.
  change (char_of "&") with 38%N. intros Hs.
  destruct (normalized_no_amp s Hs) as (E & Ht & Hc & Ha).
  destruct (normalized_no_amp _ Ha) as (E2 & _).
  eexists. split; [exact E|].
  rewrite E2. rewrite (tagless_sub_id _ Ht), (collapsed_sub_id _ Hc).
  rewrite strip_idem. reflexivity.
Qed.

Lemma normalizer_idempotent_witness :
  exists t,
    _extract_visible_text (py "<p>Anzahl   Gäste</p> <b>73</b> < 250 ") = Ok t /\
    _extract_visible_text t = Ok t.
Proof.
  apply (normalizer_idempotent_without_references
           (py "<p>Anzahl   Gäste</p> <b>73</b> < 250 ")).
  vm_compute. reflexivity.
Defined.
